(** * Execution-backend orchestration of the Cirrus CLI: a shallow embedding

    The development follows two source files:
    - [internal/executor/instance/instance.go]: the instance dispatcher
      [NewFromProto], the container orchestrator [RunContainerizedAgent],
      the sidecar manager [runAdditionalContainer], the resource clamps and
      the image pull helper;
    - the [parallels] package: [TimeSyncCommand] and the agent command line
      that [Parallels.Run] writes to the login shell.

    Go values are modelled as follows.  [uint32]/[uint64] are [N] with the
    wrap-around written out, [int64] is [Z], [float32] is a [spec_float] at
    precision 24 and maximal exponent 128, strings are [string], slices are
    lists, [map[string]string] is a [gmap string string], an [error] is a
    small inductive type that remembers which sentinel a [%w] wraps, a Go
    pair [(T, error)] is a pair of options, pointers to protocol messages
    are locations in an explicit store. *)

From Stdlib Require Import ZArith NArith String Ascii List Bool Lia.
From Stdlib Require Import DecimalString SpecFloat.
From stdpp Require Import base option list gmap strings.

Import ListNotations.
Local Open Scope string_scope.
Local Open Scope list_scope.

(* ===================================================================== *)
(** * Errors *)
(* ===================================================================== *)

Module Errors.

(** The package-level sentinels created with [errors.New]. *)
Inductive sentinel :=
| ErrFailedToCreateInstance
| ErrUnsupportedInstance
| ErrAdditionalContainerFailed
| ErrFailed.                      (* parallels.ErrFailed *)

(** An [error] value.  [Wrap s msg] is [fmt.Errorf("%w: ...", s, ...)];
    [Foreign msg] is an error built outside these packages (a backend
    error, a helper's error), about which nothing is known. *)
Inductive error :=
| Sentinel (s : sentinel)
| Wrap (s : sentinel) (msg : string)
| Foreign (msg : string).

Definition sentinel_eqb (a b : sentinel) : bool :=
  match a, b with
  | ErrFailedToCreateInstance, ErrFailedToCreateInstance
  | ErrUnsupportedInstance, ErrUnsupportedInstance
  | ErrAdditionalContainerFailed, ErrAdditionalContainerFailed
  | ErrFailed, ErrFailed => true
  | _, _ => false
  end.

(** [errors.Is err target] for a sentinel target. *)
Definition errors_Is (e : error) (target : sentinel) : bool :=
  match e with
  | Sentinel s | Wrap s _ => sentinel_eqb s target
  | Foreign _ => false
  end.

(** [err.Error()], used by the [%v] verb. *)
Definition sentinel_text (s : sentinel) : string :=
  match s with
  | ErrFailedToCreateInstance => "failed to create instance"
  | ErrUnsupportedInstance => "unsupported instance type"
  | ErrAdditionalContainerFailed => "additional container failed"
  | ErrFailed => "Parallels isolation failed"
  end.

Definition Error (e : error) : string :=
  match e with
  | Sentinel s => sentinel_text s
  | Wrap s msg => sentinel_text s ++ ": " ++ msg
  | Foreign msg => msg
  end.

End Errors.
Import Errors.

(* ===================================================================== *)
(** * Strings and numbers of the Go standard library *)
(* ===================================================================== *)

Module GoStd.

(** [strconv.FormatUint(n, 10)]. *)
Definition FormatUint (n : N) : string :=
  NilZero.string_of_uint (N.to_uint n).

(** [strconv.FormatInt(z, 10)]. *)
Definition FormatInt (z : Z) : string :=
  NilZero.string_of_int (Z.to_int z).

(** [strings.Join(elems, sep)]. *)
Fixpoint Join (elems : list string) (sep : string) : string :=
  match elems with
  | [] => ""
  | [s] => s
  | s :: rest => s ++ sep ++ Join rest sep
  end.

(** [strings.HasPrefix(s, prefix)]. *)
Fixpoint HasPrefix (s prefix : string) : bool :=
  match prefix, s with
  | EmptyString, _ => true
  | String _ _, EmptyString => false
  | String p prefix', String c s' => Ascii.eqb p c && HasPrefix s' prefix'
  end.

(** [strings.TrimPrefix(s, prefix)]. *)
Definition TrimPrefix (s prefix : string) : string :=
  if HasPrefix s prefix
  then substring (String.length prefix) (String.length s - String.length prefix) s
  else s.

(** [strings.ToLower] on ASCII text. *)
Definition lower_ascii (c : ascii) : ascii :=
  let n := nat_of_ascii c in
  if (65 <=? n)%nat && (n <=? 90)%nat then ascii_of_nat (n + 32) else c.

Fixpoint ToLower (s : string) : string :=
  match s with
  | EmptyString => EmptyString
  | String c s' => String (lower_ascii c) (ToLower s')
  end.

(** The one-character string holding a double quote. *)
Definition dquote : string := String (ascii_of_nat 34) EmptyString.

(** The one-character string holding a line feed. *)
Definition newline : string := String (ascii_of_nat 10) EmptyString.

(** Wrap-around of the unsigned 32-bit integers. *)
Definition wrap32 (n : N) : N := (n mod 2 ^ 32)%N.

End GoStd.
Import GoStd.

(* ===================================================================== *)
(** * Resource clamps *)
(* ===================================================================== *)

Module Clamp.

(** A [float32] is a [spec_float]; comparisons are those of IEEE 754.
    [clampCPU] widens both arguments to [float64], applies [math.Min] and
    narrows the result.  Widening is exact, and [math.Min] returns one of
    its arguments, a NaN or an infinity, so narrowing gives the value back:
    the model applies [math.Min] to the [float32] values themselves. *)
Definition float32 := spec_float.

Definition IsNaN (x : float32) : bool :=
  match x with S754_nan => true | _ => false end.

(** [math.IsInf(x, -1)]. *)
Definition IsNegInf (x : float32) : bool :=
  match x with S754_infinity true => true | _ => false end.

(** [math.Signbit]. *)
Definition Signbit (x : float32) : bool :=
  match x with
  | S754_zero s | S754_infinity s | S754_finite s _ _ => s
  | S754_nan => false
  end.

Definition fzero : float32 := S754_zero false.

(** [math.Min], case by case as in the Go library:
<<
    switch {
    case IsInf(x, -1) || IsInf(y, -1): return Inf(-1)
    case IsNaN(x) || IsNaN(y):         return NaN()
    case x == 0 && x == y:             if Signbit(x) { return x }; return y
    }
    if x < y { return x }
    return y
>> *)
Definition math_Min (x y : float32) : float32 :=
  if IsNegInf x || IsNegInf y then S754_infinity true
  else if IsNaN x || IsNaN y then S754_nan
  else if SFeqb x fzero && SFeqb x y then (if Signbit x then x else y)
  else if SFltb x y then x
  else y.

Definition clampCPU (requested available : float32) : float32 :=
  math_Min requested available.

Definition clampMemory (requested available : N) : N :=
  if (available <? requested)%N then available else requested.

End Clamp.
Import Clamp.

(* ===================================================================== *)
(** * Protocol messages (package [api]) *)
(* ===================================================================== *)

Module Api.

(** [api.Platform], a protocol enumeration; [Platform_other] stands for a
    number without a name. *)
Inductive Platform :=
| Platform_DARWIN
| Platform_LINUX
| Platform_WINDOWS
| Platform_FREEBSD
| Platform_other (n : Z).

(** The generated [String] method: the enumerator's name, or the number. *)
Definition Platform_String (p : Platform) : string :=
  match p with
  | Platform_DARWIN => "DARWIN"
  | Platform_LINUX => "LINUX"
  | Platform_WINDOWS => "WINDOWS"
  | Platform_FREEBSD => "FREEBSD"
  | Platform_other n => FormatInt n
  end.

Record PortMapping := {
  ContainerPort : N;              (* uint32 *)
  HostPort : N                    (* uint32 *)
}.

Record AdditionalContainer := {
  ac_Name : string;
  ac_Image : string;
  ac_Command : list string;
  ac_Environment : gmap string string;
  ac_Cpu : float32;
  ac_Memory : N;                  (* uint32, MiB *)
  ac_Ports : list PortMapping
}.

(** A [*api.AdditionalContainer]: a location of the store. *)
Definition loc := positive.

(** The objects that the pointers of a run refer to.  A location that is
    not in the store is a nil (or dangling) pointer. *)
Definition heap := gmap loc AdditionalContainer.

Inductive IsolationType :=
| Isolation_None_
| Isolation_Parallels_ (image user password : string) (platform : Platform)
| Isolation_other (name : string).

(** [*api.Isolation]: a message with a one-of [Type], possibly unset. *)
Record Isolation := { iso_Type : option IsolationType }.

Record ContainerInstanceMsg := {
  ci_Image : string;
  ci_Cpu : float32;
  ci_Memory : N;
  ci_AdditionalContainers : list loc;
  ci_Platform : Platform;
  ci_OsVersion : string
}.

Record PipeInstanceMsg := { pi_Cpu : float32; pi_Memory : N }.

Record PrebuiltImageInstanceMsg := {
  pii_Repository : string;
  pii_Reference : string;
  pii_Dockerfile : string;
  pii_Arguments : gmap string string
}.

Record PersistentWorkerInstanceMsg := { pwi_Isolation : option Isolation }.

Record DockerBuilderMsg := { db_Platform : Platform }.

(** The dynamic type of an unmarshalled instance descriptor. *)
Inductive Message :=
| MsgContainerInstance (m : ContainerInstanceMsg)
| MsgPipeInstance (m : PipeInstanceMsg)
| MsgPrebuiltImageInstance (m : PrebuiltImageInstanceMsg)
| MsgPersistentWorkerInstance (m : PersistentWorkerInstanceMsg)
| MsgDockerBuilder (m : DockerBuilderMsg)
| MsgOther (typeName : string).

(** An [any.Any] is known here by what [ptypes.UnmarshalAny] makes of it:
    a message, or an error (unknown type URL, malformed bytes). *)
Inductive Any :=
| Packed (m : Message)
| Malformed (err : error).

Definition UnmarshalAny (a : Any) : option Message * option error :=
  match a with
  | Packed m => (Some m, None)
  | Malformed err => (None, Some err)
  end.

(** [%T] of the dynamic message. *)
Definition typeName (m : Message) : string :=
  match m with
  | MsgContainerInstance _ => "*api.ContainerInstance"
  | MsgPipeInstance _ => "*api.PipeInstance"
  | MsgPrebuiltImageInstance _ => "*api.PrebuiltImageInstance"
  | MsgPersistentWorkerInstance _ => "*api.PersistentWorkerInstance"
  | MsgDockerBuilder _ => "*api.DockerBuilder"
  | MsgOther n => n
  end.

End Api.
Import Api.

(* ===================================================================== *)
(** * Run configuration (package [runconfig]) *)
(* ===================================================================== *)

Module Runconfig.

(** The fields of [runconfig.RunConfig] that the orchestrators read. *)
Record RunConfig := {
  ContainerEndpoint : string;
  DirectEndpoint : string;
  ServerSecret : string;
  ClientSecret : string;
  TaskID : Z;                     (* int64 *)
  ProjectDir : string;
  DirtyMode : bool;
  NoCleanup : bool                (* ContainerOptions.NoCleanup *)
}.

End Runconfig.
Import Runconfig.

(* ===================================================================== *)
(** * The Parallels isolation (package [parallels]) *)
(* ===================================================================== *)

Module Parallels.

Record Parallels := {
  vmImage : string;
  sshUser : string;
  sshPassword : string;
  agentOS : string
}.

(** [parallels.New]: it has no failing path. *)
Definition New (vmImage sshUser sshPassword agentOS : string)
  : option Parallels * option error :=
  (Some {| vmImage := vmImage; sshUser := sshUser;
           sshPassword := sshPassword; agentOS := agentOS |}, None).

(** What [Time.Format] reads of a [time.Time] already converted to UTC:
    the civil date and the clock. *)
Record Time := {
  Year : Z;
  Month : Z;                      (* 1..12 *)
  Day : Z;                        (* 1..31 *)
  Hour : Z;                       (* 0..23 *)
  Minute : Z;                     (* 0..59 *)
  Second : Z                      (* 0..59 *)
}.

Definition valid_time (t : Time) : Prop :=
  (1 <= Month t <= 12 /\ 1 <= Day t <= 31 /\ 0 <= Hour t <= 23 /\
   0 <= Minute t <= 59 /\ 0 <= Second t <= 59)%Z.

(** [appendInt(b, x, width)] of package [time]: the decimal digits of
    [x], left-padded with zeros up to [width], after a minus sign when
    [x] is negative.  The padding never truncates. *)
Fixpoint zeros (n : nat) : string :=
  match n with O => "" | S k => "0" ++ zeros k end.

Definition appendInt (x : Z) (width : nat) : string :=
  let digits := FormatUint (Z.to_N (Z.abs x)) in
  (if (x <? 0)%Z then "-" else "") ++
  zeros (width - String.length digits) ++ digits.

(** The chunks of the layout [010215042006], as [nextStdChunk] cuts it:
    [01] month, [02] day, [15] hour, [04] minute, [2006] year. *)
Definition Format_010215042006 (t : Time) : string :=
  appendInt (Month t) 2 ++ appendInt (Day t) 2 ++ appendInt (Hour t) 2 ++
  appendInt (Minute t) 2 ++ appendInt (Year t) 4.

Definition TimeSyncCommand (t : Time) : string :=
  "sudo date -u " ++ Format_010215042006 t ++ newline.

(** The [command] slice of [Parallels.Run]. *)
Definition Run_command (remoteAgentPath : string) (config : RunConfig)
  : list string :=
  [ remoteAgentPath;
    "-api-endpoint";
    DirectEndpoint config;
    "-server-token";
    (dquote ++ ServerSecret config ++ dquote)%string;
    "-client-token";
    (dquote ++ ClientSecret config ++ dquote)%string;
    "-task-id";
    FormatInt (TaskID config) ].

(** What [Run] writes to the shell's standard input to start the agent. *)
Definition Run_agent_input (remoteAgentPath : string) (config : RunConfig)
  : string :=
  Join (Run_command remoteAgentPath config) " " ++ newline ++ "exit" ++ newline.

End Parallels.
Import Parallels.

(* ===================================================================== *)
(** * Instances and the dispatcher [NewFromProto] *)
(* ===================================================================== *)

Module Dispatch.

(** [platform.Platform]: what [platform.NewUnix] and
    [platform.NewWindows] build. *)
Inductive ContainerPlatform :=
| NewUnix
| NewWindows (osVersion : string).

Record ContainerInstance := {
  Image : string;
  CPU : float32;
  Memory : N;
  AdditionalContainers : list loc;
  Platform : ContainerPlatform;
  CustomWorkingDir : string
}.

Record PrebuiltInstance := {
  pb_Image : string;
  pb_Dockerfile : string;
  pb_Arguments : gmap string string
}.

(** [strings.Title] on ASCII text: the first letter of every word in upper
    case; letters, digits and the underscore make up words. *)
Definition upper_ascii (c : ascii) : ascii :=
  let n := nat_of_ascii c in
  if (97 <=? n)%nat && (n <=? 122)%nat then ascii_of_nat (n - 32) else c.

Definition isSeparator (c : ascii) : bool :=
  let n := nat_of_ascii c in
  negb ((48 <=? n)%nat && (n <=? 57)%nat || (65 <=? n)%nat && (n <=? 90)%nat ||
        (97 <=? n)%nat && (n <=? 122)%nat || (n =? 95)%nat).

Fixpoint Title_from (prev : ascii) (s : string) : string :=
  match s with
  | EmptyString => EmptyString
  | String c s' =>
      String (if isSeparator prev then upper_ascii c else c) (Title_from c s')
  end.

Definition Title (s : string) : string := Title_from " "%char s.

Section WithCollaborators.

(** Declared in files of the package that are not among the sources:
    the command and pipe-stage types and [PipeStagesFromCommands]. *)
Variables Command PipeStage : Type.
Variable PipeStagesFromCommands :
  list Command -> list PipeStage * option error.

Record PipeInstance := {
  pp_CPU : float32;
  pp_Memory : N;
  pp_Stages : list PipeStage;
  pp_CustomWorkingDir : string
}.

(** [abstract.Instance]: the instances built here, the Parallels
    isolation, and [OtherInstance] for an implementation of a package
    that is not among the sources. *)
Inductive Instance :=
| OfContainer (i : ContainerInstance)
| OfPipe (i : PipeInstance)
| OfPrebuilt (i : PrebuiltInstance)
| OfParallels (i : Parallels)
| OtherInstance (name : string).

(** [persistentworker.New], the isolation selector (its logger argument
    has no part in the result), and [path.Join]. *)
Variable persistentworker_New :
  option Isolation -> option Instance * option error.
Variable path_Join : list string -> string.

(** [runtime.GOOS]. *)
Variable GOOS : string.

Definition NewFromProto (anyInstance : option Any) (commands : list Command)
    (customWorkingDir : string) : option Instance * option error :=
  match anyInstance with
  | None =>
      (None, Some (Wrap ErrFailedToCreateInstance
         "got nil instance which means it's probably not supported by the CLI"))
  | Some packed =>
      match UnmarshalAny packed with
      | (_, Some err) =>
          (None, Some (Wrap ErrFailedToCreateInstance
             ("failed to unmarshal task's instance: " ++ Error err)))
      | (None, None) =>
          (* a nil message has no dynamic type: the default case *)
          (None, Some (Wrap ErrUnsupportedInstance "<nil>"))
      | (Some (MsgContainerInstance instance), None) =>
          match
            match ci_Platform instance with
            | Platform_LINUX => Some NewUnix
            | Platform_WINDOWS => Some (NewWindows (ci_OsVersion instance))
            | _ => None
            end
          with
          | None =>
              (None, Some (Wrap ErrFailedToCreateInstance
                 ("unsupported container instance platform: " ++
                  Platform_String (ci_Platform instance))))
          | Some containerPlatform =>
              (Some (OfContainer
                 {| Image := ci_Image instance;
                    CPU := ci_Cpu instance;
                    Memory := ci_Memory instance;
                    AdditionalContainers := ci_AdditionalContainers instance;
                    Platform := containerPlatform;
                    CustomWorkingDir := customWorkingDir |}), None)
          end
      | (Some (MsgPipeInstance instance), None) =>
          match PipeStagesFromCommands commands with
          | (_, Some err) => (None, Some err)
          | (stages, None) =>
              (Some (OfPipe
                 {| pp_CPU := pi_Cpu instance;
                    pp_Memory := pi_Memory instance;
                    pp_Stages := stages;
                    pp_CustomWorkingDir := customWorkingDir |}), None)
          end
      | (Some (MsgPrebuiltImageInstance instance), None) =>
          let image :=
            (path_Join ["gcr.io"; pii_Repository instance] ++ ":" ++
             pii_Reference instance)%string in
          (Some (OfPrebuilt
             {| pb_Image := image;
                pb_Dockerfile := pii_Dockerfile instance;
                pb_Arguments := pii_Arguments instance |}), None)
      | (Some (MsgPersistentWorkerInstance instance), None) =>
          persistentworker_New (pwi_Isolation instance)
      | (Some (MsgDockerBuilder instance), None) =>
          let instanceOS := ToLower (Platform_String (db_Platform instance)) in
          if negb (String.eqb GOOS instanceOS) then
            (None, Some (Wrap ErrFailedToCreateInstance
               ("cannot run " ++ Title instanceOS ++
                " Docker Builder instance on this platform")))
          else
            persistentworker_New
              (Some {| iso_Type := Some Isolation_None_ |})
      | (Some (MsgOther name), None) =>
          (None, Some (Wrap ErrUnsupportedInstance name))
      end
  end.

(** The descriptor variants that [NewFromProto] has a case for. *)
Definition known_variant (m : Message) : bool :=
  match m with MsgOther _ => false | _ => true end.

(** The platform constraint of a variant, where it has one: a container
    runs on Linux or Windows, a Docker Builder on the host's own system. *)
Definition platform_ok (m : Message) : bool :=
  match m with
  | MsgContainerInstance i =>
      match ci_Platform i with
      | Platform_LINUX | Platform_WINDOWS => true
      | _ => false
      end
  | MsgDockerBuilder i =>
      String.eqb GOOS (ToLower (Platform_String (db_Platform i)))
  | _ => true
  end.

End WithCollaborators.

Arguments OfContainer {PipeStage} i.
Arguments OfPipe {PipeStage} i.
Arguments OfPrebuilt {PipeStage} i.
Arguments OfParallels {PipeStage} i.
Arguments OtherInstance {PipeStage} name.
Arguments NewFromProto {Command PipeStage}.

(** Comparison of two names without regard to case. *)
Definition EqualFold (a b : string) : bool :=
  String.eqb (ToLower a) (ToLower b).

(** Modelled from the spec: [persistentworker.New], the persistent-worker
    isolation selector, which is not among the sources.  The spec says of
    the persistent-worker and Docker Builder variants that they delegate to
    the selector and that platform compatibility must match the host OS
    exactly or dispatch fails before any resource is provisioned; that the
    dispatch fails with [ErrFailedToCreateInstance] when the descriptor
    references an isolation whose required OS does not equal the current
    host OS, checked case-insensitively; and that a known variant gives a
    non-nil instance and a nil error when the platform constraints are
    satisfied.  The isolation that names an operating system is the
    Parallels one, whose instance is built by [parallels.New]. *)
Definition selector_of_spec {PipeStage : Type} (GOOS : string)
    (isolation : option Isolation)
  : option (Instance PipeStage) * option error :=
  match isolation with
  | Some {| iso_Type := Some (Isolation_Parallels_ image user password platform) |} =>
      if EqualFold (Platform_String platform) GOOS then
        match Parallels.New image user password
                (ToLower (Platform_String platform)) with
        | (Some p, None) => (Some (OfParallels p), None)
        | (_, err) => (None, err)
        end
      else
        (None, Some (Wrap ErrFailedToCreateInstance
           ("the isolation requires " ++ Platform_String platform ++
            ", which is not the host OS")))
  | _ => (Some (OtherInstance "persistent worker"), None)
  end.

End Dispatch.

(* ===================================================================== *)
(** * The container backend, as the orchestrator sees it *)
(* ===================================================================== *)

Module Backend.

Inductive MountType := MountTypeBind | MountTypeVolume.

Record ContainerMount := {
  mnt_Type : MountType;
  mnt_Source : string;
  mnt_Target : string
}.

(** [NanoCPUs] is [None] where Go leaves the conversion of a [float32] to
    [int64] to the implementation (NaN, infinities, out of range). *)
Record ContainerResources := {
  NanoCPUs : option Z;
  MemoryLimit : Z
}.

Record ContainerCreateInput := {
  in_Image : string;
  in_Entrypoint : list string;
  in_Command : list string;
  in_Env : gmap string string;
  in_Mounts : list ContainerMount;
  in_Network : string;
  in_Resources : ContainerResources;
  in_DisableSELinux : bool
}.

Record ContainerCreateOutput := { ID : string }.

Record SystemInfo := {
  TotalCPUs : N;                  (* uint64 *)
  TotalMemoryBytes : N            (* uint64 *)
}.

Record ContainerWaitResult := {
  StatusCode : Z;
  ProcessError : string           (* the [Error] field *)
}.

(** The answers of the backend (and of the pull policy, which may ask the
    backend) to the calls made under one context. *)
Record Backend := {
  on_SystemInfo : SystemInfo * option error;
  on_ShouldPullImage : string -> bool;
  on_ImagePull : string -> option error;
  on_ContainerCreate : ContainerCreateInput -> ContainerCreateOutput * option error;
  on_ContainerStart : string -> option error;
  on_ContainerLogs : string -> option error;
  on_ContainerDelete : string -> option error
}.

Definition mebi : N := 1024 * 1024.
Definition nano : Z := 1000000000.

(** Conversions between numbers, at [float32]. *)
Definition float32_of_Z (z : Z) : float32 := binary_normalize 24 128 z 0 false.

Definition float32_mul (x y : float32) : float32 := SFmul 24 128 x y.

Definition int64_of_float32 (x : float32) : option Z :=
  match
    match x with
    | S754_zero _ => Some 0%Z
    | S754_finite s m e =>
        Some (cond_Zopp s (if (0 <=? e)%Z then Z.pos m * 2 ^ e
                           else Z.pos m / 2 ^ (- e)))%Z
    | _ => None
    end
  with
  | Some z => if ((- 2 ^ 63 <=? z) && (z <? 2 ^ 63))%Z then Some z else None
  | None => None
  end.

End Backend.
Import Backend.

(* ===================================================================== *)
(** * The container orchestrator *)
(* ===================================================================== *)

Module Orchestrator.

Import Dispatch.

Record Params := {
  p_Image : string;
  p_CPU : float32;
  p_Memory : N;                   (* uint32 *)
  p_AdditionalContainers : list loc;
  p_CommandFrom : string;
  p_CommandTo : string;
  p_Platform : ContainerPlatform;
  p_AgentVolumeName : string;
  p_WorkingVolumeName : string;
  p_WorkingDirectory : string
}.

(** ** What a goroutine does, in program order *)

Inductive level := Debug | Info | Warn | Err.

Inductive action :=
| Log (l : level) (msg : string)
| Finish (ok : bool)              (* end of the scoped pull logger *)
| CallSystemInfo
| CallImagePull (reference : string)
| CallContainerCreate (input : ContainerCreateInput)
| CallContainerStart (id : string)
| CallContainerLogs (id : string)
| CallContainerWait (id : string)
| CallContainerDelete (id : string)
| GoAdditionalContainer (i : nat) (* [go func()] for the i-th sidecar *)
| GoLogReader
| AdditionalContainersCancel
| AdditionalContainersWGWait
| CancelLogReaderCtx
| LogReaderWgWait.

(** ** The state a run can change *)

(** [params] is the caller's [*Params]; [heap] holds the additional
    containers its pointers refer to, shared with the caller.  The two
    last fields are the counter of [logReaderWg] and whether the
    goroutine that will call [Done] on it has been started. *)
Record State := {
  params : Params;
  heap : gmap loc AdditionalContainer;
  logReaderWg : nat;
  logReaderStarted : bool
}.

(** How a piece of code ends: it goes on with a value, the function
    returns, a nil pointer is dereferenced, or the goroutine waits for
    ever. *)
Inductive flow (A : Type) :=
| Next (a : A)
| Return (err : option error)
| Panic
| Blocked.
Arguments Next {A} a.
Arguments Return {A} err.
Arguments Panic {A}.
Arguments Blocked {A}.

Definition M (A : Type) : Type := State -> State * list action * flow A.

Definition ret {A} (a : A) : M A := fun s => (s, [], Next a).

Definition bind {A B} (m : M A) (f : A -> M B) : M B :=
  fun s =>
    match m s with
    | (s1, t1, Next a) => let '(s2, t2, r) := f a s1 in (s2, t1 ++ t2, r)
    | (s1, t1, Return e) => (s1, t1, Return e)
    | (s1, t1, Panic) => (s1, t1, Panic)
    | (s1, t1, Blocked) => (s1, t1, Blocked)
    end.

Declare Scope go_scope.
Delimit Scope go_scope with go.
Notation "x <- m ;; k" := (bind m (fun x => k))
  (at level 100, m at next level, k at level 200, right associativity) : go_scope.
Notation "m ;; k" := (bind m (fun _ => k))
  (at level 100, k at level 200, right associativity) : go_scope.
Local Open Scope go_scope.

Definition emit (a : action) : M unit := fun s => (s, [a], Next tt).
Definition returns {A} (err : option error) : M A := fun s => (s, [], Return err).
Definition panic {A} : M A := fun s => (s, [], Panic).
Definition block {A} : M A := fun s => (s, [], Blocked).
Definition get : M State := fun s => (s, [], Next s).
Definition put (s : State) : M unit := fun _ => (s, [], Next tt).

(** [defer]: when the body returns or panics, the deferred function runs;
    the body's return value stands unless the deferred function itself
    cannot finish. *)
Definition defer {A} (deferred : M unit) (body : M A) : M A :=
  fun s =>
    match body s with
    | (s1, t1, Blocked) => (s1, t1, Blocked)
    | (s1, t1, r) =>
        match deferred s1 with
        | (s2, t2, Blocked) => (s2, t1 ++ t2, Blocked)
        | (s2, t2, Panic) => (s2, t1 ++ t2, Panic)
        | (s2, t2, _) => (s2, t1 ++ t2, r)
        end
    end.

(** [for _, x := range xs { body }]. *)
Fixpoint forEach {A} (xs : list A) (body : A -> M unit) : M unit :=
  match xs with
  | [] => ret tt
  | x :: rest => body x ;; forEach rest body
  end.

(** Reading and writing through a [*api.AdditionalContainer]. *)
Definition load (l : loc) : M AdditionalContainer :=
  s <- get ;;
  match heap s !! l with
  | Some ac => ret ac
  | None => panic
  end.

Definition store (l : loc) (ac : AdditionalContainer) : M unit :=
  s <- get ;;
  put {| params := params s; heap := <[l := ac]> (heap s);
         logReaderWg := logReaderWg s; logReaderStarted := logReaderStarted s |}.

Definition setParams (p : Params) : M unit :=
  s <- get ;;
  put {| params := p; heap := heap s;
         logReaderWg := logReaderWg s; logReaderStarted := logReaderStarted s |}.

(** ** The backend calls, each leaving its mark in the trace *)

Definition SystemInfoOf (b : Backend) : M (SystemInfo * option error) :=
  emit CallSystemInfo ;; ret (on_SystemInfo b).
Definition ImagePull (b : Backend) (reference : string) : M (option error) :=
  emit (CallImagePull reference) ;; ret (on_ImagePull b reference).
Definition ContainerCreate (b : Backend) (input : ContainerCreateInput)
  : M (ContainerCreateOutput * option error) :=
  emit (CallContainerCreate input) ;; ret (on_ContainerCreate b input).
Definition ContainerStart (b : Backend) (id : string) : M (option error) :=
  emit (CallContainerStart id) ;; ret (on_ContainerStart b id).
Definition ContainerLogs (b : Backend) (id : string) : M (option error) :=
  emit (CallContainerLogs id) ;; ret (on_ContainerLogs b id).
Definition ContainerDelete (b : Backend) (id : string) : M (option error) :=
  emit (CallContainerDelete id) ;; ret (on_ContainerDelete b id).

(** ** [pullHelper] *)

Definition pullHelper (b : Backend) (reference : string) : M (option error) :=
  if negb (on_ShouldPullImage b reference) then ret None
  else
    emit (Log Info ("Pulling image " ++ reference ++ "...")) ;;
    err <- ImagePull b reference ;;
    match err with
    | Some err =>
        emit (Log Err ("Failed to pull " ++ reference ++ ": " ++ Error err)) ;;
        emit (Finish false) ;;
        ret (Some (Wrap ErrAdditionalContainerFailed (Error err)))
    | None =>
        emit (Finish true) ;;
        ret None
    end.

(** ** Waiting on channels *)

(** What [ContainerWait] delivers: a result on its first channel, or a
    value (an [error], possibly nil) on its second. *)
Inductive waitRecv :=
| WaitResult (res : ContainerWaitResult)
| WaitError (err : option error).

(** [%v] of an [error]. *)
Definition verb_v (err : option error) : string :=
  match err with Some e => Error e | None => "<nil>" end.

(** The world of one sidecar goroutine: the backend's answers under the
    sidecars' context, what its [select] receives ([None]: nothing, ever)
    and the time at which the goroutine is over. *)
Record SidecarWorld := {
  sw_backend : Backend;
  sw_recv : option waitRecv;
  sw_done : nat
}.

(** The three channels of the orchestrator's [select] and what can be
    received from them. *)
Inductive recv :=
| FromWaitChan (res : ContainerWaitResult)
| FromErrChan (err : option error)
| FromAdditionalContainersErrChan (err : error).

Inductive chan := WaitChan | ErrChan | AdditionalContainersErrChan.

Definition chan_of (r : recv) : chan :=
  match r with
  | FromWaitChan _ => WaitChan
  | FromErrChan _ => ErrChan
  | FromAdditionalContainersErrChan _ => AdditionalContainersErrChan
  end.

Definition chan_eqb (a b : chan) : bool :=
  match a, b with
  | WaitChan, WaitChan | ErrChan, ErrChan
  | AdditionalContainersErrChan, AdditionalContainersErrChan => true
  | _, _ => false
  end.

(** An arrival is a value together with the time at which it is sent. *)
Definition arrival : Type := nat * recv.

(** The earliest arrival of a list; of two at the same time, the one
    listed first. *)
Fixpoint earliest (l : list arrival) : option arrival :=
  match l with
  | [] => None
  | a :: rest =>
      match earliest rest with
      | None => Some a
      | Some b => if (fst a <=? fst b)%nat then Some a else Some b
      end
  end.

(** A channel is a queue: what can be received from it is its earliest
    arrival. *)
Definition head_of (c : chan) (arrivals : list arrival) : option arrival :=
  earliest (List.filter (fun a => chan_eqb (chan_of (snd a)) c) arrivals).

Definition heads (arrivals : list arrival) : list arrival :=
  omap (fun c => head_of c arrivals) [WaitChan; ErrChan; AdditionalContainersErrChan].

(** The cases of the [select] that can proceed at time [t]. *)
Definition ready (t : nat) (arrivals : list arrival) : list arrival :=
  List.filter (fun a => (fst a <=? t)%nat) (heads arrivals).

(** Go's [select]: if one or more cases can proceed when the statement is
    reached, one of them is chosen (by the scheduler: [pick]); otherwise
    the statement waits until a case can proceed.  [None]: it waits for
    ever. *)
Definition choose (pick : nat) (rs : list arrival) : option recv :=
  snd <$> rs !! (pick mod length rs)%nat.

Definition select (entry pick : nat) (arrivals : list arrival) : option recv :=
  match ready entry arrivals with
  | [] =>
      match earliest (heads arrivals) with
      | None => None
      | Some (t, _) => choose pick (ready t arrivals)
      end
  | rs => choose pick rs
  end.

(** ** Record updates *)

Definition with_CPU (cpu : float32) (p : Params) : Params :=
  {| p_Image := p_Image p; p_CPU := cpu; p_Memory := p_Memory p;
     p_AdditionalContainers := p_AdditionalContainers p;
     p_CommandFrom := p_CommandFrom p; p_CommandTo := p_CommandTo p;
     p_Platform := p_Platform p; p_AgentVolumeName := p_AgentVolumeName p;
     p_WorkingVolumeName := p_WorkingVolumeName p;
     p_WorkingDirectory := p_WorkingDirectory p |}.

Definition with_Memory (memory : N) (p : Params) : Params :=
  {| p_Image := p_Image p; p_CPU := p_CPU p; p_Memory := memory;
     p_AdditionalContainers := p_AdditionalContainers p;
     p_CommandFrom := p_CommandFrom p; p_CommandTo := p_CommandTo p;
     p_Platform := p_Platform p; p_AgentVolumeName := p_AgentVolumeName p;
     p_WorkingVolumeName := p_WorkingVolumeName p;
     p_WorkingDirectory := p_WorkingDirectory p |}.

Definition with_ac_Cpu (cpu : float32) (ac : AdditionalContainer) : AdditionalContainer :=
  {| ac_Name := ac_Name ac; ac_Image := ac_Image ac; ac_Command := ac_Command ac;
     ac_Environment := ac_Environment ac; ac_Cpu := cpu; ac_Memory := ac_Memory ac;
     ac_Ports := ac_Ports ac |}.

Definition with_ac_Memory (memory : N) (ac : AdditionalContainer) : AdditionalContainer :=
  {| ac_Name := ac_Name ac; ac_Image := ac_Image ac; ac_Command := ac_Command ac;
     ac_Environment := ac_Environment ac; ac_Cpu := ac_Cpu ac; ac_Memory := memory;
     ac_Ports := ac_Ports ac |}.

Definition with_Network (network : string) (i : ContainerCreateInput) : ContainerCreateInput :=
  {| in_Image := in_Image i; in_Entrypoint := in_Entrypoint i;
     in_Command := in_Command i; in_Env := in_Env i; in_Mounts := in_Mounts i;
     in_Network := network; in_Resources := in_Resources i;
     in_DisableSELinux := in_DisableSELinux i |}.

Definition with_DisableSELinux (d : bool) (i : ContainerCreateInput) : ContainerCreateInput :=
  {| in_Image := in_Image i; in_Entrypoint := in_Entrypoint i;
     in_Command := in_Command i; in_Env := in_Env i; in_Mounts := in_Mounts i;
     in_Network := in_Network i; in_Resources := in_Resources i;
     in_DisableSELinux := d |}.

Definition with_Mounts (m : list ContainerMount) (i : ContainerCreateInput) : ContainerCreateInput :=
  {| in_Image := in_Image i; in_Entrypoint := in_Entrypoint i;
     in_Command := in_Command i; in_Env := in_Env i; in_Mounts := m;
     in_Network := in_Network i; in_Resources := in_Resources i;
     in_DisableSELinux := in_DisableSELinux i |}.

Definition with_Env (env : gmap string string) (i : ContainerCreateInput) : ContainerCreateInput :=
  {| in_Image := in_Image i; in_Entrypoint := in_Entrypoint i;
     in_Command := in_Command i; in_Env := env; in_Mounts := in_Mounts i;
     in_Network := in_Network i; in_Resources := in_Resources i;
     in_DisableSELinux := in_DisableSELinux i |}.

Definition resources (cpu : float32) (memory : N) : ContainerResources :=
  {| NanoCPUs := int64_of_float32 (float32_mul cpu (float32_of_Z nano));
     MemoryLimit := Z.of_N (wrap32 (memory * mebi)) |}.

(** ** [runAdditionalContainer] *)

Definition portWarning (name : string) : string :=
  "port mappings are unsupported by the Cirrus CLI, please tell the application " ++
  "running in the additional container '" ++ name ++ "' to use a different port".

(** The loop over the port mappings, left at the first warning. *)
Fixpoint warnAboutPorts (name : string) (ports : list PortMapping) : M unit :=
  match ports with
  | [] => ret tt
  | portMapping :: rest =>
      if negb (HostPort portMapping =? 0)%N
      then emit (Log Warn (portWarning name))
      else warnAboutPorts name rest
  end.

(** The creation input of a sidecar: it joins the network namespace of the
    main container. *)
Definition additionalContainerInput (additionalContainer : AdditionalContainer)
    (connectToContainer : string) : ContainerCreateInput :=
  {| in_Image := ac_Image additionalContainer;
     in_Entrypoint := [];
     in_Command := ac_Command additionalContainer;
     in_Env := ac_Environment additionalContainer;
     in_Mounts := [];
     in_Network := "container:" ++ connectToContainer;
     in_Resources := resources (ac_Cpu additionalContainer)
                               (ac_Memory additionalContainer);
     in_DisableSELinux := false |}.

Definition runAdditionalContainer (w : SidecarWorld)
    (additionalContainer : AdditionalContainer) (connectToContainer : string)
    (noCleanup : bool) : M unit :=
  let b := sw_backend w in
  err <- pullHelper b (ac_Image additionalContainer) ;;
  match err with
  | Some err => returns (Some err)
  | None =>
  emit (Log Debug "creating additional container") ;;
  let input := additionalContainerInput additionalContainer connectToContainer in
  r <- ContainerCreate b input ;;
  let '(cont, err) := r in
  match err with
  | Some err => returns (Some (Wrap ErrAdditionalContainerFailed (Error err)))
  | None =>
  defer
    (if noCleanup then
       emit (Log Info ("not cleaning up additional container " ++ ID cont ++
                       ", don't forget to remove it with " ++ dquote ++
                       "docker rm -v " ++ ID cont ++ dquote))
     else
       emit (Log Debug ("cleaning up additional container " ++ ID cont)) ;;
       err <- ContainerDelete b (ID cont) ;;
       match err with
       | Some err =>
           emit (Log Warn ("Error while removing additional container: " ++ Error err))
       | None => ret tt
       end)
    (warnAboutPorts (ac_Name additionalContainer) (ac_Ports additionalContainer) ;;
     emit (Log Debug ("starting additional container " ++ ID cont)) ;;
     err <- ContainerStart b (ID cont) ;;
     match err with
     | Some err => returns (Some (Wrap ErrAdditionalContainerFailed (Error err)))
     | None =>
     emit (Log Debug ("waiting for additional container " ++ ID cont ++ " to finish")) ;;
     emit (CallContainerWait (ID cont)) ;;
     match sw_recv w with
     | None => block
     | Some (WaitResult res) =>
         emit (Log Debug ("additional container exited with " ++ ProcessError res ++
                          " error and exit code " ++ FormatInt (StatusCode res))) ;;
         returns None
     | Some (WaitError err) =>
         returns (Some (Wrap ErrAdditionalContainerFailed (verb_v err)))
     end
     end)
  end
  end.

(** ** [RunContainerizedAgent] *)

(** The world of one run: the backend's answers under the caller's
    context, the world of every sidecar goroutine (by position in
    [params.AdditionalContainers]), what [ContainerWait] delivers for the
    main container and when, the time at which the orchestrator reaches
    its [select], and the scheduler's choice there. *)
Record World := {
  backend : Backend;
  sidecar : nat -> SidecarWorld;
  waitArrivals : list (nat * waitRecv);
  selectEntry : nat;
  pick : nat
}.

Definition recv_of (r : waitRecv) : recv :=
  match r with
  | WaitResult res => FromWaitChan res
  | WaitError err => FromErrChan err
  end.

(** The additional containers for which a goroutine is started, with their
    position in [params.AdditionalContainers]. *)
Definition launched (s : State) : list (nat * AdditionalContainer) :=
  omap (fun x => x)
    (imap (fun i l => (fun ac => (i, ac)) <$> heap s !! l)
          (p_AdditionalContainers (params s))).

(** The sidecar goroutines of a run: the i-th one executes
    [runAdditionalContainer] on the i-th additional container. *)
Definition sidecarRuns (w : World) (noCleanup : bool) (mainID : string)
    (s : State) : list (nat * (list action * flow unit)) :=
  List.map (fun x =>
              let '(_, t, r) :=
                runAdditionalContainer (sidecar w (fst x)) (snd x) mainID noCleanup s in
              (fst x, (t, r)))
           (launched s).

(** The body of a sidecar goroutine sends the error, if there is one, to
    [additionalContainersErrChan], whose buffer has room for all. *)
Definition sidecarArrivals (w : World) (noCleanup : bool) (mainID : string)
    (s : State) : list arrival :=
  omap (fun x =>
          match snd (snd x) with
          | Return (Some err) =>
              Some (sw_done (sidecar w (fst x)), FromAdditionalContainersErrChan err)
          | _ => None
          end)
       (sidecarRuns w noCleanup mainID s).

Definition arrivals (w : World) (noCleanup : bool) (mainID : string)
    (s : State) : list arrival :=
  List.map (fun a => (fst a, recv_of (snd a))) (waitArrivals w) ++
  sidecarArrivals w noCleanup mainID s.

(** [additionalContainersWG.Wait()] returns once every sidecar goroutine
    is over. *)
Definition additionalContainersWG_Wait (w : World) (noCleanup : bool)
    (mainID : string) : M unit :=
  emit AdditionalContainersWGWait ;;
  s <- get ;;
  if forallb (fun x => match snd (snd x) with Blocked => false | _ => true end)
             (sidecarRuns w noCleanup mainID s)
  then ret tt else block.

(** [logReaderWg.Wait()] returns once the counter is back to zero, which
    is the doing of the log-reading goroutine when its channel closes. *)
Definition logReaderWg_Wait : M unit :=
  emit LogReaderWgWait ;;
  s <- get ;;
  if (logReaderWg s =? 0)%nat || logReaderStarted s then ret tt else block.

Definition logReaderWg_Add (n : nat) : M unit :=
  s <- get ;;
  put {| params := params s; heap := heap s;
         logReaderWg := logReaderWg s + n; logReaderStarted := logReaderStarted s |}.

Definition goLogReader : M unit :=
  emit GoLogReader ;;
  s <- get ;;
  put {| params := params s; heap := heap s;
         logReaderWg := logReaderWg s; logReaderStarted := true |}.

Section WithHost.

(** Of packages [platform] and [heuristic] and of the Go library, which
    are not among the sources. *)
Variable ContainerAgentPath : ContainerPlatform -> string.
Variable ContainerAgentVolumeDir : ContainerPlatform -> string.
Variable CloudBuildNetworkName : string.
Variable filepath_Dir : string -> string.

(** [runtime.GOOS] and the answer of [heuristic.GetCloudBuildIP]. *)
Variable GOOS : string.
Variable CloudBuildIP : string.

(** The deferred function that removes the containers. *)
Definition teardown (w : World) (config : RunConfig)
    (cont : ContainerCreateOutput) : M unit :=
  emit AdditionalContainersCancel ;;
  additionalContainersWG_Wait w (NoCleanup config) (ID cont) ;;
  (if NoCleanup config then
     emit (Log Info ("not cleaning up container " ++ ID cont ++
                     ", don't forget to remove it with " ++ dquote ++
                     "docker rm -v " ++ ID cont ++ dquote))
   else
     emit (Log Debug ("cleaning up container " ++ ID cont)) ;;
     err <- ContainerDelete (backend w) (ID cont) ;;
     match err with
     | Some err => emit (Log Warn ("error while removing container: " ++ Error err))
     | None => ret tt
     end) ;;
  emit (Log Debug "waiting for the container log reader to finish") ;;
  emit CancelLogReaderCtx ;;
  logReaderWg_Wait.

(** The [ports] slice: the container ports of all additional
    containers, in the order of the two nested loops. *)
Fixpoint collectPorts (ls : list loc) : M (list string) :=
  match ls with
  | [] => ret []
  | l :: rest =>
      additionalContainer <- load l ;;
      ports <- collectPorts rest ;;
      ret (List.map (fun portMapping => FormatUint (ContainerPort portMapping))
                    (ac_Ports additionalContainer) ++ ports)
  end.

(** The wait phase: the [select] over the three channels. *)
Definition waitPhase (w : World) (config : RunConfig)
    (cont : ContainerCreateOutput) : M unit :=
  emit (Log Debug ("waiting for container " ++ ID cont ++ " to finish")) ;;
  emit (CallContainerWait (ID cont)) ;;
  s <- get ;;
  match select (selectEntry w) (pick w)
               (arrivals w (NoCleanup config) (ID cont) s) with
  | None => block
  | Some (FromWaitChan res) =>
      emit (Log Debug ("container exited with " ++ ProcessError res ++
                       " error and exit code " ++ FormatInt (StatusCode res))) ;;
      returns None
  | Some (FromErrChan err) => returns err
  | Some (FromAdditionalContainersErrChan acErr) => returns (Some acErr)
  end.

(** Lines 145-153: the capacity of the backend and the clamping of the
    quotas, written through [params] and through the pointers it holds. *)
Definition clampResources (info : SystemInfo) : M unit :=
  let availableCPU := float32_of_Z (Z.of_N (TotalCPUs info)) in
  let availableMemory := wrap32 (TotalMemoryBytes info / mebi) in
  s <- get ;;
  setParams (with_CPU (clampCPU (p_CPU (params s)) availableCPU) (params s)) ;;
  s <- get ;;
  setParams (with_Memory (clampMemory (p_Memory (params s)) availableMemory) (params s)) ;;
  s <- get ;;
  forEach (p_AdditionalContainers (params s))
    (fun l =>
       additionalContainer <- load l ;;
       store l (with_ac_Cpu (clampCPU (ac_Cpu additionalContainer) availableCPU)
                            additionalContainer) ;;
       additionalContainer <- load l ;;
       store l (with_ac_Memory
                  (clampMemory (ac_Memory additionalContainer) availableMemory)
                  additionalContainer)).

(** Lines 160-247: the creation input of the main container. *)
Definition createInput (config : RunConfig) : M ContainerCreateInput :=
  s <- get ;;
  let params := params s in
  let input :=
    {| in_Image := p_Image params;
       in_Entrypoint :=
         [ ContainerAgentPath (p_Platform params);
           "-api-endpoint";
           ContainerEndpoint config;
           "-server-token";
           ServerSecret config;
           "-client-token";
           ClientSecret config;
           "-task-id";
           FormatInt (TaskID config);
           "-command-from";
           p_CommandFrom params;
           "-command-to";
           p_CommandTo params ];
       in_Command := [];
       in_Env := ∅;
       in_Mounts :=
         [ {| mnt_Type := MountTypeVolume;
              mnt_Source := p_AgentVolumeName params;
              mnt_Target := ContainerAgentVolumeDir (p_Platform params) |} ];
       in_Network := "";
       in_Resources := resources (p_CPU params) (p_Memory params);
       in_DisableSELinux := false |} in
  let input :=
    if String.eqb GOOS "linux" then
      let input :=
        if negb (String.eqb CloudBuildIP "")
        then with_Network CloudBuildNetworkName input else input in
      with_DisableSELinux true input
    else input in
  let input :=
    if HasPrefix (ContainerEndpoint config) "unix:" then
      let socketPath := TrimPrefix (ContainerEndpoint config) "unix:" in
      let socketDir := filepath_Dir socketPath in
      with_Mounts (in_Mounts input ++
                   [ {| mnt_Type := MountTypeBind; mnt_Source := socketDir;
                        mnt_Target := socketDir |} ]) input
    else input in
  let input :=
    if DirtyMode config then
      with_Mounts (in_Mounts input ++
                   [ {| mnt_Type := MountTypeBind;
                        mnt_Source := ProjectDir config;
                        mnt_Target := p_WorkingDirectory params |} ]) input
    else
      with_Mounts (in_Mounts input ++
                   [ {| mnt_Type := MountTypeVolume;
                        mnt_Source := p_WorkingVolumeName params;
                        mnt_Target := p_WorkingDirectory params |} ]) input in
  (* In case the additional containers are used, tell the agent to wait for them *)
  if (0 <? length (p_AdditionalContainers params))%nat then
    ports <- collectPorts (p_AdditionalContainers params) ;;
    let commaDelimitedPorts := Join ports "," in
    ret (with_Env (<["CIRRUS_PORTS_WAIT_FOR" := commaDelimitedPorts]> (in_Env input))
                  input)
  else ret input.

(** Lines 254-339: once the main container exists.  The deferred
    function is registered, the sidecar goroutines are started, then the
    main container, then the log reader, and the orchestrator waits. *)
Definition supervise (w : World) (config : RunConfig)
    (cont : ContainerCreateOutput) : M unit :=
  logReaderWg_Add 1 ;;
  defer (teardown w config cont)
    ((* Start additional containers (if any) *)
     s <- get ;;
     forEach (seq 0 (length (p_AdditionalContainers (params s))))
             (fun i => emit (GoAdditionalContainer i)) ;;
     emit (Log Debug ("starting container " ++ ID cont)) ;;
     err <- ContainerStart (backend w) (ID cont) ;;
     match err with
     | Some err => returns (Some err)
     | None =>
     err <- ContainerLogs (backend w) (ID cont) ;;
     match err with
     | Some err => returns (Some err)
     | None =>
     goLogReader ;;
     waitPhase w config cont
     end
     end).

(** Lines 137-252: up to the creation of the main container. *)
Definition createMainContainer (w : World) (config : RunConfig)
  : M ContainerCreateOutput :=
  let b := backend w in
  (* Clamp resources to those available for container backend daemon *)
  r <- SystemInfoOf b ;;
  let '(info, err) := r in
  match err with
  | Some err => returns (Some err)
  | None =>
  clampResources info ;;
  s <- get ;;
  err <- pullHelper b (p_Image (params s)) ;;
  match err with
  | Some err => returns (Some err)
  | None =>
  emit (Log Debug ("creating container using working volume " ++
                   p_WorkingVolumeName (params s))) ;;
  input <- createInput config ;;
  r <- ContainerCreate b input ;;
  let '(cont, err) := r in
  match err with
  | Some err => returns (Some err)
  | None => ret cont
  end
  end
  end.

Definition RunContainerizedAgent (w : World) (config : RunConfig) : M unit :=
  cont <- createMainContainer w config ;;
  supervise w config cont.

End WithHost.

End Orchestrator.

(* ===================================================================== *)
(** * Statements about the clock-sync command and the agent command line *)
(* ===================================================================== *)

Module ParallelsSpec.

(** The fixed-width fields as the interface document words them: a
    number written with exactly two, or exactly four, decimal digits. *)
Definition digit (n : Z) : string :=
  String (ascii_of_nat (48 + Z.to_nat (n mod 10))) EmptyString.

Definition two_digits (n : Z) : string :=
  (digit (n / 10) ++ digit n)%string.

Definition four_digits (n : Z) : string :=
  (digit (n / 1000) ++ digit (n / 100) ++ digit (n / 10) ++ digit n)%string.

(** mmddHHMMYYYY *)
Definition timestamp (t : Time) : string :=
  (two_digits (Month t) ++ two_digits (Day t) ++ two_digits (Hour t) ++
   two_digits (Minute t) ++ four_digits (Year t))%string.

(** The argument vector that the agent expects, in its order. *)
Definition agent_args (path url serverToken clientToken taskID : string)
  : list string :=
  [ path; "-api-endpoint"; url; "-server-token"; serverToken;
    "-client-token"; clientToken; "-task-id"; taskID ].

Definition quoted (s : string) : string := (dquote ++ s ++ dquote)%string.

(** The integers from [lo], [n] of them. *)
Fixpoint Zrange (lo : Z) (n : nat) : list Z :=
  match n with
  | O => []
  | S k => lo :: Zrange (lo + 1) k
  end.

Definition t_2024_01_02 : Time :=
  {| Year := 2024; Month := 1; Day := 2; Hour := 3; Minute := 4; Second := 5 |}.

Definition t_10000_01_01 : Time :=
  {| Year := 10000; Month := 1; Day := 1; Hour := 0; Minute := 0; Second := 0 |}.

End ParallelsSpec.

(* ===================================================================== *)
(** * Statements about the dispatcher *)
(* ===================================================================== *)

Module DispatchSpec.

Import Dispatch.

(** The outcomes of a dispatch: a non-nil instance with a nil error, or no
    instance and an error that wraps a given sentinel. *)
Definition succeeded {PipeStage : Type}
    (r : option (Instance PipeStage) * option error) : Prop :=
  is_Some (fst r) /\ snd r = None.

Definition failed_with {PipeStage : Type} (s : sentinel)
    (r : option (Instance PipeStage) * option error) : Prop :=
  fst r = None /\ exists e, snd r = Some e /\ errors_Is e s = true.

(** The three-way outcome of the dispatch of a descriptor. *)
Definition three_way {PipeStage : Type} (GOOS : string) (a : option Any)
    (r : option (Instance PipeStage) * option error) : Prop :=
  match a with
  | None | Some (Malformed _) => failed_with ErrFailedToCreateInstance r
  | Some (Packed m) =>
      if known_variant m then
        if platform_ok GOOS m then succeeded r
        else failed_with ErrFailedToCreateInstance r
      else failed_with ErrUnsupportedInstance r
  end.

(** The system that a persistent-worker or Docker Builder descriptor asks
    for: the platform of a Docker Builder, the platform of the Parallels
    isolation of a persistent worker. *)
Definition required_os (m : Message) : option Api.Platform :=
  match m with
  | MsgDockerBuilder i => Some (db_Platform i)
  | MsgPersistentWorkerInstance i =>
      match pwi_Isolation i with
      | Some {| iso_Type := Some (Isolation_Parallels_ _ _ _ platform) |} =>
          Some platform
      | _ => None
      end
  | _ => None
  end.

(** A persistent worker isolated in a macOS virtual machine. *)
Definition darwin_worker : Message :=
  MsgPersistentWorkerInstance
    {| pwi_Isolation :=
         Some {| iso_Type :=
                   Some (Isolation_Parallels_ "big-sur" "admin" "admin" Platform_DARWIN) |} |}.

Definition windows_builder : Message :=
  MsgDockerBuilder {| db_Platform := Platform_WINDOWS |}.

Definition a_pipe : Message :=
  MsgPipeInstance {| pi_Cpu := S754_zero false; pi_Memory := 0 |}.

Definition linux_container : Message :=
  MsgContainerInstance
    {| ci_Image := "alpine"; ci_Cpu := S754_zero false; ci_Memory := 0;
       ci_AdditionalContainers := []; ci_Platform := Platform_LINUX;
       ci_OsVersion := "" |}.

(** A stage derivation that refuses every command list, for the examples. *)
Definition no_stages (_ : list unit) : list unit * option error :=
  ([], Some (Foreign "cannot run commands outside of a stage")).

End DispatchSpec.

(* ===================================================================== *)
(** * Statements about the container orchestrator *)
(* ===================================================================== *)

Module OrchestratorSpec.

Import Dispatch Orchestrator.

(** The capacity that the clamps compare with. *)
Definition availableCPU (info : SystemInfo) : float32 :=
  float32_of_Z (Z.of_N (TotalCPUs info)).

Definition availableMemory (info : SystemInfo) : N :=
  wrap32 (TotalMemoryBytes info / mebi).

(** An additional container with its two quotas clamped. *)
Definition clampAC (info : SystemInfo) (ac : AdditionalContainer)
  : AdditionalContainer :=
  with_ac_Memory (clampMemory (ac_Memory ac) (availableMemory info))
    (with_ac_Cpu (clampCPU (ac_Cpu ac) (availableCPU info)) ac).

(** The parameters with their two quotas clamped. *)
Definition clampParams (info : SystemInfo) (p : Params) : Params :=
  with_Memory (clampMemory (p_Memory p) (availableMemory info))
    (with_CPU (clampCPU (p_CPU p) (availableCPU info)) p).

(** The store once every listed pointer has been written through. *)
Definition clampHeap (info : SystemInfo) (ls : list loc)
    (h : gmap loc AdditionalContainer) : gmap loc AdditionalContainer :=
  foldl (fun h l => match h !! l with
                    | Some ac => <[l := clampAC info ac]> h
                    | None => h
                    end) h ls.

(** What the orchestrator returns for what its [select] receives. *)
Definition outcome_of (ev : recv) : option error :=
  match ev with
  | FromWaitChan _ => None
  | FromErrChan err => err
  | FromAdditionalContainersErrChan acErr => Some acErr
  end.

(** The warning about host ports. *)
Definition is_port_warning (a : action) : bool :=
  match a with
  | Log Warn msg => HasPrefix msg "port mappings are unsupported by the Cirrus CLI"
  | _ => false
  end.

Definition port_warnings (t : list action) : nat :=
  length (List.filter is_port_warning t).

Definition has_host_port (ac : AdditionalContainer) : bool :=
  existsb (fun portMapping => negb (HostPort portMapping =? 0)%N) (ac_Ports ac).

(** The steps of the removal of the containers. *)
Definition is_teardown (a : action) : bool :=
  match a with
  | AdditionalContainersCancel | AdditionalContainersWGWait
  | CallContainerDelete _ | CancelLogReaderCtx | LogReaderWgWait => true
  | _ => false
  end.

(** The removal in its order: the sidecars are cancelled and awaited, the
    main container is deleted (or only named in the log), the log reader is
    cancelled and awaited. *)
Definition teardown_trace (w : World) (config : RunConfig)
    (cont : ContainerCreateOutput) : list action :=
  [AdditionalContainersCancel; AdditionalContainersWGWait] ++
  (if NoCleanup config then
     [Log Info ("not cleaning up container " ++ ID cont ++
                ", don't forget to remove it with " ++ dquote ++
                "docker rm -v " ++ ID cont ++ dquote)]
   else
     [Log Debug ("cleaning up container " ++ ID cont);
      CallContainerDelete (ID cont)] ++
     match on_ContainerDelete (backend w) (ID cont) with
     | Some err => [Log Warn ("error while removing container: " ++ Error err)]
     | None => []
     end) ++
  [Log Debug "waiting for the container log reader to finish";
   CancelLogReaderCtx; LogReaderWgWait].

(** What the orchestrator does between the creation of the main container
    and the [select]. *)
Definition startup_trace (cont : ContainerCreateOutput) (sidecars : nat)
  : list action :=
  List.map GoAdditionalContainer (seq 0 sidecars) ++
  [Log Debug ("starting container " ++ ID cont);
   CallContainerStart (ID cont);
   CallContainerLogs (ID cont);
   GoLogReader;
   Log Debug ("waiting for container " ++ ID cont ++ " to finish");
   CallContainerWait (ID cont)].

(** What is logged when the [select] has received a value. *)
Definition received_trace (ev : recv) : list action :=
  match ev with
  | FromWaitChan res =>
      [Log Debug ("container exited with " ++ ProcessError res ++
                  " error and exit code " ++ FormatInt (StatusCode res))]
  | _ => []
  end.

(** Every sidecar goroutine of the run comes to an end. *)
Definition sidecars_end (w : World) (noCleanup : bool) (mainID : string)
    (s : State) : bool :=
  forallb (fun x => match snd (snd x) with Blocked => false | _ => true end)
          (sidecarRuns w noCleanup mainID s).

(** The container ports that additional containers declare, as text. *)
Definition declared_ports (acs : list AdditionalContainer) : list string :=
  concat (List.map (fun ac => List.map (fun portMapping =>
                                          FormatUint (ContainerPort portMapping))
                                       (ac_Ports ac)) acs).

(** The additional containers behind a list of pointers. *)
Definition pointees (h : gmap loc AdditionalContainer) (ls : list loc)
  : list AdditionalContainer :=
  omap (fun l => h !! l) ls.

(** The state of a run keeps the caller's parameters and store. *)
Definition same_data (s s' : State) : Prop :=
  params s' = params s /\ heap s' = heap s.

(** A computation whose every run relates the states by [R] and performs
    only actions that satisfy [P]. *)
Definition sat {A} (R : State -> State -> Prop) (P : action -> Prop)
    (m : M A) : Prop :=
  forall s, R s (fst (fst (m s))) /\ Forall P (snd (fst (m s))).

(** Two parameter records that differ in their quotas at most. *)
Definition same_but_quotas (p p' : Params) : Prop :=
  p_Image p' = p_Image p /\
  p_AdditionalContainers p' = p_AdditionalContainers p /\
  p_CommandFrom p' = p_CommandFrom p /\
  p_CommandTo p' = p_CommandTo p /\
  p_Platform p' = p_Platform p /\
  p_AgentVolumeName p' = p_AgentVolumeName p /\
  p_WorkingVolumeName p' = p_WorkingVolumeName p /\
  p_WorkingDirectory p' = p_WorkingDirectory p.

(** Two additional containers that differ in their quotas at most. *)
Definition same_but_quotas_ac (ac ac' : AdditionalContainer) : Prop :=
  ac_Name ac' = ac_Name ac /\
  ac_Image ac' = ac_Image ac /\
  ac_Command ac' = ac_Command ac /\
  ac_Environment ac' = ac_Environment ac /\
  ac_Ports ac' = ac_Ports ac.

(** A call that creates a container. *)
Definition is_create (a : action) : bool :=
  match a with CallContainerCreate _ => true | _ => false end.

(** What [pullHelper] does and returns for an image. *)
Definition pull_trace (b : Backend) (reference : string) : list action :=
  if on_ShouldPullImage b reference then
    [Log Info ("Pulling image " ++ reference ++ "...");
     CallImagePull reference] ++
    match on_ImagePull b reference with
    | Some err =>
        [Log Err ("Failed to pull " ++ reference ++ ": " ++ Error err); Finish false]
    | None => [Finish true]
    end
  else [].

Definition pull_result (b : Backend) (reference : string) : option error :=
  if on_ShouldPullImage b reference then
    match on_ImagePull b reference with
    | Some err => Some (Wrap ErrAdditionalContainerFailed (Error err))
    | None => None
    end
  else None.

(** The agent's argument vector with the window of commands that the
    container form appends. *)
Definition container_args (path url serverToken clientToken taskID from to : string)
  : list string :=
  ParallelsSpec.agent_args path url serverToken clientToken taskID ++
  ["-command-from"; from; "-command-to"; to].

(** The environment of the main container. *)
Definition expected_env (ports : list string) (sidecars : nat) : gmap string string :=
  if (0 <? sidecars)%nat then {["CIRRUS_PORTS_WAIT_FOR" := Join ports ","]} else ∅.

(** ** A run to try the statements on *)

Definition example_backend : Backend :=
  {| on_SystemInfo := ({| TotalCPUs := 4; TotalMemoryBytes := 2147483648 |}, None);
     on_ShouldPullImage := fun _ => false;
     on_ImagePull := fun _ => None;
     on_ContainerCreate := fun input => ({| ID := "id-" ++ in_Image input |}, None);
     on_ContainerStart := fun _ => None;
     on_ContainerLogs := fun _ => None;
     on_ContainerDelete := fun _ => None |}.

(** Two additional containers: one exposes the ports 80 and 443, the other
    the port 8080, each with a host port. *)
Definition web : AdditionalContainer :=
  {| ac_Name := "web"; ac_Image := "nginx"; ac_Command := [];
     ac_Environment := ∅; ac_Cpu := float32_of_Z 8; ac_Memory := 4096;
     ac_Ports := [ {| ContainerPort := 80; HostPort := 80 |};
                   {| ContainerPort := 443; HostPort := 443 |} ] |}.

Definition cache : AdditionalContainer :=
  {| ac_Name := "cache"; ac_Image := "redis"; ac_Command := [];
     ac_Environment := ∅; ac_Cpu := float32_of_Z 1; ac_Memory := 512;
     ac_Ports := [ {| ContainerPort := 8080; HostPort := 8080 |} ] |}.

Definition example_params : Params :=
  {| p_Image := "alpine"; p_CPU := float32_of_Z 8; p_Memory := 4096;
     p_AdditionalContainers := [1%positive; 2%positive];
     p_CommandFrom := ""; p_CommandTo := ""; p_Platform := NewUnix;
     p_AgentVolumeName := "agent"; p_WorkingVolumeName := "working";
     p_WorkingDirectory := "/tmp/cirrus-ci-build" |}.

Definition example_state : State :=
  {| params := example_params;
     heap := <[1%positive := web]> (<[2%positive := cache]> ∅);
     logReaderWg := 0; logReaderStarted := false |}.

Definition example_config : RunConfig :=
  {| ContainerEndpoint := "http://host:8080"; DirectEndpoint := "http://host:8080";
     ServerSecret := "server-secret"; ClientSecret := "client-secret";
     TaskID := 42; ProjectDir := "/project"; DirtyMode := false;
     NoCleanup := false |}.

(** The sidecars run until they are cancelled; the main container exits
    with status 1 at time 5, after the orchestrator has begun to wait. *)
Definition running_sidecar : SidecarWorld :=
  {| sw_backend := example_backend;
     sw_recv := Some (WaitError (Some (Foreign "context canceled")));
     sw_done := 10 |}.

Definition example_world : World :=
  {| backend := example_backend;
     sidecar := fun _ => running_sidecar;
     waitArrivals := [(5, WaitResult {| StatusCode := 1; ProcessError := "" |})];
     selectEntry := 2;
     pick := 0 |}.

(** A sidecar whose image cannot be pulled: its goroutine is over at
    time 1. *)
Definition failing_backend : Backend :=
  {| on_SystemInfo := on_SystemInfo example_backend;
     on_ShouldPullImage := fun _ => true;
     on_ImagePull := fun _ => Some (Foreign "manifest unknown");
     on_ContainerCreate := on_ContainerCreate example_backend;
     on_ContainerStart := fun _ => None;
     on_ContainerLogs := fun _ => None;
     on_ContainerDelete := fun _ => None |}.

Definition failing_sidecar : SidecarWorld :=
  {| sw_backend := failing_backend; sw_recv := None; sw_done := 1 |}.

(** The sidecars fail at time 1; the main container is over by then, so
    that the backend answers [ContainerWait] at once, at time 2; the
    orchestrator's goroutine gets to its [select] at time 3 only. *)
Definition late_world (pick : nat) : World :=
  {| backend := example_backend;
     sidecar := fun _ => failing_sidecar;
     waitArrivals := [(2, WaitResult {| StatusCode := 0; ProcessError := "" |})];
     selectEntry := 3;
     pick := pick |}.

(** The host of the examples. *)
Definition example_run (w : World) : State * list action * flow unit :=
  RunContainerizedAgent (fun _ => "/tmp/cirrus-ci-agent/cirrus-ci-agent")
    (fun _ => "/tmp/cirrus-ci-agent") "cloudbuild" (fun path => path) "linux" ""
    w example_config example_state.

(** The backend cannot create the main container. *)
Definition full_backend : Backend :=
  {| on_SystemInfo := on_SystemInfo example_backend;
     on_ShouldPullImage := fun _ => false;
     on_ImagePull := fun _ => None;
     on_ContainerCreate :=
       fun _ => ({| ID := "" |}, Some (Foreign "no space left on device"));
     on_ContainerStart := fun _ => None;
     on_ContainerLogs := fun _ => None;
     on_ContainerDelete := fun _ => None |}.

Definition full_world : World :=
  {| backend := full_backend;
     sidecar := fun _ => running_sidecar;
     waitArrivals := [];
     selectEntry := 0;
     pick := 0 |}.

(** What [warnAboutPorts] logs for an additional container. *)
Definition port_warning_trace (ac : AdditionalContainer) : list action :=
  if has_host_port ac then [Log Warn (portWarning (ac_Name ac))] else [].

(** A sidecar gets as far as the look at its port mappings when its image
    is there and its container is created. *)
Definition reaches_port_check (sw : SidecarWorld) (ac : AdditionalContainer)
    (mainID : string) : bool :=
  match pull_result (sw_backend sw) (ac_Image ac),
        snd (on_ContainerCreate (sw_backend sw) (additionalContainerInput ac mainID)) with
  | None, None => true
  | _, _ => false
  end.

(** The port warnings of a whole orchestration: those of the orchestrator's
    own goroutine and those of the sidecar goroutines it starts. *)
Definition orchestration_port_warnings
    (run : State * list action * flow unit)
    (sidecars : list (nat * (list action * flow unit))) : nat :=
  port_warnings (snd (fst run)) +
  list_sum (List.map (fun x => port_warnings (fst (snd x))) sidecars).

(** No constraint on the states. *)
Definition any_state (_ _ : State) : Prop := True.

(** The sidecars that warn about host ports: those that look at their port
    mappings and find a host port. *)
Definition warns (w : World) (mainID : string) (x : nat * AdditionalContainer) : bool :=
  reaches_port_check (sidecar w (fst x)) (snd x) mainID && has_host_port (snd x).

(** An additional container with the host ports of its port mappings
    taken away. *)
Definition without_host_ports (ac : AdditionalContainer) : AdditionalContainer :=
  {| ac_Name := ac_Name ac; ac_Image := ac_Image ac; ac_Command := ac_Command ac;
     ac_Environment := ac_Environment ac; ac_Cpu := ac_Cpu ac;
     ac_Memory := ac_Memory ac;
     ac_Ports := List.map (fun portMapping =>
                             {| ContainerPort := ContainerPort portMapping;
                                HostPort := 0 |})
                          (ac_Ports ac) |}.

(** The state in which the examples wait: the quotas are clamped. *)
Definition example_waiting (w : World) : State := fst (fst (example_run w)).

(** The creation of the main container in the examples. *)
Definition example_created (w : World) : State * list action * flow ContainerCreateOutput :=
  createMainContainer (fun _ => "/tmp/cirrus-ci-agent/cirrus-ci-agent")
    (fun _ => "/tmp/cirrus-ci-agent") "cloudbuild" (fun path => path) "linux" ""
    w example_config example_state.

Definition example_container : ContainerCreateOutput := {| ID := "id-alpine" |}.

(** What the sidecars of the examples send when their image cannot be
    pulled. *)
Definition pull_failure : error :=
  Wrap ErrAdditionalContainerFailed "manifest unknown".

(** A computation is stateless when its trace and its end are the same in
    every state, which it leaves as it is. *)
Definition stateless {A} (m : M A) : Prop :=
  exists t r, forall s, m s = (s, t, r).

End OrchestratorSpec.

(* ===================================================================== *)
(** * Further statements about the container orchestrator *)
(* ===================================================================== *)

Module OrchestratorExtraSpec.

Import Dispatch Orchestrator OrchestratorSpec.

(** What can happen up to the creation of the main container: the capacity
    query, log lines, the image pull and the creation itself. *)
Definition creation_action (a : action) : bool :=
  match a with
  | CallSystemInfo | Log _ _ | Finish _ | CallImagePull _
  | CallContainerCreate _ => true
  | _ => false
  end.

(** The start of a sidecar goroutine. *)
Definition is_go (a : action) : bool :=
  match a with GoAdditionalContainer _ => true | _ => false end.

(** The deletion of a container. *)
Definition is_delete (a : action) : bool :=
  match a with CallContainerDelete _ => true | _ => false end.

Definition deletions (t : list action) : nat :=
  length (List.filter is_delete t).

(** The first two steps of the removal, at which it stays when a sidecar
    goroutine never ends. *)
Definition teardown_stuck : list action :=
  [AdditionalContainersCancel; AdditionalContainersWGWait].

(** The mounts of the main container: the agent's volume, the directory of
    the Unix socket when the endpoint is one, and the project, from the
    host in dirty mode and from the working volume otherwise. *)
Definition expected_mounts (ContainerAgentVolumeDir : ContainerPlatform -> string)
    (filepath_Dir : string -> string) (config : RunConfig) (p : Params)
  : list ContainerMount :=
  [ {| mnt_Type := MountTypeVolume; mnt_Source := p_AgentVolumeName p;
       mnt_Target := ContainerAgentVolumeDir (p_Platform p) |} ] ++
  (if HasPrefix (ContainerEndpoint config) "unix:" then
     [ {| mnt_Type := MountTypeBind;
          mnt_Source := filepath_Dir (TrimPrefix (ContainerEndpoint config) "unix:");
          mnt_Target := filepath_Dir (TrimPrefix (ContainerEndpoint config) "unix:") |} ]
   else []) ++
  [ {| mnt_Type := if DirtyMode config then MountTypeBind else MountTypeVolume;
       mnt_Source := if DirtyMode config then ProjectDir config
                     else p_WorkingVolumeName p;
       mnt_Target := p_WorkingDirectory p |} ].

(** An additional container whose pointer is nil, for the examples. *)
Definition dangling_state : State :=
  {| params := example_params;
     heap := <[1%positive := web]> ∅;
     logReaderWg := 0; logReaderStarted := false |}.

(** The backend cannot start the main container. *)
Definition unstartable_backend : Backend :=
  {| on_SystemInfo := on_SystemInfo example_backend;
     on_ShouldPullImage := fun _ => false;
     on_ImagePull := fun _ => None;
     on_ContainerCreate := on_ContainerCreate example_backend;
     on_ContainerStart := fun _ => Some (Foreign "OCI runtime create failed");
     on_ContainerLogs := fun _ => None;
     on_ContainerDelete := fun _ => None |}.

Definition unstartable_world : World :=
  {| backend := unstartable_backend;
     sidecar := fun _ => running_sidecar;
     waitArrivals := [];
     selectEntry := 0;
     pick := 0 |}.

(** The image of the main container cannot be pulled. *)
Definition unpullable_world : World :=
  {| backend := failing_backend;
     sidecar := fun _ => running_sidecar;
     waitArrivals := [];
     selectEntry := 0;
     pick := 0 |}.

(** The capacity query fails. *)
Definition unreachable_backend : Backend :=
  {| on_SystemInfo := ({| TotalCPUs := 0; TotalMemoryBytes := 0 |},
                       Some (Foreign "cannot connect to the daemon"));
     on_ShouldPullImage := fun _ => false;
     on_ImagePull := fun _ => None;
     on_ContainerCreate := on_ContainerCreate example_backend;
     on_ContainerStart := fun _ => None;
     on_ContainerLogs := fun _ => None;
     on_ContainerDelete := fun _ => None |}.

Definition unreachable_world : World :=
  {| backend := unreachable_backend;
     sidecar := fun _ => running_sidecar;
     waitArrivals := [];
     selectEntry := 0;
     pick := 0 |}.

(** A piece of code comes to an end: it does not wait for ever. *)
Definition ends {A} (r : flow A) : bool :=
  match r with Blocked => false | _ => true end.

(** The log reader's wait group and goroutine are as they were. *)
Definition same_log_reader (s s' : State) : Prop :=
  logReaderWg s' = logReaderWg s /\ logReaderStarted s' = logReaderStarted s.

(** The network of the main container: the Cloud Build network on Linux
    when the CLI runs in Cloud Build, the backend's default otherwise. *)
Definition expected_network (GOOS CloudBuildIP CloudBuildNetworkName : string) : string :=
  if String.eqb GOOS "linux" && negb (String.eqb CloudBuildIP "")
  then CloudBuildNetworkName else "".

(** What the orchestrator does when the image of the main container
    cannot be pulled. *)
Definition failed_pull_trace (reference : string) (err : error) : list action :=
  [CallSystemInfo;
   Log Info ("Pulling image " ++ reference ++ "...");
   CallImagePull reference;
   Log Err ("Failed to pull " ++ reference ++ ": " ++ Error err);
   Finish false].

(** A host with 8 CPUs and 8 GiB: the 4096 MiB that the examples ask for
    are available. *)
Definition roomy_backend : Backend :=
  {| on_SystemInfo := ({| TotalCPUs := 8; TotalMemoryBytes := 8589934592 |}, None);
     on_ShouldPullImage := fun _ => false;
     on_ImagePull := fun _ => None;
     on_ContainerCreate := on_ContainerCreate example_backend;
     on_ContainerStart := fun _ => None;
     on_ContainerLogs := fun _ => None;
     on_ContainerDelete := fun _ => None |}.

Definition roomy_world : World :=
  {| backend := roomy_backend;
     sidecar := fun _ => running_sidecar;
     waitArrivals := [(5%nat, WaitResult {| StatusCode := 0; ProcessError := "" |})];
     selectEntry := 2;
     pick := 0 |}.

(** Sidecars that run for ever, whatever happens to their context: their
    wait delivers nothing. *)
Definition endless_sidecar : SidecarWorld :=
  {| sw_backend := example_backend; sw_recv := None; sw_done := 10 |}.

Definition endless_world : World :=
  {| backend := example_backend;
     sidecar := fun _ => endless_sidecar;
     waitArrivals := [(5%nat, WaitResult {| StatusCode := 1; ProcessError := "" |})];
     selectEntry := 2;
     pick := 0 |}.

(** A configuration with a Unix socket as the endpoint, in dirty mode. *)
Definition dirty_config : RunConfig :=
  {| ContainerEndpoint := "unix:/run/cirrus/cli.sock";
     DirectEndpoint := "unix:/run/cirrus/cli.sock";
     ServerSecret := "server-secret"; ClientSecret := "client-secret";
     TaskID := 42; ProjectDir := "/project"; DirtyMode := true;
     NoCleanup := false |}.

End OrchestratorExtraSpec.

(* ===================================================================== *)
(** * [Parallels.Run] *)
(* ===================================================================== *)

Module ParallelsRun.

(** ** What [Run] does, in program order *)

Inductive event :=
| CallNewVMClonedFrom (image : string)
| CallVMClose
| CallRetrieveIP
| CallDialContext (network address : string)
| CallNewClientConn (address user password : string)
| CallNewClient
| GoMonitor                       (* [go func()] that closes the client *)
| MonitorCancel
| CallUploadAgent (agentOS version : string)
| CallNewSession
| CallStdinPipe
| CallShell
| CallWrite (data : string)
| CallWait.

(** What [Run] reads of a [*VM]: its [name] field and the result of
    [Ident()]. *)
Record VM := { vm_name : string; vm_ident : string }.

(** The answers of the virtual machine, of the network and of the
    libraries to the calls of one run.  [retry.Do] calls the closure that
    it is given as often as it sees fit: [on_RetrieveIP] lists what
    [vm.RetrieveIP] answers to those calls, and [on_retry] is what
    [retry.Do] returns in the end.  [on_StdinPipe] tells whether the
    writer that [sess.StdinPipe] returns is there (it is nil otherwise);
    [on_Write] answers the n-th write; [agentVersion] is the result of
    [config.GetAgentVersion()] and [now] that of [time.Now().UTC()]. *)
Record Host := {
  on_NewVMClonedFrom : string -> VM * option error;
  on_RetrieveIP : list (string * option error);
  on_retry : option error;
  on_DialContext : string -> option error;
  on_NewClientConn : string -> option error;
  on_uploadAgent : string -> string -> string * option error;
  on_NewSession : option error;
  on_StdinPipe : bool;
  on_Shell : option error;
  on_Write : nat -> option error;
  on_Wait : option error;
  agentVersion : string;
  now : Time
}.

(** ** A function body: its calls and how it ends *)

Inductive flow (A : Type) :=
| Next (a : A)
| Return (err : option error)
| Panic.
Arguments Next {A} a.
Arguments Return {A} err.
Arguments Panic {A}.

Definition M (A : Type) : Type := list event * flow A.

Definition ret {A} (a : A) : M A := ([], Next a).

Definition bind {A B} (m : M A) (f : A -> M B) : M B :=
  match m with
  | (t1, Next a) => let '(t2, r) := f a in (t1 ++ t2, r)
  | (t1, Return e) => (t1, Return e)
  | (t1, Panic) => (t1, Panic)
  end.

Declare Scope vm_scope.
Delimit Scope vm_scope with vm.
Notation "x <- m ;; k" := (bind m (fun x => k))
  (at level 100, m at next level, k at level 200, right associativity) : vm_scope.
Notation "m ;; k" := (bind m (fun _ => k))
  (at level 100, k at level 200, right associativity) : vm_scope.
Local Open Scope vm_scope.

(** A call and its answer. *)
Definition call {A} (e : event) (answer : A) : M A := ([e], Next answer).
Definition returns {A} (err : option error) : M A := ([], Return err).
Definition panic {A} : M A := ([], Panic).

(** [defer]: the deferred calls are made when the rest of the function
    returns or panics. *)
Definition defer {A} (deferred : list event) (body : M A) : M A :=
  let '(t, r) := body in (t ++ deferred, r).

(** [retry.Do] around [vm.RetrieveIP]: [ip] holds what the last call has
    assigned to it. *)
Definition retrieveIP (h : Host) : M (string * option error) :=
  (List.map (fun _ => CallRetrieveIP) (on_RetrieveIP h),
   Next (match last (on_RetrieveIP h) with
         | Some answer => fst answer
         | None => ""
         end,
         on_retry h)).

(** [stdinBuf.Write]: on a nil writer it panics. *)
Definition stdinBuf_Write (h : Host) (stdinBuf : bool) (n : nat) (data : string)
  : M (option error) :=
  if stdinBuf then call (CallWrite data) (on_Write h n) else panic.

Section WithQuote.

(** The [%q] verb of [fmt], which is [strconv.Quote]. *)
Variable Quote : string -> string.

(** [fmt.Errorf("%w: ...", ErrFailed, ...)]. *)
Definition failed (what : string) (err : error) : option error :=
  Some (Wrap ErrFailed (what ++ ": " ++ Error err)).

Definition Run (h : Host) (parallels : Parallels) (config : RunConfig) : M unit :=
  r <- call (CallNewVMClonedFrom (vmImage parallels))
            (on_NewVMClonedFrom h (vmImage parallels)) ;;
  let '(vm, err) := r in
  match err with
  | Some err =>
      returns (failed ("failed to create VM cloned from " ++
                       Quote (vmImage parallels)) err)
  | None =>
  defer [CallVMClose]
    ((* Wait for the VM to start and get it's DHCP address *)
     r <- retrieveIP h ;;
     let '(ip, err) := r in
     match err with
     | Some err =>
         returns (failed ("failed to retrieve VM " ++ Quote (vm_name vm) ++
                          " IP-address") err)
     | None =>
     (* Connect to the VM and upload the agent *)
     let addr := (ip ++ ":22")%string in
     err <- call (CallDialContext "tcp" addr) (on_DialContext h addr) ;;
     match err with
     | Some err =>
         returns (failed ("failed to connect to the VM " ++ Quote (vm_ident vm) ++
                          " on SSH port") err)
     | None =>
     err <- call (CallNewClientConn addr (sshUser parallels) (sshPassword parallels))
                 (on_NewClientConn h addr) ;;
     match err with
     | Some err =>
         returns (failed ("failed to connect to the VM " ++ Quote (vm_ident vm) ++
                          " via SSH") err)
     | None =>
     call CallNewClient tt ;;
     call GoMonitor tt ;;
     defer [MonitorCancel]
       (r <- call (CallUploadAgent (agentOS parallels) (agentVersion h))
                  (on_uploadAgent h (agentOS parallels) (agentVersion h)) ;;
        let '(remoteAgentPath, err) := r in
        match err with
        | Some err =>
            returns (failed ("failed to upload agent to the VM " ++
                             Quote (vm_ident vm) ++ " via SFTP") err)
        | None =>
        err <- call CallNewSession (on_NewSession h) ;;
        match err with
        | Some err =>
            returns (failed ("failed to open SSH session on VM " ++
                             Quote (vm_ident vm)) err)
        | None =>
        stdinBuf <- call CallStdinPipe (on_StdinPipe h) ;;
        (* start a login shell so all the customization from ~/.zprofile
           will be picked up *)
        err <- call CallShell (on_Shell h) ;;
        match err with
        | Some err =>
            returns (failed ("failed to start a shell on VM " ++
                             Quote (vm_ident vm)) err)
        | None =>
        (* Synchronize time *)
        err <- stdinBuf_Write h stdinBuf 0 (TimeSyncCommand (now h)) ;;
        match err with
        | Some err =>
            returns (failed ("failed to sync time on VM " ++
                             Quote (vm_ident vm)) err)
        | None =>
        (* Start the agent and wait for it to terminate *)
        err <- stdinBuf_Write h stdinBuf 1 (Run_agent_input remoteAgentPath config) ;;
        match err with
        | Some err =>
            returns (failed ("failed to start agent on VM " ++
                             Quote (vm_ident vm)) err)
        | None =>
        err <- call CallWait (on_Wait h) ;;
        match err with
        | Some err =>
            returns (failed ("failed to run agent on VM " ++
                             Quote (vm_ident vm)) err)
        | None => returns None
        end
        end
        end
        end
        end
        end)
     end
     end
     end)
  end.

End WithQuote.

End ParallelsRun.

(* ===================================================================== *)
(** * Statements about [Parallels.Run] *)
(* ===================================================================== *)

Module ParallelsRunSpec.

Import ParallelsRun.

(** The address that [Run] connects to. *)
Definition address (h : Host) : string :=
  match last (on_RetrieveIP h) with
  | Some answer => fst answer
  | None => ""
  end ++ ":22".

(** Every step of [Run] succeeds, the writes apart. *)
Definition shell_started (h : Host) (parallels : Parallels) : bool :=
  match snd (on_NewVMClonedFrom h (vmImage parallels)), on_retry h,
        on_DialContext h (address h), on_NewClientConn h (address h),
        snd (on_uploadAgent h (agentOS parallels) (agentVersion h)),
        on_NewSession h, on_Shell h with
  | None, None, None, None, None, None, None => true
  | _, _, _, _, _, _, _ => false
  end.

(** Every step of [Run] succeeds. *)
Definition all_succeed (h : Host) (parallels : Parallels) : bool :=
  shell_started h parallels && on_StdinPipe h &&
  match on_Write h 0, on_Write h 1, on_Wait h with
  | None, None, None => true
  | _, _, _ => false
  end.

Definition is_write (e : event) : bool :=
  match e with CallWrite _ => true | _ => false end.

(** What a run writes to the standard input of the shell. *)
Definition written (t : list event) : list string :=
  omap (fun e => match e with CallWrite data => Some data | _ => None end) t.

Definition is_close (e : event) : bool :=
  match e with CallVMClose => true | _ => false end.

Definition is_cancel (e : event) : bool :=
  match e with MonitorCancel => true | _ => false end.

Definition is_monitor (e : event) : bool :=
  match e with GoMonitor => true | _ => false end.

Definition count (f : event -> bool) (t : list event) : nat :=
  length (List.filter f t).

(** A virtual machine that does what it is asked. *)
Definition example_vm : VM := {| vm_name := "cirrus-cli-1"; vm_ident := "{uuid}" |}.

Definition example_host : Host :=
  {| on_NewVMClonedFrom := fun _ => (example_vm, None);
     on_RetrieveIP := [("", Some (Foreign "no IP yet")); ("10.211.55.3", None)];
     on_retry := None;
     on_DialContext := fun _ => None;
     on_NewClientConn := fun _ => None;
     on_uploadAgent := fun _ _ => ("/tmp/cirrus-ci-agent", None);
     on_NewSession := None;
     on_StdinPipe := true;
     on_Shell := None;
     on_Write := fun _ => None;
     on_Wait := None;
     agentVersion := "1.0.0";
     now := ParallelsSpec.t_2024_01_02 |}.

(** The agent exits with a failure. *)
Definition failing_agent_host : Host :=
  {| on_NewVMClonedFrom := on_NewVMClonedFrom example_host;
     on_RetrieveIP := on_RetrieveIP example_host;
     on_retry := None;
     on_DialContext := fun _ => None;
     on_NewClientConn := fun _ => None;
     on_uploadAgent := on_uploadAgent example_host;
     on_NewSession := None;
     on_StdinPipe := true;
     on_Shell := None;
     on_Write := fun _ => None;
     on_Wait := Some (Foreign "Process exited with status 1");
     agentVersion := "1.0.0";
     now := ParallelsSpec.t_2024_01_02 |}.

(** The session gives no writer. *)
Definition no_pipe_host : Host :=
  {| on_NewVMClonedFrom := on_NewVMClonedFrom example_host;
     on_RetrieveIP := on_RetrieveIP example_host;
     on_retry := None;
     on_DialContext := fun _ => None;
     on_NewClientConn := fun _ => None;
     on_uploadAgent := on_uploadAgent example_host;
     on_NewSession := None;
     on_StdinPipe := false;
     on_Shell := None;
     on_Write := fun _ => None;
     on_Wait := None;
     agentVersion := "1.0.0";
     now := ParallelsSpec.t_2024_01_02 |}.

Definition example_parallels : Parallels :=
  {| vmImage := "big-sur"; sshUser := "admin"; sshPassword := "admin";
     agentOS := "darwin" |}.

Definition direct_config : RunConfig :=
  {| ContainerEndpoint := "http://host:8080"; DirectEndpoint := "http://host:8080";
     ServerSecret := "server-secret"; ClientSecret := "client-secret";
     TaskID := 42; ProjectDir := "/project"; DirtyMode := false;
     NoCleanup := false |}.

(** A quoting for the examples: between double quotes, as [strconv.Quote]
    does for text without special characters. *)
Definition plain_quote (s : string) : string := (dquote ++ s ++ dquote)%string.

(** The end of a run that has cloned the virtual machine: it is closed
    once, and last; the monitor's context is cancelled as often as the
    monitor is started, at most once, and right before the close. *)
Definition closes (t : list event) : Prop :=
  count is_close t = 1%nat /\
  List.last t CallWait = CallVMClose /\
  count is_cancel t = count is_monitor t /\
  (count is_monitor t <= 1)%nat /\
  (In GoMonitor t -> exists before, t = before ++ [MonitorCancel; CallVMClose]).

(** The same, decided on the calls that follow the retrieval of the
    address. *)
Definition closes_after (l : list event) : bool :=
  (count is_close l =? 1)%nat &&
  match rev l with CallVMClose :: _ => true | _ => false end &&
  (count is_cancel l =? count is_monitor l)%nat &&
  (count is_monitor l <=? 1)%nat &&
  (if existsb is_monitor l
   then match rev l with CallVMClose :: MonitorCancel :: _ => true | _ => false end
   else true).

End ParallelsRunSpec.

(* ===================================================================== *)
(** * The default parser (package [parseable]) *)
(* ===================================================================== *)

Module Parseable.

Declare Scope parse_scope.
Delimit Scope parse_scope with parse.

Section WithNode.

(** Of packages [node], [nameable] and [schema] and of the other files of
    this package, which are not among the sources: the nodes of the
    configuration tree with their names and children, the search for a
    collectible below a node, the error that a node reports (with its
    message formatted; [Quote] is the [%q] verb) and the schemas. *)
Variable Node : Type.
Variable Node_Name : Node -> string.
Variable Node_Children : Node -> list Node.
Variable DeepFindCollectible : Node -> string -> option Node.
Variable ParserError : Node -> string -> error.
Variable Quote : string -> string.
Variable schema_Schema : Type.

(** What the callbacks of a parser write to. *)
Variable Target : Type.

(** [nameable.Nameable] with its two implementations; a regular
    expression is known by its pointer. *)
Inductive NameableKind :=
| SimpleNameable (Name : string)
| RegexNameable (Regex : positive)
| OtherNameable.

Record Nameable := {
  Matches : string -> bool;
  MapKey : string;
  Nameable_String : string;
  kind : NameableKind
}.

Definition nodeFunc : Type := Node -> Target -> Target * option error.

Record Field := {
  name : Nameable;
  required : bool;
  onFound : nodeFunc;
  schema : schema_Schema
}.

Record CollectibleField := {
  cf_Name : string;
  cf_onFound : nodeFunc;
  cf_Schema : schema_Schema
}.

(** What the methods read of a [*DefaultParser]. *)
Record DefaultParser := {
  fields : list Field;
  collectibleFields : list CollectibleField;
  Collectible : bool
}.

(** ** The calls of the callbacks, with what they return *)

Inductive event :=
| OnFound (key : string) (child : Node) (err : option error)
| OnCollected (name : string) (children : Node) (err : option error).

Inductive flow (A : Type) :=
| Next (a : A)
| Return (err : option error).
Arguments Next {A} a.
Arguments Return {A} err.

Definition M (A : Type) : Type := Target -> Target * list event * flow A.

Definition ret {A} (a : A) : M A := fun s => (s, [], Next a).

Definition bind {A B} (m : M A) (f : A -> M B) : M B :=
  fun s =>
    match m s with
    | (s1, t1, Next a) => let '(s2, t2, r) := f a s1 in (s2, t1 ++ t2, r)
    | (s1, t1, Return e) => (s1, t1, Return e)
    end.

Notation "x <- m ;; k" := (bind m (fun x => k))
  (at level 100, m at next level, k at level 200, right associativity) : parse_scope.
Notation "m ;; k" := (bind m (fun _ => k))
  (at level 100, k at level 200, right associativity) : parse_scope.
Local Open Scope parse_scope.

Definition returns {A} (err : option error) : M A := fun s => (s, [], Return err).

(** The call of a callback. *)
Definition callback (record : option error -> event) (f : Target -> Target * option error)
  : M (option error) :=
  fun s => let '(s', err) := f s in (s', [record err], Next err).

(** [if err != nil { return err }]. *)
Definition check (err : option error) : M unit :=
  match err with
  | Some err => returns (Some err)
  | None => ret tt
  end.

Fixpoint forEach {A} (xs : list A) (body : A -> M unit) : M unit :=
  match xs with
  | [] => ret tt
  | x :: rest => body x ;; forEach rest body
  end.

(** ** [evaluateCollectible] *)

Definition evaluateCollectible (node : Node) (field : CollectibleField)
  : M (option error) :=
  let children := DeepFindCollectible node (cf_Name field) in
  match children with
  | None => ret None
  | Some children =>
      callback (OnCollected (cf_Name field) children) (cf_onFound field children)
  end.

(** ** [Parse] *)

(** The inner loop of the second pass, left at the first collectible field
    with the name of the child. *)
Fixpoint doubleCheck (node child : Node) (cfs : list CollectibleField) : M unit :=
  match cfs with
  | [] => ret tt
  | collectibleField :: rest =>
      if String.eqb (cf_Name collectibleField) (Node_Name child) then
        err <- evaluateCollectible node collectibleField ;;
        check err
      else doubleCheck node child rest
  end.

(** The inner loop of the third pass, left at the first field whose name
    matches the one of the child; [seenFields] is a set of map keys. *)
Fixpoint dispatch (child : Node) (fs : list Field) (seenFields : gset string)
  : M (gset string) :=
  match fs with
  | [] => ret seenFields
  | field :: rest =>
      if Matches (name field) (Node_Name child) then
        let seenFields := {[ MapKey (name field) ]} ∪ seenFields in
        err <- callback (OnFound (MapKey (name field)) child) (onFound field child) ;;
        check err ;;
        ret seenFields
      else dispatch child rest seenFields
  end.

Fixpoint dispatchAll (children : list Node) (fs : list Field)
    (seenFields : gset string) : M (gset string) :=
  match children with
  | [] => ret seenFields
  | child :: rest =>
      seenFields <- dispatch child fs seenFields ;;
      dispatchAll rest fs seenFields
  end.

(** The last pass: the first required field that was not seen. *)
Fixpoint checkRequired (node : Node) (fs : list Field) (seenFields : gset string)
  : M unit :=
  match fs with
  | [] => ret tt
  | field :: rest =>
      let seen := bool_decide (MapKey (name field) ∈ seenFields) in
      if required field && negb seen then
        returns (Some (ParserError node
                         ("required field " ++ Quote (Nameable_String (name field)) ++
                          " was not set")))
      else checkRequired node rest seenFields
  end.

Definition Parse (parser : DefaultParser) (node : Node) : M unit :=
  (* Evaluate collectible fields *)
  forEach (collectibleFields parser)
    (fun field => err <- evaluateCollectible node field ;; check err) ;;
  forEach (Node_Children node)
    (fun child =>
       (* double check collectible fields *)
       doubleCheck node child (collectibleFields parser)) ;;
  seenFields <- dispatchAll (Node_Children node) (fields parser) ∅ ;;
  checkRequired node (fields parser) seenFields ;;
  returns None.

(** ** [Schema] *)

(** What [Schema] fills in of a [schema.Schema]; the additional items and
    properties are left without a schema. *)
Record Schema_ := {
  Properties : gmap string schema_Schema;
  PatternProperties : gmap positive schema_Schema;
  Required : list string
}.

Definition Schema (parser : DefaultParser) : Schema_ :=
  let schema0 := {| Properties := ∅; PatternProperties := ∅; Required := [] |} in
  let schema1 :=
    foldl (fun s field =>
             let s :=
               match kind (name field) with
               | SimpleNameable n =>
                   {| Properties := <[n := schema field]> (Properties s);
                      PatternProperties := PatternProperties s;
                      Required := Required s |}
               | RegexNameable r =>
                   {| Properties := Properties s;
                      PatternProperties := <[r := schema field]> (PatternProperties s);
                      Required := Required s |}
               | OtherNameable => s
               end in
             if required field && negb (Collectible parser) then
               {| Properties := Properties s;
                  PatternProperties := PatternProperties s;
                  Required := Required s ++ [Nameable_String (name field)] |}
             else s)
          schema0 (fields parser) in
  foldl (fun s collectibleField =>
           {| Properties := <[cf_Name collectibleField := cf_Schema collectibleField]>
                              (Properties s);
              PatternProperties := PatternProperties s;
              Required := Required s |})
        schema1 (collectibleFields parser).

Definition CollectibleFields (parser : DefaultParser) : list CollectibleField :=
  collectibleFields parser.

End WithNode.

Arguments name {Node schema_Schema Target} f.
Arguments required {Node schema_Schema Target} f.
Arguments onFound {Node schema_Schema Target} f _ _.
Arguments schema {Node schema_Schema Target} f.
Arguments cf_Name {Node schema_Schema Target} c.
Arguments cf_onFound {Node schema_Schema Target} c _ _.
Arguments cf_Schema {Node schema_Schema Target} c.
Arguments fields {Node schema_Schema Target} d.
Arguments collectibleFields {Node schema_Schema Target} d.
Arguments Collectible {Node schema_Schema Target} d.
Arguments Next {A} a.
Arguments Return {A} err.
Arguments OnFound {Node} key child err.
Arguments OnCollected {Node} name children err.
Arguments ret {Node Target A} a _.
Arguments bind {Node Target A B} m f _.
Arguments returns {Node Target A} err _.
Arguments callback {Node Target} record f _.
Arguments check {Node Target} err _.
Arguments forEach {Node Target A} xs body _.
Arguments evaluateCollectible {Node} DeepFindCollectible {schema_Schema Target} node field _.
Arguments doubleCheck {Node} Node_Name DeepFindCollectible {schema_Schema Target}
  node child cfs _.
Arguments dispatch {Node} Node_Name {schema_Schema Target} child fs seenFields _.
Arguments dispatchAll {Node} Node_Name {schema_Schema Target} children fs seenFields _.
Arguments checkRequired {Node} ParserError Quote {schema_Schema Target}
  node fs seenFields _.
Arguments Parse {Node} Node_Name Node_Children DeepFindCollectible ParserError Quote
  {schema_Schema Target} parser node _.
Arguments Schema {Node schema_Schema Target} parser.
Arguments CollectibleFields {Node schema_Schema Target} parser.
Arguments Properties {schema_Schema} s.
Arguments PatternProperties {schema_Schema} s.
Arguments Required {schema_Schema} s.

Notation "x <- m ;; k" := (bind m (fun x => k))
  (at level 100, m at next level, k at level 200, right associativity) : parse_scope.
Notation "m ;; k" := (bind m (fun _ => k))
  (at level 100, k at level 200, right associativity) : parse_scope.

End Parseable.

(* ===================================================================== *)
(** * Statements about the default parser *)
(* ===================================================================== *)

Module ParseableSpec.

Import Parseable.

Section WithNode.

Variable Node : Type.
Variable Node_Name : Node -> string.
Variable DeepFindCollectible : Node -> string -> option Node.
Variable Quote : string -> string.
Variable schema_Schema Target : Type.

(** The field that a child is handed to: the first one, in the order of
    their declaration, whose name matches the name of the child. *)
Definition first_match (fs : list (Field Node schema_Schema Target)) (child : Node)
  : option (Field Node schema_Schema Target) :=
  List.find (fun f => Matches (name f) (Node_Name child)) fs.

(** The first collectible field that has the name of a child. *)
Definition first_named (cfs : list (CollectibleField Node schema_Schema Target))
    (child : Node) : option (CollectibleField Node schema_Schema Target) :=
  List.find (fun cf => String.eqb (cf_Name cf) (Node_Name child)) cfs.

(** The map keys of the fields that children are handed to. *)
Definition seen_keys (fs : list (Field Node schema_Schema Target))
    (children : list Node) : gset string :=
  list_to_set (omap (fun child => (fun f => MapKey (name f)) <$> first_match fs child)
                    children).

(** What the callback of an event has returned. *)
Definition event_err (e : event Node) : option error :=
  match e with OnFound _ _ err | OnCollected _ _ err => err end.

Definition succeeded (e : event Node) : Prop := event_err e = None.

(** The calls of the fields' callbacks when none of them fails: one for
    every child that a field matches, in the order of the children. *)
Definition found_events (fs : list (Field Node schema_Schema Target))
    (children : list Node) : list (event Node) :=
  omap (fun child =>
          (fun f => OnFound (MapKey (name f)) child None) <$> first_match fs child)
       children.

(** The call of the callback of a collectible field, made when there is
    such a collectible below the node. *)
Definition collected (node : Node) (cf : CollectibleField Node schema_Schema Target)
  : option (event Node) :=
  (fun children => OnCollected (cf_Name cf) children None)
    <$> DeepFindCollectible node (cf_Name cf).

(** The calls of the collectible fields' callbacks when none of them
    fails: one for every collectible field, then one more for every child
    that has the name of a collectible field. *)
Definition collected_events (node : Node)
    (cfs : list (CollectibleField Node schema_Schema Target))
    (children : list Node) : list (event Node) :=
  omap (collected node) cfs ++
  omap (fun child => first_named cfs child ≫= collected node) children.

(** The first required field whose map key is not among those seen. *)
Definition missing (fs : list (Field Node schema_Schema Target)) (seen : gset string)
  : option (Field Node schema_Schema Target) :=
  List.find (fun f => required f && negb (bool_decide (MapKey (name f) ∈ seen))) fs.

(** The message for a required field that was not set. *)
Definition not_set (f : Field Node schema_Schema Target) : string :=
  "required field " ++ Quote (Nameable_String (name f)) ++ " was not set".

(** No callback of the parser ever returns an error. *)
Definition never_fails (parser : DefaultParser Node schema_Schema Target) : Prop :=
  (forall f n s, In f (fields parser) -> snd (onFound f n s) = None) /\
  (forall cf n s, In cf (collectibleFields parser) -> snd (cf_onFound cf n s) = None).

(** How the passes over the collectible fields and over the children end:
    they go on when every callback has succeeded, and they return the
    error of the callback called last when that one has failed; they never
    return nil. *)
Definition ends_well {A} (run : Target * list (event Node) * flow A) : Prop :=
  match run with
  | (_, t, Next _) => Forall succeeded t
  | (_, t, Return (Some e)) =>
      exists t' ev, t = t' ++ [ev] /\ Forall succeeded t' /\ event_err ev = Some e
  | (_, _, Return None) => False
  end.

(** How [Parse] ends: either every callback that it has called has
    succeeded, and it returns nil or reports a required field; or the
    callback called last has failed, and it returns the error of that
    one. *)
Definition stops_at_first_error (ParserError : Node -> string -> error) (node : Node)
    (fs : list (Field Node schema_Schema Target))
    (run : Target * list (event Node) * flow unit) : Prop :=
  exists t',
    Forall succeeded t' /\
    ((snd (fst run) = t' /\
      (snd run = Return None \/
       exists f, In f fs /\ required f = true /\
                 snd run = Return (Some (ParserError node (not_set f))))) \/
     (exists ev e,
         snd (fst run) = t' ++ [ev] /\ event_err ev = Some e /\
         snd run = Return (Some e))).

(** The property of a field: the name of a simple field. *)
Definition property_of (f : Field Node schema_Schema Target) : option string :=
  match kind (name f) with
  | SimpleNameable n => Some n
  | _ => None
  end.

(** The pattern of a field: the regular expression of a field that is
    named by one. *)
Definition pattern_of (f : Field Node schema_Schema Target) : option positive :=
  match kind (name f) with
  | RegexNameable r => Some r
  | _ => None
  end.

(** The schema that [Schema] files under a property: the one of the last
    collectible field of that name, or else the one of the last simple
    field of that name. *)
Definition property_schema (parser : DefaultParser Node schema_Schema Target)
    (n : string) : option schema_Schema :=
  match last (List.filter (fun cf => String.eqb (cf_Name cf) n)
                          (collectibleFields parser)) with
  | Some cf => Some (cf_Schema cf)
  | None =>
      match last (List.filter
                    (fun f => bool_decide (property_of f = Some n))
                    (fields parser)) with
      | Some f => Some (schema f)
      | None => None
      end
  end.

End WithNode.

Arguments first_match {Node} Node_Name {schema_Schema Target} fs child.
Arguments first_named {Node} Node_Name {schema_Schema Target} cfs child.
Arguments seen_keys {Node} Node_Name {schema_Schema Target} fs children.
Arguments event_err {Node} e.
Arguments succeeded {Node} e.
Arguments found_events {Node} Node_Name {schema_Schema Target} fs children.
Arguments collected {Node} DeepFindCollectible {schema_Schema Target} node cf.
Arguments collected_events {Node} Node_Name DeepFindCollectible {schema_Schema Target}
  node cfs children.
Arguments missing {Node schema_Schema Target} fs seen.
Arguments not_set {Node} Quote {schema_Schema Target} f.
Arguments never_fails {Node schema_Schema Target} parser.
Arguments property_of {Node schema_Schema Target} f.
Arguments pattern_of {Node schema_Schema Target} f.
Arguments property_schema {Node schema_Schema Target} parser n.
Arguments ends_well {Node Target A} run.
Arguments stops_at_first_error {Node} Quote {schema_Schema Target} ParserError node fs run.

(** ** A parser to try the statements on *)

(** A node of the configuration: a name and the names of its children,
    which have no children themselves. *)
Record tree := Tree { tree_name : string; tree_kids : list string }.

Definition tree_children (t : tree) : list tree :=
  List.map (fun n => {| tree_name := n; tree_kids := [] |}) (tree_kids t).

(** The collectible of a name, looked for among the children only. *)
Definition find_child (t : tree) (n : string) : option tree :=
  List.find (fun c => String.eqb (tree_name c) n) (tree_children t).

Definition simple (n : string) : Nameable :=
  {| Matches := String.eqb n; MapKey := n; Nameable_String := n;
     kind := SimpleNameable n |}.

(** A name that matches everything that starts with a prefix. *)
Definition prefixed (prefix : string) (re : positive) : Nameable :=
  {| Matches := fun s => HasPrefix s prefix; MapKey := "^" ++ prefix;
     Nameable_String := "^" ++ prefix; kind := RegexNameable re |}.

(** The callbacks of the example note the names they are called for. *)
Definition note (what : string) : nodeFunc tree (list string) :=
  fun n s => (s ++ [(what ++ ":" ++ tree_name n)%string], None).

Definition refuse (what : string) : nodeFunc tree (list string) :=
  fun n s => (s, Some (Foreign (what ++ " refused")%string)).

(** Scripts, matched by a prefix, come before the required field
    [script_timeout], which is simple; [env] is collectible. *)
Definition example_parser : DefaultParser tree nat (list string) :=
  {| fields :=
       [ {| name := prefixed "script" 1; required := false;
            onFound := note "script"; schema := 1%nat |};
         {| name := simple "script_timeout"; required := true;
            onFound := note "timeout"; schema := 2%nat |};
         {| name := simple "name"; required := true;
            onFound := note "name"; schema := 3%nat |} ];
     collectibleFields :=
       [ {| cf_Name := "env"; cf_onFound := note "env"; cf_Schema := 4%nat |} ];
     Collectible := false |}.

Definition example_node : tree :=
  {| tree_name := "task";
     tree_kids := ["name"; "env"; "script_timeout"; "unknown"] |}.

(** The same with a callback that refuses its child. *)
Definition refusing_parser : DefaultParser tree nat (list string) :=
  {| fields :=
       [ {| name := simple "name"; required := true;
            onFound := refuse "name"; schema := 3%nat |};
         {| name := simple "env"; required := false;
            onFound := note "env"; schema := 5%nat |} ];
     collectibleFields := [];
     Collectible := true |}.

Definition tree_error (t : tree) (msg : string) : error :=
  Foreign (tree_name t ++ ": " ++ msg)%string.

Definition plain_quote (s : string) : string := (dquote ++ s ++ dquote)%string.

(** A parser with one required field, and a node that has it. *)
Definition name_field : Field tree nat (list string) :=
  {| name := simple "name"; required := true; onFound := note "name";
     schema := 3%nat |}.

Definition small_parser : DefaultParser tree nat (list string) :=
  {| fields := [name_field]; collectibleFields := []; Collectible := false |}.

Definition small_node : tree := {| tree_name := "task"; tree_kids := ["name"] |}.

End ParseableSpec.

(* ===================================================================== *)
(** * Properties of the resource clamps *)
(* ===================================================================== *)

Module ClampFacts.

(** IEEE comparison of two numbers that are not NaN is reflexive and
    antisymmetric. *)
Lemma SFcompare_refl (x : float32) :
  IsNaN x = false -> SFcompare x x = Some Eq.
Proof.
  destruct x as [s|s| |s m e]; simpl; try discriminate; intros _.
  - reflexivity.
  - destruct s; reflexivity.
  - rewrite Z.compare_refl, Pos.compare_cont_refl. destruct s; reflexivity.
Qed.

Lemma SFcompare_antisym (x y : float32) :
  SFcompare y x = CompOpp <$> SFcompare x y.
Proof.
  destruct x as [s1|s1| |s1 m1 e1], y as [s2|s2| |s2 m2 e2]; simpl;
    try reflexivity;
    try (destruct s1; reflexivity); try (destruct s2; reflexivity);
    try (destruct s1, s2; reflexivity).
  assert (He : (e2 ?= e1)%Z = CompOpp (e1 ?= e2)%Z) by apply Z.compare_antisym.
  assert (Hm : Pos.compare_cont Eq m2 m1 = CompOpp (Pos.compare_cont Eq m1 m2)).
  { symmetry. apply (Pos.compare_cont_antisym m1 m2 Eq). }
  rewrite He, Hm.
  destruct s1, s2; simpl; try reflexivity;
    destruct (e1 ?= e2)%Z; simpl; try reflexivity;
    destruct (Pos.compare_cont Eq m1 m2); reflexivity.
Qed.

Lemma SFleb_refl (x : float32) : IsNaN x = false -> SFleb x x = true.
Proof. intros H. unfold SFleb. now rewrite SFcompare_refl. Qed.

Lemma SFeqb_refl (x : float32) : IsNaN x = false -> SFeqb x x = true.
Proof. intros H. unfold SFeqb. now rewrite SFcompare_refl. Qed.

Lemma SFleb_antisym (x y : float32) :
  SFleb x y = true -> SFleb y x = true -> SFeqb x y = true.
Proof.
  unfold SFleb, SFeqb. rewrite (SFcompare_antisym x y).
  destruct (SFcompare x y) as [[]|]; simpl; congruence.
Qed.

Lemma SFleb_not_nan_l (x y : float32) : SFleb x y = true -> IsNaN x = false.
Proof. destruct x; try reflexivity. discriminate. Qed.

Lemma SFleb_not_nan_r (x y : float32) : SFleb x y = true -> IsNaN y = false.
Proof. destruct x, y; try reflexivity; discriminate. Qed.

(** [math.Min] of two numbers returns one of them, the one that is not
    above the other. *)
Lemma math_Min_cases (x y : float32) :
  IsNaN x = false -> IsNaN y = false ->
  (math_Min x y = x /\ SFleb x y = true) \/
  (math_Min x y = y /\ SFleb y x = true).
Proof.
  intros Hx Hy. unfold math_Min. rewrite Hx, Hy. simpl.
  destruct (IsNegInf x) eqn:Ix.
  { left. destruct x as [|[]| |]; try discriminate.
    split; [reflexivity|]. destruct y as [|[]| |]; try reflexivity; discriminate. }
  destruct (IsNegInf y) eqn:Iy.
  { right. destruct y as [|[]| |]; try discriminate.
    split; [reflexivity|]. destruct x as [|[]| |]; try reflexivity; discriminate. }
  simpl.
  destruct (SFeqb x fzero && SFeqb x y) eqn:Hz.
  { apply andb_prop in Hz as [_ Hxy].
    assert (Hle : SFleb x y = true /\ SFleb y x = true).
    { unfold SFeqb in Hxy. unfold SFleb. rewrite (SFcompare_antisym x y).
      destruct (SFcompare x y) as [[]|]; try discriminate. now split. }
    destruct (Signbit x); [left | right]; tauto. }
  destruct (SFltb x y) eqn:Hlt.
  { left. split; [reflexivity|]. unfold SFltb in Hlt. unfold SFleb.
    destruct (SFcompare x y) as [[]|]; try discriminate. reflexivity. }
  right. split; [reflexivity|].
  unfold SFltb in Hlt. unfold SFleb. rewrite (SFcompare_antisym x y).
  assert (Hc : SFcompare x y <> None).
  { destruct x, y; simpl; try discriminate. }
  destruct (SFcompare x y) as [[]|]; simpl; try reflexivity; congruence.
Qed.

(** Clamping twice is clamping once. *)
Lemma math_Min_same (a : float32) : math_Min a a = a.
Proof.
  unfold math_Min.
  destruct a as [s|[]| |s m e]; try reflexivity.
  - destruct s; reflexivity.
  - cbn [IsNegInf IsNaN orb].
    replace (SFeqb (S754_finite s m e) fzero) with false
      by (destruct s; reflexivity).
    cbn [andb]. unfold SFltb. rewrite SFcompare_refl by reflexivity.
    reflexivity.
Qed.

Lemma clampCPU_idempotent (x a : float32) :
  clampCPU (clampCPU x a) a = clampCPU x a.
Proof.
  unfold clampCPU.
  destruct (IsNegInf x || IsNegInf a) eqn:Hinf.
  { assert (E : math_Min x a = S754_infinity true)
      by (unfold math_Min; now rewrite Hinf).
    rewrite E. reflexivity. }
  destruct (IsNaN x || IsNaN a) eqn:Hnan.
  { assert (E : math_Min x a = S754_nan)
      by (unfold math_Min; now rewrite Hinf, Hnan).
    rewrite E. apply orb_false_elim in Hinf as [_ Ha].
    unfold math_Min. simpl. rewrite Ha. reflexivity. }
  apply orb_false_elim in Hnan as [Hx Ha].
  destruct (math_Min_cases x a Hx Ha) as [[E _]|[E _]]; rewrite E.
  - exact E.
  - apply math_Min_same.
Qed.

Lemma clampMemory_idempotent (x a : N) :
  clampMemory (clampMemory x a) a = clampMemory x a.
Proof.
  unfold clampMemory.
  destruct (N.ltb_spec a x) as [H|H].
  - now rewrite N.ltb_irrefl.
  - destruct (N.ltb_spec a x); [lia | reflexivity].
Qed.

(** C5.  [clampCPU] is [math.Min], which for numbers is the smaller of
    the two, and [clampMemory] is the requested amount when it does not
    exceed the available one and the available one otherwise; for
    requested and available amounts that are not negative each result is
    at most the requested and at most the available amount, and it is the
    requested amount whenever that does not exceed the available one.
    Both are total functions: there is no error to return. *)
Theorem clamp_is_min_and_bounded :
  (forall requested available : float32,
      clampCPU requested available = math_Min requested available) /\
  (forall requested available : float32,
      IsNaN requested = false -> IsNaN available = false ->
      SFeqb (clampCPU requested available)
            (if SFleb requested available then requested else available) = true) /\
  (forall requested available : N,
      clampMemory requested available =
      if (requested <=? available)%N then requested else available) /\
  (forall requested available : float32,
      SFleb fzero requested = true -> SFleb fzero available = true ->
      SFleb (clampCPU requested available) requested = true /\
      SFleb (clampCPU requested available) available = true /\
      (SFleb requested available = true ->
       SFeqb (clampCPU requested available) requested = true)) /\
  (forall requested available : N,
      (0 <= requested)%N -> (0 <= available)%N ->
      (clampMemory requested available <= requested)%N /\
      (clampMemory requested available <= available)%N /\
      ((requested <= available)%N -> clampMemory requested available = requested)).
Proof.
  split; [reflexivity|].
  split.
  { intros r a Hr Ha. unfold clampCPU.
    destruct (math_Min_cases r a Hr Ha) as [[E L]|[E L]]; rewrite E.
    - rewrite L. now apply SFeqb_refl.
    - destruct (SFleb r a) eqn:L'.
      + now apply SFleb_antisym.
      + now apply SFeqb_refl. }
  split.
  { intros r a. unfold clampMemory.
    destruct (N.ltb_spec a r), (N.leb_spec r a); try reflexivity; lia. }
  split.
  { intros r a H0r H0a.
    pose proof (SFleb_not_nan_r _ _ H0r) as Hr.
    pose proof (SFleb_not_nan_r _ _ H0a) as Ha.
    unfold clampCPU.
    destruct (math_Min_cases r a Hr Ha) as [[E L]|[E L]]; rewrite E.
    - repeat split; auto using SFleb_refl, SFeqb_refl.
    - repeat split; auto using SFleb_refl.
      intros L'. now apply SFleb_antisym. }
  intros r a _ _. unfold clampMemory.
  destruct (N.ltb_spec a r); repeat split; lia.
Qed.

(** A run of the theorem: two CPUs requested where one and a half are
    available, 4096 MiB requested where 2048 are. *)
Lemma clamp_is_min_and_bounded_witness :
  SFleb (clampCPU (float32_of_Z 2) (binary_normalize 24 128 3 (-1) false))
        (binary_normalize 24 128 3 (-1) false) = true /\
  (clampMemory 4096 2048 <= 2048)%N.
Proof.
  destruct clamp_is_min_and_bounded as (_ & _ & _ & Hcpu & Hmem).
  split.
  - apply Hcpu; reflexivity.
  - apply Hmem; lia.
Defined.

End ClampFacts.

(* ===================================================================== *)
(** * Properties of the clock-sync command and of the agent command line *)
(* ===================================================================== *)

Module ParallelsFacts.

Import ParallelsSpec.

Lemma Zrange_In (lo : Z) (n : nat) (x : Z) :
  (lo <= x < lo + Z.of_nat n)%Z -> In x (Zrange lo n).
Proof.
  revert lo. induction n as [|n IH]; intros lo H; simpl.
  - lia.
  - destruct (Z.eq_dec lo x) as [->|Hne]; [now left | right].
    apply IH. lia.
Qed.

(** The padding of [appendInt] yields the fixed-width fields: checked on
    every value of the two ranges. *)
Lemma appendInt_two_digits (n : Z) :
  (0 <= n <= 99)%Z -> appendInt n 2 = two_digits n.
Proof.
  intros H.
  assert (All : forallb (fun k => String.eqb (appendInt k 2) (two_digits k))
                        (Zrange 0 (Z.to_nat 100)) = true) by (vm_compute; reflexivity).
  rewrite forallb_forall in All.
  apply String.eqb_eq, All, Zrange_In. rewrite Z2Nat.id; lia.
Qed.

Lemma appendInt_four_digits (n : Z) :
  (0 <= n <= 9999)%Z -> appendInt n 4 = four_digits n.
Proof.
  intros H.
  assert (All : forallb (fun k => String.eqb (appendInt k 4) (four_digits k))
                        (Zrange 0 (Z.to_nat 10000)) = true) by (vm_compute; reflexivity).
  rewrite forallb_forall in All.
  apply String.eqb_eq, All, Zrange_In. rewrite Z2Nat.id; lia.
Qed.

Lemma timestamp_length (t : Time) : String.length (timestamp t) = 12%nat.
Proof. reflexivity. Qed.

(** C8, as the code has it.  For every UTC time whose year lies between
    0 and 9999, [TimeSyncCommand] is [sudo date -u ], then the twelve
    digits mmddHHMMYYYY, then one line feed; for 2024-01-02T03:04:05Z it
    is [sudo date -u 010203042024] and a line feed. *)
Theorem TimeSyncCommand_layout :
  (forall t : Time,
      valid_time t -> (0 <= Year t <= 9999)%Z ->
      TimeSyncCommand t = ("sudo date -u " ++ timestamp t ++ newline)%string /\
      String.length (timestamp t) = 12%nat) /\
  TimeSyncCommand t_2024_01_02 = ("sudo date -u 010203042024" ++ newline)%string.
Proof.
  split; [|reflexivity].
  intros t (Hmo & Hd & Hh & Hmi & _) Hy.
  split; [|apply timestamp_length].
  unfold TimeSyncCommand, Format_010215042006, timestamp.
  rewrite !appendInt_two_digits, appendInt_four_digits by lia.
  reflexivity.
Qed.

Lemma TimeSyncCommand_layout_witness :
  TimeSyncCommand t_2024_01_02 =
    ("sudo date -u " ++ timestamp t_2024_01_02 ++ newline)%string /\
  String.length (timestamp t_2024_01_02) = 12%nat.
Proof.
  apply (proj1 TimeSyncCommand_layout t_2024_01_02).
  - unfold valid_time; simpl; lia.
  - simpl; lia.
Defined.

Lemma length_append (a b : string) :
  String.length (a ++ b)%string = (String.length a + String.length b)%nat.
Proof.
  induction a as [|x a IH]; [reflexivity|].
  change (S (String.length (a ++ b)%string) = S (String.length a + String.length b)).
  now rewrite IH.
Qed.

(** C8, as it is worded, fails in the year 10000: the year takes five
    digits, and what follows [sudo date -u ] has thirteen. *)
Lemma TimeSyncCommand_year_10000 :
  valid_time t_10000_01_01 /\
  TimeSyncCommand t_10000_01_01 = ("sudo date -u 0101000010000" ++ newline)%string /\
  ~ (exists ts : string,
        String.length ts = 12%nat /\
        TimeSyncCommand t_10000_01_01 = ("sudo date -u " ++ ts ++ newline)%string).
Proof.
  split; [unfold valid_time; simpl; lia|].
  split; [reflexivity|].
  intros (ts & Hlen & Heq).
  apply (f_equal String.length) in Heq.
  rewrite !length_append, Hlen in Heq.
  vm_compute in Heq. discriminate Heq.
Qed.

Lemma append_assoc (a b c : string) :
  ((a ++ b) ++ c = a ++ (b ++ c))%string.
Proof.
  induction a as [|x a IH]; [reflexivity|].
  change (String x ((a ++ b) ++ c) = String x (a ++ (b ++ c)))%string.
  now rewrite IH.
Qed.

(** The command of [Parallels.Run] is the agent's argument vector in its
    order, with the two secrets, and nothing else, wrapped in double
    quotes; it is written to the shell joined by spaces and followed by
    [exit]. *)
Lemma Run_command_order (remoteAgentPath : string) (config : RunConfig) :
  Run_command remoteAgentPath config =
    agent_args remoteAgentPath (DirectEndpoint config)
               (quoted (ServerSecret config)) (quoted (ClientSecret config))
               (FormatInt (TaskID config)) /\
  Run_agent_input remoteAgentPath config =
    (remoteAgentPath ++ " -api-endpoint " ++ DirectEndpoint config ++
     " -server-token " ++ quoted (ServerSecret config) ++
     " -client-token " ++ quoted (ClientSecret config) ++
     " -task-id " ++ FormatInt (TaskID config) ++ newline ++ "exit" ++ newline)%string.
Proof.
  split; [reflexivity|].
  unfold Run_agent_input, Run_command, quoted. cbn [Join].
  rewrite !append_assoc. reflexivity.
Qed.

End ParallelsFacts.

(* ===================================================================== *)
(** * Properties of the dispatcher *)
(* ===================================================================== *)

Module DispatchFacts.

Import Dispatch DispatchSpec.

Lemma lower_ascii_idempotent (c : ascii) :
  lower_ascii (lower_ascii c) = lower_ascii c.
Proof. destruct c as [[] [] [] [] [] [] [] []]; vm_compute; reflexivity. Qed.

Lemma ToLower_idempotent (s : string) : ToLower (ToLower s) = ToLower s.
Proof.
  induction s as [|c s IH]; [reflexivity|].
  cbn [ToLower]. now rewrite lower_ascii_idempotent, IH.
Qed.

(** Names that differ without regard to case differ once the descriptor's
    one is in lower case. *)
Lemma EqualFold_false (required goos : string) :
  EqualFold required goos = false -> String.eqb goos (ToLower required) = false.
Proof.
  unfold EqualFold. intros H.
  destruct (String.eqb_spec goos (ToLower required)) as [->|]; [|reflexivity].
  rewrite ToLower_idempotent, String.eqb_refl in H. discriminate.
Qed.

Section Dispatcher.

Context {Command PipeStage : Type}.
Variable PipeStagesFromCommands : list Command -> list PipeStage * option error.
Variable persistentworker_New :
  option Isolation -> option (Instance PipeStage) * option error.
Variable path_Join : list string -> string.
Variable GOOS : string.


(** C3, as the code has it.  The dispatcher is a total function.  A nil
    descriptor, one that cannot be unmarshalled, a container for a platform
    other than Linux and Windows and a Docker Builder for another system
    than the host's fail with [ErrFailedToCreateInstance]; a descriptor of
    another type fails with [ErrUnsupportedInstance]; in these cases no
    instance is returned.  A container for Linux or Windows and a prebuilt
    image give an instance and a nil error.  For a pipe the outcome is that
    of [PipeStagesFromCommands]: an instance when it gives stages, and its
    error, unchanged, when it fails.  For a persistent worker, and for a
    Docker Builder on the host's system, the outcome is the one of
    [persistentworker.New]. *)
Theorem NewFromProto_outcomes (commands : list Command) (customWorkingDir : string) :
  failed_with ErrFailedToCreateInstance (NewFromProto PipeStagesFromCommands persistentworker_New path_Join GOOS None commands customWorkingDir) /\
  (forall err,
      failed_with ErrFailedToCreateInstance
        (NewFromProto PipeStagesFromCommands persistentworker_New path_Join GOOS (Some (Malformed err)) commands customWorkingDir)) /\
  (forall name,
      failed_with ErrUnsupportedInstance
        (NewFromProto PipeStagesFromCommands persistentworker_New path_Join GOOS (Some (Packed (MsgOther name))) commands customWorkingDir)) /\
  (forall i,
      if platform_ok GOOS (MsgContainerInstance i)
      then succeeded (NewFromProto PipeStagesFromCommands persistentworker_New path_Join GOOS (Some (Packed (MsgContainerInstance i)))
                               commands customWorkingDir)
      else failed_with ErrFailedToCreateInstance
             (NewFromProto PipeStagesFromCommands persistentworker_New path_Join GOOS (Some (Packed (MsgContainerInstance i)))
                       commands customWorkingDir)) /\
  (forall i,
      succeeded (NewFromProto PipeStagesFromCommands persistentworker_New path_Join GOOS (Some (Packed (MsgPrebuiltImageInstance i)))
                          commands customWorkingDir)) /\
  (forall i,
      match snd (PipeStagesFromCommands commands) with
      | None =>
          succeeded (NewFromProto PipeStagesFromCommands persistentworker_New path_Join GOOS (Some (Packed (MsgPipeInstance i)))
                              commands customWorkingDir)
      | Some err =>
          NewFromProto PipeStagesFromCommands persistentworker_New path_Join GOOS (Some (Packed (MsgPipeInstance i))) commands customWorkingDir
          = (None, Some err)
      end) /\
  (forall i,
      NewFromProto PipeStagesFromCommands persistentworker_New path_Join GOOS (Some (Packed (MsgPersistentWorkerInstance i)))
               commands customWorkingDir
      = persistentworker_New (pwi_Isolation i)) /\
  (forall i,
      if platform_ok GOOS (MsgDockerBuilder i)
      then NewFromProto PipeStagesFromCommands persistentworker_New path_Join GOOS (Some (Packed (MsgDockerBuilder i))) commands customWorkingDir
           = persistentworker_New (Some {| iso_Type := Some Isolation_None_ |})
      else failed_with ErrFailedToCreateInstance
             (NewFromProto PipeStagesFromCommands persistentworker_New path_Join GOOS (Some (Packed (MsgDockerBuilder i)))
                       commands customWorkingDir)).
Proof.
  unfold failed_with, succeeded.
  repeat split; simpl; eauto.
  - intros i. simpl.
    destruct (ci_Platform i); simpl; eauto.
  - intros i. destruct (PipeStagesFromCommands commands) as [stages [err|]]; simpl; eauto.
  - intros i. simpl. destruct (String.eqb GOOS _); simpl; eauto.
Qed.

(** C4.  A persistent-worker or Docker Builder descriptor whose required
    system differs from the host's one, without regard to case, is refused
    with [ErrFailedToCreateInstance], and no instance is returned.  For a
    Docker Builder the dispatcher itself compares the platform, in lower
    case, with [runtime.GOOS], and refuses before [persistentworker.New] is
    called: the outcome does not depend on the selector.  For a persistent
    worker the dispatcher compares nothing and returns what the selector
    returns, so that the refusal is the selector's, as the spec describes
    it. *)
Theorem os_mismatch_fails_dispatch (commands : list Command) (customWorkingDir : string) :
  (forall m required,
      required_os m = Some required ->
      EqualFold (Platform_String required) GOOS = false ->
      failed_with ErrFailedToCreateInstance
        (NewFromProto PipeStagesFromCommands (selector_of_spec GOOS) path_Join GOOS
                      (Some (Packed m)) commands customWorkingDir)) /\
  (forall i,
      EqualFold (Platform_String (db_Platform i)) GOOS = false ->
      failed_with ErrFailedToCreateInstance
        (NewFromProto PipeStagesFromCommands persistentworker_New path_Join GOOS (Some (Packed (MsgDockerBuilder i))) commands customWorkingDir) /\
      forall other_New,
        NewFromProto PipeStagesFromCommands other_New path_Join GOOS
                     (Some (Packed (MsgDockerBuilder i))) commands customWorkingDir
        = NewFromProto PipeStagesFromCommands persistentworker_New path_Join GOOS (Some (Packed (MsgDockerBuilder i))) commands customWorkingDir) /\
  (forall i,
      NewFromProto PipeStagesFromCommands persistentworker_New path_Join GOOS (Some (Packed (MsgPersistentWorkerInstance i)))
               commands customWorkingDir
      = persistentworker_New (pwi_Isolation i)).
Proof.
  assert (Hbuilder : forall i selector,
            EqualFold (Platform_String (db_Platform i)) GOOS = false ->
            failed_with ErrFailedToCreateInstance
              (NewFromProto PipeStagesFromCommands selector path_Join GOOS
                            (Some (Packed (MsgDockerBuilder i))) commands customWorkingDir)).
  { intros i selector H. apply EqualFold_false in H.
    unfold failed_with. simpl. rewrite H. simpl. eauto. }
  split; [|split; [|reflexivity]].
  - intros m required Hreq Hos.
    destruct m as [i|i|i|[isolation]|i|name]; try discriminate Hreq.
    + simpl in Hreq.
      destruct isolation as [[[[|image user password platform|name]|]]|];
        try discriminate Hreq.
      inversion Hreq; subst required.
      change (NewFromProto _ _ _ _ _ _ _)
        with (@selector_of_spec PipeStage GOOS
                (Some {| iso_Type :=
                           Some (Isolation_Parallels_ image user password platform) |})).
      unfold failed_with, selector_of_spec. rewrite Hos. simpl. eauto.
    + inversion Hreq; subst required. now apply Hbuilder.
  - intros i H. split; [now apply Hbuilder|].
    intros other_New. apply EqualFold_false in H.
    simpl. now rewrite H.
Qed.

End Dispatcher.

Lemma NewFromProto_outcomes_witness :
  succeeded (NewFromProto no_stages (selector_of_spec "linux") (fun _ => "gcr.io/x") "linux"
                          (Some (Packed linux_container)) [] "") /\
  NewFromProto no_stages (selector_of_spec "linux") (fun _ => "gcr.io/x") "linux"
               (Some (Packed a_pipe)) [] ""
  = (None, Some (Foreign "cannot run commands outside of a stage")).
Proof.
  destruct (NewFromProto_outcomes no_stages (selector_of_spec "linux") (fun _ => "gcr.io/x")
              "linux" [] "") as (_ & _ & _ & Hc & _ & Hp & _).
  split.
  - exact (Hc {| ci_Image := "alpine"; ci_Cpu := S754_zero false; ci_Memory := 0;
                 ci_AdditionalContainers := []; ci_Platform := Platform_LINUX;
                 ci_OsVersion := "" |}).
  - exact (Hp {| pi_Cpu := S754_zero false; pi_Memory := 0 |}).
Defined.

(** C3, as it is worded, fails: a pipe descriptor is a known variant
    without a platform constraint, and the dispatcher returns the error of
    the stage derivation, which is none of the three outcomes. *)
Lemma NewFromProto_not_three_way :
  ~ (forall (Command PipeStage : Type)
            (stagesOf : list Command -> list PipeStage * option error)
            (selector : option Isolation -> option (Instance PipeStage) * option error)
            (path_Join : list string -> string) (GOOS : string)
            (a : option Any) (commands : list Command) (dir : string),
        three_way GOOS a
          (NewFromProto stagesOf selector path_Join GOOS a commands dir)).
Proof.
  intros H.
  specialize (H unit unit no_stages (selector_of_spec "linux") (fun _ => "") "linux"
                (Some (Packed a_pipe)) [] "").
  destruct H as [[x Hx] _]. discriminate Hx.
Qed.

(** On a Linux host: a Docker Builder for Windows and a persistent worker
    isolated in a macOS virtual machine are refused. *)
Lemma os_mismatch_fails_dispatch_witness :
  failed_with ErrFailedToCreateInstance
    (NewFromProto no_stages (selector_of_spec "linux") (fun _ => "") "linux"
                  (Some (Packed windows_builder)) [] "") /\
  failed_with ErrFailedToCreateInstance
    (NewFromProto no_stages (selector_of_spec "linux") (fun _ => "") "linux"
                  (Some (Packed darwin_worker)) [] "").
Proof.
  destruct (os_mismatch_fails_dispatch no_stages (selector_of_spec "linux")
              (fun _ => "") "linux" [] "") as (H & _ & _).
  split.
  - exact (H windows_builder Platform_WINDOWS eq_refl eq_refl).
  - exact (H darwin_worker Platform_DARWIN eq_refl eq_refl).
Defined.

End DispatchFacts.

(* ===================================================================== *)
(** * Properties of the container orchestrator *)
(* ===================================================================== *)

Module OrchestratorFacts.

Import Dispatch Orchestrator OrchestratorSpec.
Local Open Scope go_scope.

(** ** Running a sequence *)

Lemma bind_next {A B} (m : M A) (f : A -> M B) s s1 t1 a :
  m s = (s1, t1, Next a) ->
  bind m f s = (let '(s2, t2, r) := f a s1 in (s2, t1 ++ t2, r)).
Proof. intros H. unfold bind. now rewrite H. Qed.

Lemma bind_next_sat {A B} R P (m : M A) (f : A -> M B) s s1 t1 a :
  m s = (s1, t1, Next a) -> sat R P (f a) ->
  exists s2 t2 r, bind m f s = (s2, t1 ++ t2, r) /\ R s1 s2 /\ Forall P t2.
Proof.
  intros Hm Hf. rewrite (bind_next _ _ _ _ _ _ Hm).
  destruct (Hf s1) as [HR HP].
  destruct (f a s1) as [[s2 t2] r]. simpl in *.
  exists s2, t2, r. auto.
Qed.

(** ** Invariants of runs *)

Section Sat.

Variable R : State -> State -> Prop.
Variable P : action -> Prop.
Hypothesis R_refl : forall s, R s s.
Hypothesis R_trans : forall s1 s2 s3, R s1 s2 -> R s2 s3 -> R s1 s3.

Lemma sat_ret {A} (a : A) : sat R P (ret a).
Proof. intros s. simpl. auto. Qed.

Lemma sat_returns {A} (e : option error) : sat R P (@returns A e).
Proof. intros s. simpl. auto. Qed.

Lemma sat_panic {A} : sat R P (@panic A).
Proof. intros s. simpl. auto. Qed.

Lemma sat_block {A} : sat R P (@block A).
Proof. intros s. simpl. auto. Qed.

Lemma sat_get : sat R P get.
Proof. intros s. simpl. auto. Qed.

Lemma sat_emit (a : action) : P a -> sat R P (emit a).
Proof. intros H s. simpl. auto. Qed.

Lemma sat_bind {A B} (m : M A) (f : A -> M B) :
  sat R P m -> (forall a, sat R P (f a)) -> sat R P (bind m f).
Proof.
  intros Hm Hf s. unfold bind.
  destruct (Hm s) as [HR HP].
  destruct (m s) as [[s1 t1] [a| | |]]; simpl in *; auto.
  destruct (Hf a s1) as [HR' HP'].
  destruct (f a s1) as [[s2 t2] r]; simpl in *.
  split; [eauto | now apply Forall_app].
Qed.

Lemma sat_defer {A} (deferred : M unit) (body : M A) :
  sat R P deferred -> sat R P body -> sat R P (defer deferred body).
Proof.
  intros Hd Hb s. unfold defer.
  destruct (Hb s) as [HR HP].
  destruct (body s) as [[s1 t1] r]; simpl in *.
  destruct (Hd s1) as [HR' HP'].
  destruct (deferred s1) as [[s2 t2] r2]; simpl in *.
  destruct r; simpl; auto;
    destruct r2; simpl; split; eauto; now apply Forall_app.
Qed.

Lemma sat_forEach {A} (xs : list A) (body : A -> M unit) :
  (forall x, sat R P (body x)) -> sat R P (forEach xs body).
Proof.
  intros H. induction xs as [|x xs IH]; simpl.
  - apply sat_ret.
  - apply sat_bind; auto.
Qed.

Lemma sat_load (l : loc) : sat R P (load l).
Proof.
  unfold load. apply sat_bind; [apply sat_get|].
  intros s. destruct (heap s !! l); [apply sat_ret | apply sat_panic].
Qed.

End Sat.

(** ** Computations that do not touch the state *)

Lemma stateless_ret {A} (a : A) : stateless (ret a).
Proof. now exists [], (Next a). Qed.

Lemma stateless_returns {A} (e : option error) : stateless (@returns A e).
Proof. now exists [], (Return e). Qed.

Lemma stateless_block {A} : stateless (@block A).
Proof. now exists [], Blocked. Qed.

Lemma stateless_emit (a : action) : stateless (emit a).
Proof. now exists [a], (Next tt). Qed.

Lemma stateless_bind {A B} (m : M A) (f : A -> M B) :
  stateless m -> (forall a, stateless (f a)) -> stateless (bind m f).
Proof.
  intros (t & r & Hm) Hf.
  destruct r as [a| | |].
  - destruct (Hf a) as (t' & r' & Hfa).
    exists (t ++ t'), r'. intros s. unfold bind. now rewrite Hm, Hfa.
  - exists t, (Return err). intros s. unfold bind. now rewrite Hm.
  - exists t, Panic. intros s. unfold bind. now rewrite Hm.
  - exists t, Blocked. intros s. unfold bind. now rewrite Hm.
Qed.

Lemma stateless_defer {A} (deferred : M unit) (body : M A) :
  stateless deferred -> stateless body -> stateless (defer deferred body).
Proof.
  intros (t2 & r2 & Hd) (t1 & r1 & Hb).
  destruct r1 as [a| | |];
    try (destruct r2 as [[]| | |];
         eexists _, _; intros s; unfold defer; rewrite Hb, Hd; reflexivity).
  exists t1, Blocked. intros s. unfold defer. now rewrite Hb.
Qed.

Ltac stateless_tac :=
  repeat first
    [ apply stateless_ret | apply stateless_returns | apply stateless_block
    | apply stateless_emit
    | apply stateless_bind; [ | intros ? ]
    | apply stateless_defer
    | match goal with
      | |- stateless (match ?x with _ => _ end) => destruct x
      | |- stateless (let '(_, _) := ?x in _) => destruct x
      end ].

Lemma stateless_pullHelper b reference : stateless (pullHelper b reference).
Proof. unfold pullHelper, ImagePull. stateless_tac. Qed.

Lemma stateless_warnAboutPorts name ports : stateless (warnAboutPorts name ports).
Proof.
  induction ports as [|pm ports IH]; simpl.
  - apply stateless_ret.
  - destruct (negb _); [apply stateless_emit | exact IH].
Qed.

Lemma stateless_runAdditionalContainer sw ac id noCleanup :
  stateless (runAdditionalContainer sw ac id noCleanup).
Proof.
  unfold runAdditionalContainer.
  apply stateless_bind; [apply stateless_pullHelper|]. intros [err|].
  { apply stateless_returns. }
  unfold ContainerCreate, ContainerStart, ContainerDelete.
  apply stateless_bind; [apply stateless_emit|]. intros _.
  apply stateless_bind; [stateless_tac|]. intros [cont [err|]].
  { apply stateless_returns. }
  apply stateless_defer.
  - destruct noCleanup; stateless_tac.
  - apply stateless_bind; [apply stateless_warnAboutPorts|]. intros _.
    stateless_tac.
Qed.

(** The sidecar goroutines read the additional containers and nothing else
    of the state. *)
Lemma sidecarRuns_same_data w noCleanup mainID s s' :
  same_data s s' ->
  sidecarRuns w noCleanup mainID s' = sidecarRuns w noCleanup mainID s.
Proof.
  intros [Hp Hh]. unfold sidecarRuns, launched. rewrite Hp, Hh.
  apply map_ext. intros [i ac]. simpl.
  destruct (stateless_runAdditionalContainer (sidecar w i) ac mainID noCleanup)
    as (t & r & H).
  now rewrite !H.
Qed.

Lemma arrivals_same_data w noCleanup mainID s s' :
  same_data s s' ->
  arrivals w noCleanup mainID s' = arrivals w noCleanup mainID s.
Proof.
  intros H. unfold arrivals, sidecarArrivals.
  now rewrite (sidecarRuns_same_data _ _ _ _ _ H).
Qed.

Lemma sidecars_end_same_data w noCleanup mainID s s' :
  same_data s s' ->
  sidecars_end w noCleanup mainID s' = sidecars_end w noCleanup mainID s.
Proof.
  intros H. unfold sidecars_end.
  now rewrite (sidecarRuns_same_data _ _ _ _ _ H).
Qed.

(** ** The removal of the containers and the supervision, run *)

Lemma forEach_emit {A} (f : A -> action) (xs : list A) (s : State) :
  forEach xs (fun x => emit (f x)) s = (s, List.map f xs, Next tt).
Proof.
  induction xs as [|x xs IH]; [reflexivity|].
  simpl. unfold bind. simpl. now rewrite IH.
Qed.

Section Supervision.

Variable ContainerAgentPath : ContainerPlatform -> string.
Variable ContainerAgentVolumeDir : ContainerPlatform -> string.
Variable CloudBuildNetworkName : string.
Variable filepath_Dir : string -> string.
Variable GOOS : string.
Variable CloudBuildIP : string.

(** The removal goes through when the sidecars come to an end and the log
    reader is running (or was never counted). *)
Lemma teardown_run w config cont s :
  sidecars_end w (NoCleanup config) (ID cont) s = true ->
  (logReaderWg s =? 0)%nat || logReaderStarted s = true ->
  teardown w config cont s = (s, teardown_trace w config cont, Next tt).
Proof.
  intros Hend Hlog.
  unfold teardown, additionalContainersWG_Wait, logReaderWg_Wait, ContainerDelete,
    teardown_trace, bind, emit, get, ret, block.
  unfold sidecars_end in Hend. simpl. rewrite Hend.
  destruct (NoCleanup config); simpl.
  - now rewrite Hlog.
  - destruct (on_ContainerDelete (backend w) (ID cont)); simpl; now rewrite Hlog.
Qed.

(** The three ways out of the [select]: the whole run of the supervision. *)
Lemma supervise_run w config cont s ev :
  on_ContainerStart (backend w) (ID cont) = None ->
  on_ContainerLogs (backend w) (ID cont) = None ->
  select (selectEntry w) (pick w) (arrivals w (NoCleanup config) (ID cont) s) = Some ev ->
  sidecars_end w (NoCleanup config) (ID cont) s = true ->
  supervise w config cont s =
    ({| params := params s; heap := heap s;
        logReaderWg := logReaderWg s + 1; logReaderStarted := true |},
     startup_trace cont (length (p_AdditionalContainers (params s))) ++
     received_trace ev ++ teardown_trace w config cont,
     Return (outcome_of ev)).
Proof.
  intros Hstart Hlogs Hsel Hend.
  set (s' := {| params := params s; heap := heap s;
                logReaderWg := logReaderWg s + 1; logReaderStarted := true |}).
  assert (Hsame : same_data s s') by (split; reflexivity).
  rewrite <- (arrivals_same_data _ _ _ _ _ Hsame) in Hsel.
  rewrite <- (sidecars_end_same_data _ _ _ _ _ Hsame) in Hend.
  pose proof (teardown_run w config cont s' Hend) as Htd.
  unfold supervise, logReaderWg_Add, defer, bind, get, put. simpl.
  rewrite forEach_emit.
  unfold ContainerStart, ContainerLogs, goLogReader, waitPhase, bind, emit, ret,
    get, put, returns, block. simpl.
  rewrite Hstart. simpl. rewrite Hlogs. simpl.
  fold s'. rewrite Hsel.
  unfold startup_trace.
  destruct ev as [res|err|acErr]; simpl;
    rewrite Htd by (simpl; apply orb_true_r); simpl;
    rewrite <- ?app_assoc; reflexivity.
Qed.

(** When the main container cannot be started, or its logs cannot be
    followed, the removal goes through the same steps in the same order,
    but its last wait never returns: [logReaderWg] has been incremented and
    the goroutine that would call [Done] was never started. *)
Lemma supervise_start_fails w config cont s err :
  on_ContainerStart (backend w) (ID cont) = Some err ->
  sidecars_end w (NoCleanup config) (ID cont) s = true ->
  logReaderStarted s = false ->
  supervise w config cont s =
    ({| params := params s; heap := heap s;
        logReaderWg := logReaderWg s + 1; logReaderStarted := false |},
     (List.map GoAdditionalContainer (seq 0 (length (p_AdditionalContainers (params s)))) ++
      [Log Debug ("starting container " ++ ID cont); CallContainerStart (ID cont)]) ++
     teardown_trace w config cont,
     Blocked).
Proof.
  intros Hstart Hend Hlog.
  set (s' := {| params := params s; heap := heap s;
                logReaderWg := logReaderWg s + 1; logReaderStarted := false |}).
  assert (Hsame : same_data s s') by (split; reflexivity).
  rewrite <- (sidecars_end_same_data _ _ _ _ _ Hsame) in Hend.
  assert (Hwg : (logReaderWg s + 1 =? 0)%nat = false) by (apply Nat.eqb_neq; lia).
  unfold supervise, logReaderWg_Add, defer, bind, get, put. simpl.
  rewrite forEach_emit.
  unfold ContainerStart, bind, emit, ret, returns. simpl.
  rewrite Hstart, Hlog. simpl. fold s'.
  unfold teardown, additionalContainersWG_Wait, logReaderWg_Wait, ContainerDelete,
    teardown_trace, bind, emit, get, ret, block. simpl.
  unfold sidecars_end in Hend. rewrite Hend.
  destruct (NoCleanup config); simpl.
  - rewrite Hwg. simpl. rewrite <- ?app_assoc. reflexivity.
  - destruct (on_ContainerDelete (backend w) (ID cont));
      simpl; rewrite Hwg; simpl; rewrite <- ?app_assoc; reflexivity.
Qed.

End Supervision.

(** ** The clamping, run *)

Lemma clampAC_idempotent info ac : clampAC info (clampAC info ac) = clampAC info ac.
Proof.
  unfold clampAC, with_ac_Memory, with_ac_Cpu. simpl.
  now rewrite ClampFacts.clampCPU_idempotent, ClampFacts.clampMemory_idempotent.
Qed.

(** The store after the loop, pointer by pointer: an additional container
    that the list points to is clamped, however often it is listed; the
    others are as they were. *)
Lemma clampHeap_lookup info ls (h : gmap loc AdditionalContainer) l :
  clampHeap info ls h !! l =
  if bool_decide (l ∈ ls) then clampAC info <$> h !! l else h !! l.
Proof.
  revert h. induction ls as [|l0 ls IH]; intros h.
  - reflexivity.
  - unfold clampHeap in *. simpl. rewrite IH. clear IH.
    assert (Hstep : forall l',
      (match h !! l0 with
       | Some ac => <[l0 := clampAC info ac]> h
       | None => h
       end) !! l' = if decide (l0 = l') then clampAC info <$> h !! l' else h !! l').
    { intros l'. destruct (decide (l0 = l')) as [->|Hne].
      - destruct (h !! l') eqn:E; [now rewrite lookup_insert_eq | now rewrite E].
      - destruct (h !! l0); [now rewrite lookup_insert_ne|reflexivity]. }
    rewrite Hstep.
    destruct (decide (l0 = l)) as [->|Hne].
    + rewrite (bool_decide_eq_true_2 (l ∈ l :: ls)) by apply list_elem_of_here.
      destruct (bool_decide (l ∈ ls)); [|reflexivity].
      destruct (h !! l); simpl; [|reflexivity].
      now rewrite clampAC_idempotent.
    + destruct (bool_decide (l ∈ ls)) eqn:E.
      * apply bool_decide_eq_true_1 in E.
        rewrite (bool_decide_eq_true_2 (l ∈ l0 :: ls)); [reflexivity|].
        now apply list_elem_of_further.
      * apply bool_decide_eq_false_1 in E.
        rewrite (bool_decide_eq_false_2 (l ∈ l0 :: ls)); [reflexivity|].
        intros Hin. apply elem_of_cons in Hin as [->|Hin]; [now apply Hne|auto].
Qed.

Lemma clamp_loop_run info ls s :
  (forall l, l ∈ ls -> is_Some (heap s !! l)) ->
  forEach ls
    (fun l =>
       additionalContainer <- load l ;;
       store l (with_ac_Cpu (clampCPU (ac_Cpu additionalContainer) (availableCPU info))
                            additionalContainer) ;;
       additionalContainer <- load l ;;
       store l (with_ac_Memory
                  (clampMemory (ac_Memory additionalContainer) (availableMemory info))
                  additionalContainer)) s
  = ({| params := params s; heap := clampHeap info ls (heap s);
        logReaderWg := logReaderWg s; logReaderStarted := logReaderStarted s |},
     [], Next tt).
Proof.
  revert s. induction ls as [|l ls IH]; intros s Hall.
  - destruct s; reflexivity.
  - destruct (Hall l) as [ac Hac]; [apply list_elem_of_here|].
    cbn [forEach].
    unfold bind at 1. unfold bind at 1. unfold load at 1, bind at 1, get at 1.
    rewrite Hac. cbn [ret].
    unfold bind at 1. unfold store at 1, bind at 1, get at 1, put at 1. cbn.
    unfold bind at 1. unfold load at 1, bind at 1, get at 1. cbn.
    rewrite lookup_insert_eq. cbn.
    unfold store at 1, bind at 1, get at 1, put at 1. cbn.
    rewrite insert_insert_eq.
    rewrite IH.
    + simpl. unfold clampHeap. simpl. rewrite Hac. reflexivity.
    + intros l' Hl'. cbn.
      destruct (decide (l = l')) as [->|Hne].
      * rewrite lookup_insert_eq. eauto.
      * rewrite lookup_insert_ne by done. apply Hall. now apply list_elem_of_further.
Qed.

Lemma clampResources_run info s :
  (forall l, l ∈ p_AdditionalContainers (params s) -> is_Some (heap s !! l)) ->
  clampResources info s
  = ({| params := clampParams info (params s);
        heap := clampHeap info (p_AdditionalContainers (params s)) (heap s);
        logReaderWg := logReaderWg s; logReaderStarted := logReaderStarted s |},
     [], Next tt).
Proof.
  intros Hall.
  pose proof (clamp_loop_run info (p_AdditionalContainers (params s))
    {| params := clampParams info (params s); heap := heap s;
       logReaderWg := logReaderWg s; logReaderStarted := logReaderStarted s |}
    Hall) as E.
  unfold clampResources.
  do 5 (erewrite bind_next by reflexivity).
  unfold clampParams, availableCPU, availableMemory in *.
  simpl in *. rewrite E. reflexivity.
Qed.

(** ** What a run leaves untouched, what it never does *)

Lemma same_data_refl s : same_data s s.
Proof. now split. Qed.

Lemma same_data_trans s1 s2 s3 : same_data s1 s2 -> same_data s2 s3 -> same_data s1 s3.
Proof. intros [? ?] [? ?]. split; congruence. Qed.

Create HintDb sat discriminated.
#[local] Hint Resolve same_data_refl same_data_trans : sat.
#[local] Hint Extern 1 True => exact I : sat.
#[local] Hint Extern 1 (_ = false) => reflexivity : sat.

Ltac sat_side := try solve [eauto with sat | intros; exact I | intros; reflexivity].

Ltac sat_tac :=
  repeat first
    [ apply sat_ret; sat_side
    | apply sat_returns; sat_side
    | apply sat_panic; sat_side
    | apply sat_block; sat_side
    | apply sat_get; sat_side
    | apply sat_load; sat_side
    | apply sat_emit; sat_side
    | apply sat_bind; [ sat_side | | intros ? ]
    | apply sat_forEach; [ sat_side | sat_side | intros ? ]
    | apply sat_defer; [ sat_side | | ]
    | match goal with
      | |- sat _ _ (match ?x with _ => _ end) => destruct x
      | |- sat _ _ (let '(_, _) := ?x in _) => destruct x
      end ].

Section Frames.

Variable R : State -> State -> Prop.
Variable P : action -> Prop.
Hypothesis R_refl : forall s, R s s.
Hypothesis R_trans : forall s1 s2 s3, R s1 s2 -> R s2 s3 -> R s1 s3.

(** The log reader's wait group is no part of the data. *)
Hypothesis R_log : forall s n b,
  R s {| params := params s; heap := heap s; logReaderWg := n; logReaderStarted := b |}.

#[local] Hint Resolve R_refl R_trans : sat.

Section BeforeTeardown.

(** Actions other than the port warning, the steps of the removal and the
    creation of a container; and the creation of a container. *)
Hypothesis P_plain : forall a,
  is_port_warning a = false -> is_teardown a = false -> is_create a = false -> P a.
Hypothesis P_create : forall input, P (CallContainerCreate input).

#[local] Hint Extern 1 (P _) => (apply P_plain; reflexivity) : sat.
#[local] Hint Resolve P_create : sat.

Lemma sat_pullHelper b reference : sat R P (pullHelper b reference).
Proof. unfold pullHelper, ImagePull. sat_tac. Qed.

Lemma sat_collectPorts ls : sat R P (collectPorts ls).
Proof. induction ls as [|l ls IH]; simpl; sat_tac. exact IH. Qed.

Lemma sat_createInput agentPath agentDir network dirOf goos ip config :
  sat R P (createInput agentPath agentDir network dirOf goos ip config).
Proof.
  unfold createInput. apply sat_bind; [auto with sat|apply sat_get; auto with sat|].
  intros s. destruct (_ <? _)%nat.
  - apply sat_bind; [auto with sat|apply sat_collectPorts|]. intros ports. sat_tac.
  - sat_tac.
Qed.

(** From the clamping on, the creation of the main container. *)
Lemma sat_create_after_clamp agentPath agentDir network dirOf goos ip w config :
  sat R P
    (s <- get ;;
     err <- pullHelper (backend w) (p_Image (params s)) ;;
     match err with
     | Some err => returns (Some err)
     | None =>
         emit (Log Debug ("creating container using working volume " ++
                          p_WorkingVolumeName (params s))) ;;
         input <- createInput agentPath agentDir network dirOf goos ip config ;;
         r <- ContainerCreate (backend w) input ;;
         let '(cont, err) := r in
         match err with
         | Some err => returns (Some err)
         | None => ret cont
         end
     end).
Proof.
  apply sat_bind; [auto with sat|apply sat_get; auto with sat|]. intros s.
  apply sat_bind; [auto with sat|apply sat_pullHelper|]. intros [err|].
  { sat_tac. }
  apply sat_bind; [auto with sat|sat_tac|]. intros _.
  apply sat_bind; [auto with sat|apply sat_createInput|]. intros input.
  unfold ContainerCreate. sat_tac.
Qed.

End BeforeTeardown.

Section WithTeardown.

(** Actions other than the port warning and the creation of a container. *)
Hypothesis P_quiet : forall a, is_port_warning a = false -> is_create a = false -> P a.

#[local] Hint Extern 1 (P _) => (apply P_quiet; reflexivity) : sat.

Lemma sat_logReaderWg_Add n : sat R P (logReaderWg_Add n).
Proof. intros s. simpl. auto. Qed.

Lemma sat_goLogReader : sat R P goLogReader.
Proof. intros s. simpl. split; [apply R_log|]. repeat constructor. auto with sat. Qed.

Lemma sat_teardown w config cont : sat R P (teardown w config cont).
Proof.
  unfold teardown, additionalContainersWG_Wait, logReaderWg_Wait, ContainerDelete.
  sat_tac.
Qed.

Lemma sat_waitPhase w config cont : sat R P (waitPhase w config cont).
Proof. unfold waitPhase. sat_tac. Qed.

Lemma sat_supervise w config cont : sat R P (supervise w config cont).
Proof.
  unfold supervise.
  apply sat_bind; [auto with sat|apply sat_logReaderWg_Add|]. intros _.
  apply sat_defer; [auto with sat|apply sat_teardown|].
  apply sat_bind; [auto with sat|apply sat_get; auto with sat|]. intros s.
  apply sat_bind; [auto with sat|sat_tac|]. intros _.
  unfold ContainerStart, ContainerLogs.
  apply sat_bind; [auto with sat|sat_tac|]. intros _.
  apply sat_bind; [auto with sat|sat_tac|]. intros [err|]; [sat_tac|].
  apply sat_bind; [auto with sat|sat_tac|]. intros [err|]; [sat_tac|].
  apply sat_bind; [auto with sat|apply sat_goLogReader|]. intros _.
  apply sat_waitPhase.
Qed.

End WithTeardown.

End Frames.

(** ** The state that a run hands back *)

Section Runs.

Variable ContainerAgentPath : ContainerPlatform -> string.
Variable ContainerAgentVolumeDir : ContainerPlatform -> string.
Variable CloudBuildNetworkName : string.
Variable filepath_Dir : string -> string.
Variable GOOS : string.
Variable CloudBuildIP : string.

Lemma SystemInfoOf_run b s :
  SystemInfoOf b s = (s, [CallSystemInfo], Next (on_SystemInfo b)).
Proof. reflexivity. Qed.

(** The creation of the main container, from a successful capacity query
    on: the clamping, then steps that keep the data. *)
Lemma createMainContainer_clamped w config s info :
  on_SystemInfo (backend w) = (info, None) ->
  (forall l, l ∈ p_AdditionalContainers (params s) -> is_Some (heap s !! l)) ->
  exists s1 t1 r1,
    createMainContainer ContainerAgentPath ContainerAgentVolumeDir
      CloudBuildNetworkName filepath_Dir GOOS CloudBuildIP w config s
    = (s1, CallSystemInfo :: t1, r1) /\
    params s1 = clampParams info (params s) /\
    heap s1 = clampHeap info (p_AdditionalContainers (params s)) (heap s) /\
    Forall (fun a => is_port_warning a = false /\ is_teardown a = false) t1.
Proof.
  intros Hinfo Hall.
  unfold createMainContainer.
  erewrite bind_next by apply SystemInfoOf_run.
  rewrite Hinfo.
  match goal with
  | |- context [ bind (clampResources info) ?k ] =>
      destruct (bind_next_sat same_data
                  (fun a => is_port_warning a = false /\ is_teardown a = false)
                  (clampResources info) k s _ _ _
                  (clampResources_run info s Hall)
                  (sat_create_after_clamp same_data _
                     same_data_refl same_data_trans
                     (fun a H1 H2 _ => conj H1 H2) (fun _ => conj eq_refl eq_refl)
                     ContainerAgentPath ContainerAgentVolumeDir
                     CloudBuildNetworkName filepath_Dir GOOS CloudBuildIP
                     w config))
        as (s1 & t1 & r1 & E & [Hp Hh] & HP)
  end.
  rewrite E. exists s1, t1, r1. simpl in *. repeat split; assumption.
Qed.

End Runs.

Section Mutation.

Variable ContainerAgentPath : ContainerPlatform -> string.
Variable ContainerAgentVolumeDir : ContainerPlatform -> string.
Variable CloudBuildNetworkName : string.
Variable filepath_Dir : string -> string.
Variable GOOS : string.
Variable CloudBuildIP : string.

(** The state at the end of a run whose capacity query has succeeded holds
    the clamped data, however the run ends. *)
Lemma RunContainerizedAgent_state w config s info :
  on_SystemInfo (backend w) = (info, None) ->
  (forall l, l ∈ p_AdditionalContainers (params s) -> is_Some (heap s !! l)) ->
  let s' := fst (fst (RunContainerizedAgent ContainerAgentPath ContainerAgentVolumeDir
                        CloudBuildNetworkName filepath_Dir GOOS CloudBuildIP
                        w config s)) in
  params s' = clampParams info (params s) /\
  heap s' = clampHeap info (p_AdditionalContainers (params s)) (heap s).
Proof.
  intros Hinfo Hall.
  destruct (createMainContainer_clamped ContainerAgentPath ContainerAgentVolumeDir
              CloudBuildNetworkName filepath_Dir GOOS CloudBuildIP
              w config s info Hinfo Hall) as (s1 & t1 & r1 & E & Hp & Hh & _).
  unfold RunContainerizedAgent, bind. rewrite E.
  destruct r1 as [cont| | |]; simpl; auto.
  destruct (sat_supervise same_data (fun _ => True) same_data_refl same_data_trans
              (fun s n b => conj eq_refl eq_refl) (fun _ _ _ => I)
              w config cont s1) as [[Hp' Hh'] _].
  destruct (supervise w config cont s1) as [[s2 t2] r2]. simpl in *.
  split; congruence.
Qed.

(** C10.  Once the capacity query has succeeded, [RunContainerizedAgent]
    has written the clamped quotas into the caller's [Params] and, through
    the pointers of [params.AdditionalContainers], into every additional
    container they refer to; this holds at the end of every run, also of
    one that returns an error.  The other fields of [Params], the other
    fields of the additional containers and the objects that [params] does
    not point to are as the caller left them. *)
Theorem clamping_is_in_place w config s info :
  on_SystemInfo (backend w) = (info, None) ->
  (forall l, l ∈ p_AdditionalContainers (params s) -> is_Some (heap s !! l)) ->
  let s' := fst (fst (RunContainerizedAgent ContainerAgentPath ContainerAgentVolumeDir
                        CloudBuildNetworkName filepath_Dir GOOS CloudBuildIP
                        w config s)) in
  p_CPU (params s') = clampCPU (p_CPU (params s)) (availableCPU info) /\
  p_Memory (params s') = clampMemory (p_Memory (params s)) (availableMemory info) /\
  same_but_quotas (params s) (params s') /\
  (forall l ac,
      l ∈ p_AdditionalContainers (params s) -> heap s !! l = Some ac ->
      exists ac',
        heap s' !! l = Some ac' /\
        ac_Cpu ac' = clampCPU (ac_Cpu ac) (availableCPU info) /\
        ac_Memory ac' = clampMemory (ac_Memory ac) (availableMemory info) /\
        same_but_quotas_ac ac ac') /\
  (forall l, l ∉ p_AdditionalContainers (params s) -> heap s' !! l = heap s !! l).
Proof.
  intros Hinfo Hall s'.
  destruct (RunContainerizedAgent_state w config s info Hinfo Hall) as [Hp Hh].
  fold s' in Hp, Hh. rewrite Hp, Hh.
  split; [reflexivity|]. split; [reflexivity|].
  split; [repeat split|].
  split.
  - intros l ac Hl Hac. exists (clampAC info ac).
    rewrite clampHeap_lookup, bool_decide_eq_true_2, Hac by exact Hl.
    repeat split.
  - intros l Hl. now rewrite clampHeap_lookup, bool_decide_eq_false_2.
Qed.

End Mutation.

(** ** The creation of the main container, run *)

Lemma pullHelper_run b reference s :
  pullHelper b reference s = (s, pull_trace b reference, Next (pull_result b reference)).
Proof.
  unfold pullHelper, pull_trace, pull_result, ImagePull, bind, emit, ret.
  destruct (on_ShouldPullImage b reference); simpl; [|reflexivity].
  destruct (on_ImagePull b reference); reflexivity.
Qed.

Lemma pull_trace_plain b reference :
  Forall (fun a => is_create a = false) (pull_trace b reference).
Proof.
  unfold pull_trace.
  destruct (on_ShouldPullImage b reference); [|constructor].
  destruct (on_ImagePull b reference); repeat constructor.
Qed.

Lemma pointees_cons h l ls ac :
  h !! l = Some ac -> pointees h (l :: ls) = ac :: pointees h ls.
Proof. intros H. unfold pointees. simpl. now rewrite H. Qed.

Lemma collectPorts_run ls s :
  (forall l, l ∈ ls -> is_Some (heap s !! l)) ->
  collectPorts ls s = (s, [], Next (declared_ports (pointees (heap s) ls))).
Proof.
  induction ls as [|l ls IH]; intros Hall; [reflexivity|].
  destruct (Hall l) as [ac Hac]; [apply list_elem_of_here|].
  cbn [collectPorts].
  erewrite bind_next by (unfold load, bind, get; rewrite Hac; reflexivity).
  erewrite bind_next
    by (apply IH; intros l' Hl'; apply Hall; now apply list_elem_of_further).
  rewrite (pointees_cons _ _ _ _ Hac). reflexivity.
Qed.

(** The additional containers keep their ports when they are clamped. *)
Lemma pointees_clampHeap_ports info ls ls' h :
  List.map ac_Ports (pointees (clampHeap info ls' h) ls)
  = List.map ac_Ports (pointees h ls).
Proof.
  induction ls as [|l ls IH]; [reflexivity|].
  unfold pointees in *. cbn [omap list_omap].
  rewrite clampHeap_lookup.
  destruct (bool_decide (l ∈ ls')), (h !! l) as [ac|]; cbn; try exact IH;
    now rewrite IH.
Qed.

Lemma declared_ports_clampHeap info ls ls' h :
  declared_ports (pointees (clampHeap info ls' h) ls) = declared_ports (pointees h ls).
Proof.
  unfold declared_ports.
  rewrite <- (map_map ac_Ports
    (fun ports => List.map (fun portMapping => FormatUint (ContainerPort portMapping)) ports)
    (pointees (clampHeap info ls' h) ls)).
  rewrite pointees_clampHeap_ports, map_map. reflexivity.
Qed.

Section Creation.

Variable ContainerAgentPath : ContainerPlatform -> string.
Variable ContainerAgentVolumeDir : ContainerPlatform -> string.
Variable CloudBuildNetworkName : string.
Variable filepath_Dir : string -> string.
Variable GOOS : string.
Variable CloudBuildIP : string.

(** The input that [createInput] builds: its entry point and its
    environment. *)
Lemma createInput_run config s :
  (forall l, l ∈ p_AdditionalContainers (params s) -> is_Some (heap s !! l)) ->
  exists input,
    createInput ContainerAgentPath ContainerAgentVolumeDir CloudBuildNetworkName
      filepath_Dir GOOS CloudBuildIP config s = (s, [], Next input) /\
    in_Entrypoint input =
      container_args (ContainerAgentPath (p_Platform (params s)))
        (ContainerEndpoint config) (ServerSecret config) (ClientSecret config)
        (FormatInt (TaskID config))
        (p_CommandFrom (params s)) (p_CommandTo (params s)) /\
    in_Env input =
      expected_env
        (declared_ports (pointees (heap s) (p_AdditionalContainers (params s))))
        (length (p_AdditionalContainers (params s))).
Proof.
  intros Hall. unfold createInput, expected_env.
  erewrite bind_next by reflexivity.
  destruct (0 <? length (p_AdditionalContainers (params s)))%nat.
  - erewrite bind_next by (apply collectPorts_run; exact Hall).
    eexists. split; [reflexivity|].
    split.
    + destruct (String.eqb GOOS "linux"), (negb (String.eqb CloudBuildIP "")),
        (HasPrefix (ContainerEndpoint config) "unix:"), (DirtyMode config);
        reflexivity.
    + destruct (String.eqb GOOS "linux"), (negb (String.eqb CloudBuildIP "")),
        (HasPrefix (ContainerEndpoint config) "unix:"), (DirtyMode config);
        reflexivity.
  - eexists. split; [reflexivity|].
    split;
      destruct (String.eqb GOOS "linux"), (negb (String.eqb CloudBuildIP "")),
        (HasPrefix (ContainerEndpoint config) "unix:"), (DirtyMode config);
      reflexivity.
Qed.

Lemma clampHeap_is_Some info ls (h : gmap loc AdditionalContainer) l :
  is_Some (h !! l) -> is_Some (clampHeap info ls h !! l).
Proof.
  intros [ac Hac]. rewrite clampHeap_lookup, Hac.
  destruct (bool_decide _); simpl; eauto.
Qed.

(** A run whose capacity query and image pull succeed calls
    [ContainerCreate] once, with the input of [createInput] for the clamped
    parameters, and goes on if the container is created. *)
Lemma createMainContainer_run w config s info :
  on_SystemInfo (backend w) = (info, None) ->
  (forall l, l ∈ p_AdditionalContainers (params s) -> is_Some (heap s !! l)) ->
  pull_result (backend w) (p_Image (params s)) = None ->
  exists input s1,
    createMainContainer ContainerAgentPath ContainerAgentVolumeDir
      CloudBuildNetworkName filepath_Dir GOOS CloudBuildIP w config s
    = (s1,
       (CallSystemInfo :: pull_trace (backend w) (p_Image (params s)) ++
        [Log Debug ("creating container using working volume " ++
                    p_WorkingVolumeName (params s))]) ++
       [CallContainerCreate input],
       match on_ContainerCreate (backend w) input with
       | (cont, None) => Next cont
       | (_, Some err) => Return (Some err)
       end) /\
    params s1 = clampParams info (params s) /\
    heap s1 = clampHeap info (p_AdditionalContainers (params s)) (heap s) /\
    in_Entrypoint input =
      container_args (ContainerAgentPath (p_Platform (params s)))
        (ContainerEndpoint config) (ServerSecret config) (ClientSecret config)
        (FormatInt (TaskID config))
        (p_CommandFrom (params s)) (p_CommandTo (params s)) /\
    in_Env input =
      expected_env
        (declared_ports (pointees (heap s) (p_AdditionalContainers (params s))))
        (length (p_AdditionalContainers (params s))).
Proof.
  intros Hinfo Hall Hpull.
  set (s1 := {| params := clampParams info (params s);
                heap := clampHeap info (p_AdditionalContainers (params s)) (heap s);
                logReaderWg := logReaderWg s;
                logReaderStarted := logReaderStarted s |}).
  destruct (createInput_run config s1) as (input & Hin & Hentry & Henv).
  { intros l Hl. apply clampHeap_is_Some, Hall, Hl. }
  exists input, s1.
  split; [|split; [reflexivity|split; [reflexivity|split]]].
  - unfold createMainContainer.
    erewrite bind_next by apply SystemInfoOf_run.
    rewrite Hinfo.
    erewrite bind_next by (apply clampResources_run; exact Hall).
    fold s1.
    erewrite bind_next by reflexivity.
    erewrite bind_next by apply pullHelper_run.
    change (p_Image (params s1)) with (p_Image (params s)).
    rewrite Hpull.
    erewrite bind_next by reflexivity.
    erewrite bind_next by exact Hin.
    unfold ContainerCreate.
    erewrite bind_next by reflexivity.
    unfold bind, ret, returns. cbn [emit].
    destruct (on_ContainerCreate (backend w) input) as [cont [err|]]; cbn;
      rewrite ?app_nil_r, <- ?app_assoc; reflexivity.
  - exact Hentry.
  - rewrite Henv. cbn [params heap s1].
    now rewrite declared_ports_clampHeap.
Qed.

End Creation.

(** ** The one call that creates the main container *)

Section TopLevel.

Variable ContainerAgentPath : ContainerPlatform -> string.
Variable ContainerAgentVolumeDir : ContainerPlatform -> string.
Variable CloudBuildNetworkName : string.
Variable filepath_Dir : string -> string.
Variable GOOS : string.
Variable CloudBuildIP : string.

Lemma RunContainerizedAgent_creates w config s info :
  on_SystemInfo (backend w) = (info, None) ->
  (forall l, l ∈ p_AdditionalContainers (params s) -> is_Some (heap s !! l)) ->
  pull_result (backend w) (p_Image (params s)) = None ->
  exists input pre post,
    snd (fst (RunContainerizedAgent ContainerAgentPath ContainerAgentVolumeDir
                CloudBuildNetworkName filepath_Dir GOOS CloudBuildIP w config s))
    = pre ++ CallContainerCreate input :: post /\
    Forall (fun a => is_create a = false) pre /\
    Forall (fun a => is_create a = false) post /\
    in_Entrypoint input =
      container_args (ContainerAgentPath (p_Platform (params s)))
        (ContainerEndpoint config) (ServerSecret config) (ClientSecret config)
        (FormatInt (TaskID config))
        (p_CommandFrom (params s)) (p_CommandTo (params s)) /\
    in_Env input =
      expected_env
        (declared_ports (pointees (heap s) (p_AdditionalContainers (params s))))
        (length (p_AdditionalContainers (params s))).
Proof.
  intros Hinfo Hall Hpull.
  destruct (createMainContainer_run ContainerAgentPath ContainerAgentVolumeDir
              CloudBuildNetworkName filepath_Dir GOOS CloudBuildIP
              w config s info Hinfo Hall Hpull)
    as (input & s1 & E & _ & _ & Hentry & Henv).
  assert (Hpre : Forall (fun a => is_create a = false)
                   (CallSystemInfo :: pull_trace (backend w) (p_Image (params s)) ++
                    [Log Debug ("creating container using working volume " ++
                                p_WorkingVolumeName (params s))])).
  { constructor; [reflexivity|]. apply Forall_app. split.
    - apply pull_trace_plain.
    - repeat constructor. }
  unfold RunContainerizedAgent, bind. rewrite E.
  destruct (on_ContainerCreate (backend w) input) as [cont [err|]].
  - match type of Hpre with Forall _ ?l => exists input, l, [] end.
    cbn [fst snd]. repeat split; auto.
  - destruct (sat_supervise (fun _ _ => True) (fun a => is_create a = false)
                (fun _ => I) (fun _ _ _ _ _ => I) (fun _ _ _ => I)
                (fun _ _ H => H) w config cont s1) as [_ Hpost].
    destruct (supervise w config cont s1) as [[s2 t2] r2]. simpl in Hpost.
    match type of Hpre with Forall _ ?l => exists input, l, t2 end.
    cbn [fst snd]. rewrite <- app_assoc. repeat split; auto.
Qed.

(** C7.  In a run that gets as far as creating the main container, the
    input of that one [ContainerCreate] call has the environment variable
    [CIRRUS_PORTS_WAIT_FOR] if and only if [params] lists at least one
    additional container, and then its value is the container ports of all
    additional containers, in the order of their declaration, joined by
    commas; containers exposing 80 and 443, and 8080, give [80,443,8080]. *)
Theorem ports_wait_for_env :
  (forall w config s info,
      on_SystemInfo (backend w) = (info, None) ->
      (forall l, l ∈ p_AdditionalContainers (params s) -> is_Some (heap s !! l)) ->
      pull_result (backend w) (p_Image (params s)) = None ->
      exists input pre post,
        snd (fst (RunContainerizedAgent ContainerAgentPath ContainerAgentVolumeDir
                    CloudBuildNetworkName filepath_Dir GOOS CloudBuildIP w config s))
        = pre ++ CallContainerCreate input :: post /\
        Forall (fun a => is_create a = false) pre /\
        Forall (fun a => is_create a = false) post /\
        (is_Some (in_Env input !! "CIRRUS_PORTS_WAIT_FOR") <->
         p_AdditionalContainers (params s) <> []) /\
        (p_AdditionalContainers (params s) <> [] ->
         in_Env input !! "CIRRUS_PORTS_WAIT_FOR" =
         Some (Join (declared_ports
                       (pointees (heap s) (p_AdditionalContainers (params s)))) ","))) /\
  Join (declared_ports [web; cache]) "," = "80,443,8080".
Proof.
  split; [|reflexivity].
  intros w config s info Hinfo Hall Hpull.
  destruct (RunContainerizedAgent_creates w config s info Hinfo Hall Hpull)
    as (input & pre & post & E & Hpre & Hpost & _ & Henv).
  exists input, pre, post.
  split; [exact E|]. split; [exact Hpre|]. split; [exact Hpost|].
  rewrite Henv. unfold expected_env.
  destruct (p_AdditionalContainers (params s)) as [|l ls]; simpl.
  - split; [|congruence]. split; [|congruence].
    rewrite lookup_empty. intros [x Hx]. discriminate Hx.
  - rewrite lookup_singleton_eq. split; [|reflexivity].
    split; [discriminate | eauto].
Qed.

(** C9.  The entry point of the main container is the agent's path and
    the options [-api-endpoint], [-server-token], [-client-token] and
    [-task-id] with their values, in this order, followed by
    [-command-from] and [-command-to] with theirs; the command of the VM
    orchestrator is the same vector up to the task identifier, with the two
    secrets, and only them, between double quotes. *)
Theorem agent_argument_vector :
  (forall w config s info,
      on_SystemInfo (backend w) = (info, None) ->
      (forall l, l ∈ p_AdditionalContainers (params s) -> is_Some (heap s !! l)) ->
      pull_result (backend w) (p_Image (params s)) = None ->
      exists input pre post,
        snd (fst (RunContainerizedAgent ContainerAgentPath ContainerAgentVolumeDir
                    CloudBuildNetworkName filepath_Dir GOOS CloudBuildIP w config s))
        = pre ++ CallContainerCreate input :: post /\
        Forall (fun a => is_create a = false) pre /\
        Forall (fun a => is_create a = false) post /\
        in_Entrypoint input =
          ParallelsSpec.agent_args
            (ContainerAgentPath (p_Platform (params s)))
            (ContainerEndpoint config) (ServerSecret config) (ClientSecret config)
            (FormatInt (TaskID config)) ++
          ["-command-from"; p_CommandFrom (params s);
           "-command-to"; p_CommandTo (params s)]) /\
  (forall remoteAgentPath config,
      Run_command remoteAgentPath config =
        ParallelsSpec.agent_args remoteAgentPath (DirectEndpoint config)
          (ParallelsSpec.quoted (ServerSecret config))
          (ParallelsSpec.quoted (ClientSecret config))
          (FormatInt (TaskID config))).
Proof.
  split.
  - intros w config s info Hinfo Hall Hpull.
    destruct (RunContainerizedAgent_creates w config s info Hinfo Hall Hpull)
      as (input & pre & post & E & Hpre & Hpost & Hentry & _).
    exists input, pre, post. auto.
  - intros remoteAgentPath config.
    apply (ParallelsFacts.Run_command_order remoteAgentPath config).
Qed.

End TopLevel.

Lemma example_pointers (l : loc) :
  l ∈ p_AdditionalContainers (params example_state) ->
  is_Some (heap example_state !! l).
Proof.
  intros Hl. apply elem_of_cons in Hl as [->|Hl]; [eexists; reflexivity|].
  apply elem_of_cons in Hl as [->|Hl]; [eexists; reflexivity|].
  inversion Hl.
Qed.

Lemma ports_wait_for_env_witness :
  exists input pre post,
    snd (fst (example_run example_world)) = pre ++ CallContainerCreate input :: post /\
    in_Env input !! "CIRRUS_PORTS_WAIT_FOR" = Some "80,443,8080".
Proof.
  destruct (proj1 (ports_wait_for_env
                     (fun _ => "/tmp/cirrus-ci-agent/cirrus-ci-agent")
                     (fun _ => "/tmp/cirrus-ci-agent") "cloudbuild" (fun path => path)
                     "linux" "")
              example_world example_config example_state _
              eq_refl example_pointers eq_refl)
    as (input & pre & post & E & _ & _ & _ & Hv).
  exists input, pre, post. split; [exact E|].
  rewrite Hv by discriminate. reflexivity.
Defined.

Lemma agent_argument_vector_witness :
  exists input pre post,
    snd (fst (example_run example_world)) = pre ++ CallContainerCreate input :: post /\
    in_Entrypoint input =
      ["/tmp/cirrus-ci-agent/cirrus-ci-agent"; "-api-endpoint"; "http://host:8080";
       "-server-token"; "server-secret"; "-client-token"; "client-secret";
       "-task-id"; "42"; "-command-from"; ""; "-command-to"; ""].
Proof.
  destruct (proj1 (agent_argument_vector
                     (fun _ => "/tmp/cirrus-ci-agent/cirrus-ci-agent")
                     (fun _ => "/tmp/cirrus-ci-agent") "cloudbuild" (fun path => path)
                     "linux" "")
              example_world example_config example_state _
              eq_refl example_pointers eq_refl)
    as (input & pre & post & E & _ & _ & Hentry).
  exists input, pre, post. split; [exact E|]. exact Hentry.
Defined.

(** On a host with 4 CPUs and 2 GiB the main container and the additional
    container [web], which ask for 8 CPUs and 4 GiB, are cut down, and the
    caller sees it although the run fails. *)
Lemma clamping_is_in_place_witness :
  snd (example_run full_world) = Return (Some (Foreign "no space left on device")) /\
  p_Memory (params (fst (fst (example_run full_world)))) = 2048%N /\
  p_CPU (params (fst (fst (example_run full_world)))) = float32_of_Z 4 /\
  exists ac',
    heap (fst (fst (example_run full_world))) !! 1%positive = Some ac' /\
    ac_Memory ac' = 2048%N /\ ac_Cpu ac' = float32_of_Z 4.
Proof.
  destruct (clamping_is_in_place
              (fun _ => "/tmp/cirrus-ci-agent/cirrus-ci-agent")
              (fun _ => "/tmp/cirrus-ci-agent") "cloudbuild" (fun path => path)
              "linux" "" full_world example_config example_state _
              eq_refl example_pointers)
    as (Hcpu & Hmem & _ & Hheap & _).
  split; [reflexivity|].
  split; [exact Hmem|]. split; [exact Hcpu|].
  destruct (Hheap 1%positive web) as (ac' & Hac & Hc & Hm & _).
  - apply list_elem_of_here.
  - reflexivity.
  - exists ac'. split; [exact Hac|]. split; [exact Hm | exact Hc].
Defined.

(** ** The [select] *)

Lemma earliest_None l : earliest l = None -> l = [].
Proof.
  destruct l as [|a l]; [reflexivity|]. simpl.
  destruct (earliest l); [destruct (_ <=? _)%nat|]; discriminate.
Qed.

Lemma earliest_In l a : earliest l = Some a -> In a l.
Proof.
  revert a. induction l as [|x l IH]; intros a H; [discriminate|].
  simpl in H. destruct (earliest l) as [b|].
  - destruct (fst x <=? fst b)%nat; inversion H; subst; [now left|].
    right. now apply IH.
  - inversion H. now left.
Qed.

(** An arrival that is strictly before all the others is the earliest. *)
Lemma earliest_min l a :
  In a l -> (forall b, In b l -> b = a \/ (fst a < fst b)%nat) -> earliest l = Some a.
Proof.
  induction l as [|x l IH]; intros Hin Hmin; [destruct Hin|].
  simpl. destruct (Hmin x (or_introl eq_refl)) as [->|Hlt].
  - destruct (earliest l) as [b|] eqn:E; [|reflexivity].
    destruct (Nat.leb_spec (fst a) (fst b)); [reflexivity|].
    destruct (Hmin b) as [->|Hb]; [right; now apply earliest_In|reflexivity|lia].
  - assert (Hrest : In a l).
    { destruct Hin as [->|Hin]; [lia|exact Hin]. }
    rewrite (IH Hrest) by (intros b' Hb'; apply Hmin; now right).
    destruct (Nat.leb_spec (fst x) (fst a)); [lia|reflexivity].
Qed.

Lemma head_of_In c arrs a : head_of c arrs = Some a -> In a arrs /\ chan_of (snd a) = c.
Proof.
  unfold head_of. intros H. apply earliest_In, filter_In in H as [H1 H2].
  split; [exact H1|]. destruct (chan_of (snd a)), c; simpl in H2; congruence.
Qed.

Lemma heads_In arrs a : In a (heads arrs) -> In a arrs.
Proof.
  unfold heads. cbn [omap list_omap].
  destruct (head_of WaitChan arrs) eqn:E1, (head_of ErrChan arrs) eqn:E2,
    (head_of AdditionalContainersErrChan arrs) eqn:E3; simpl; intros H;
    repeat match goal with
    | H : _ \/ _ |- _ => destruct H as [<-|H]
    | H : False |- _ => destruct H
    end;
    eapply head_of_In; eassumption.
Qed.

Lemma choose_In pick rs r : choose pick rs = Some r -> exists t, In (t, r) rs.
Proof.
  unfold choose. destruct (rs !! _) as [[t r']|] eqn:E; [|discriminate].
  simpl. intros H. inversion H; subst. exists t.
  apply list_elem_of_In. eapply list_elem_of_lookup_2. exact E.
Qed.

(** What the [select] receives has arrived. *)
Lemma select_In entry pick arrs r :
  select entry pick arrs = Some r -> exists t, In (t, r) arrs.
Proof.
  unfold select.
  assert (Hready : forall t', (exists t, In (t, r) (ready t' arrs)) -> exists t, In (t, r) arrs).
  { intros t' [t Ht]. exists t. unfold ready in Ht.
    apply filter_In in Ht as [Ht _]. now apply heads_In. }
  destruct (ready entry arrs) as [|a rs] eqn:E.
  - destruct (earliest (heads arrs)) as [[t' ?]|]; [|discriminate].
    intros H. apply choose_In in H. eauto.
  - intros H. apply choose_In in H. rewrite <- E in H. eauto.
Qed.

Lemma filter_none {A} (f : A -> bool) (l : list A) :
  (forall x, In x l -> f x = false) -> List.filter f l = [].
Proof.
  induction l as [|x l IH]; intros H; [reflexivity|].
  simpl. rewrite (H x (or_introl eq_refl)). apply IH. intros y Hy. apply H. now right.
Qed.

Lemma choose_one pick a : choose pick [a] = Some (snd a).
Proof. unfold choose. cbn [length]. now rewrite Nat.mod_1_r. Qed.

(** If an arrival comes before all the others, and they come only after
    the [select] is reached, the [select] receives it, whatever the
    scheduler would choose. *)
Lemma select_first entry pick arrs t ev :
  In (t, ev) arrs ->
  (forall a, In a arrs -> a = (t, ev) \/ (Nat.max entry t < fst a)%nat) ->
  select entry pick arrs = Some ev.
Proof.
  intros Hin Hmin.
  assert (Hsame : head_of (chan_of ev) arrs = Some (t, ev)).
  { unfold head_of. apply earliest_min.
    - apply filter_In. split; [exact Hin|]. simpl. now destruct (chan_of ev).
    - intros b Hb. apply filter_In in Hb as [Hb _].
      destruct (Hmin b Hb) as [->|Hlt]; [now left|right; simpl; lia]. }
  assert (Hother : forall c, chan_of ev <> c ->
            match head_of c arrs with
            | Some b => (Nat.max entry t < fst b)%nat
            | None => True
            end).
  { intros c Hc. destruct (head_of c arrs) as [b|] eqn:E; [|exact I].
    apply head_of_In in E as [Hb Hchan].
    destruct (Hmin b Hb) as [->|Hlt]; [|exact Hlt].
    simpl in Hchan. congruence. }
  assert (Hheads : forall t', (t <= t')%nat -> (t' <= Nat.max entry t)%nat ->
            ready t' arrs = [(t, ev)]).
  { intros t' H1 H2. unfold ready, heads. cbn [omap list_omap].
    destruct ev as [res|err|acErr]; simpl in Hsame; rewrite Hsame;
      match goal with
      | |- context [head_of ?c1 arrs] =>
          pose proof (Hother c1 ltac:(simpl; congruence)) as O1;
          destruct (head_of c1 arrs) as [b1|]
      end;
      match goal with
      | |- context [head_of ?c2 arrs] =>
          pose proof (Hother c2 ltac:(simpl; congruence)) as O2;
          destruct (head_of c2 arrs) as [b2|]
      end;
      simpl;
      repeat match goal with
             | |- context [(?x <=? ?y)%nat] => destruct (Nat.leb_spec x y); simpl
             end;
      try reflexivity; simpl in *; lia. }
  assert (Hnone : (entry < t)%nat -> ready entry arrs = []).
  { intros Hlt. unfold ready. apply filter_none.
    intros b Hb. apply heads_In in Hb.
    destruct (Hmin b Hb) as [->|Hb']; simpl; apply Nat.leb_gt; lia. }
  assert (Hearliest : earliest (heads arrs) = Some (t, ev)).
  { apply earliest_min.
    - pose proof (Hheads t (Nat.le_refl t) (Nat.le_max_r entry t)) as H.
      unfold ready in H.
      assert (Hmem : In (t, ev) (List.filter (fun a => (fst a <=? t)%nat) (heads arrs)))
        by (rewrite H; now left).
      now apply filter_In in Hmem as [Hmem _].
    - intros b Hb. apply heads_In in Hb.
      destruct (Hmin b Hb) as [->|Hlt]; [now left|right; simpl; lia]. }
  unfold select.
  destruct (Nat.le_gt_cases t entry) as [Hle|Hgt].
  - rewrite (Hheads entry Hle (Nat.le_max_l entry t)). apply choose_one.
  - rewrite (Hnone Hgt), Hearliest.
    rewrite (Hheads t (Nat.le_refl t) (Nat.le_max_r entry t)). apply choose_one.
Qed.

(** ** A sidecar goroutine *)

Lemma warnAboutPorts_run name ports s :
  warnAboutPorts name ports s
  = (s,
     if existsb (fun portMapping => negb (HostPort portMapping =? 0)%N) ports
     then [Log Warn (portWarning name)] else [],
     Next tt).
Proof.
  induction ports as [|pm ports IH]; [reflexivity|].
  simpl. destruct (negb (HostPort pm =? 0)%N); [reflexivity|exact IH].
Qed.

Lemma port_warnings_app t1 t2 :
  port_warnings (t1 ++ t2) = (port_warnings t1 + port_warnings t2)%nat.
Proof. unfold port_warnings. now rewrite List.filter_app, length_app. Qed.

Lemma port_warnings_quiet t :
  Forall (fun a => is_port_warning a = false) t -> port_warnings t = 0%nat.
Proof.
  unfold port_warnings. induction 1 as [|a t Ha _ IH]; [reflexivity|].
  simpl. now rewrite Ha.
Qed.

Lemma pull_trace_quiet b reference :
  Forall (fun a => is_port_warning a = false) (pull_trace b reference).
Proof.
  unfold pull_trace.
  destruct (on_ShouldPullImage b reference); [|constructor].
  destruct (on_ImagePull b reference); repeat constructor.
Qed.

Lemma port_warning_trace_count ac :
  port_warnings (port_warning_trace ac) = if has_host_port ac then 1%nat else 0%nat.
Proof. unfold port_warning_trace. destruct (has_host_port ac); reflexivity. Qed.

(** The run of a sidecar whose image is there and whose container is
    created: the port warning, if any, then the start, the wait and the
    removal. *)
Lemma runAdditionalContainer_created sw ac mainID noCleanup s cont :
  pull_result (sw_backend sw) (ac_Image ac) = None ->
  on_ContainerCreate (sw_backend sw) (additionalContainerInput ac mainID) = (cont, None) ->
  exists t r,
    runAdditionalContainer sw ac mainID noCleanup s
    = (s,
       (pull_trace (sw_backend sw) (ac_Image ac) ++
        [Log Debug "creating additional container";
         CallContainerCreate (additionalContainerInput ac mainID)]) ++
       port_warning_trace ac ++ t,
       r) /\
    Forall (fun a => is_port_warning a = false) t /\
    (r = Blocked \/ r = Return None \/
     exists msg, r = Return (Some (Wrap ErrAdditionalContainerFailed msg))) /\
    (on_ContainerStart (sw_backend sw) (ID cont) = None ->
     forall res, sw_recv sw = Some (WaitResult res) -> r = Return None).
Proof.
  intros Hpull Hcreate.
  unfold runAdditionalContainer.
  erewrite bind_next by apply pullHelper_run. rewrite Hpull.
  erewrite bind_next by reflexivity.
  erewrite bind_next by reflexivity.
  rewrite Hcreate.
  unfold defer.
  erewrite bind_next by apply warnAboutPorts_run.
  fold (has_host_port ac). fold (port_warning_trace ac).
  unfold ContainerStart, ContainerDelete, bind, emit, ret, returns, block.
  destruct (on_ContainerStart (sw_backend sw) (ID cont)) as [err|];
    [|destruct (sw_recv sw) as [[res|err]|]];
    destruct noCleanup; try destruct (on_ContainerDelete (sw_backend sw) (ID cont));
    cbn; eexists _, _;
    (split; [rewrite <- ?app_assoc; reflexivity|]);
    (split; [repeat constructor|]);
    (split; [eauto|]);
    intros; congruence.
Qed.

Lemma pull_result_wraps b reference e :
  pull_result b reference = Some e -> errors_Is e ErrAdditionalContainerFailed = true.
Proof.
  unfold pull_result.
  destruct (on_ShouldPullImage b reference); [|discriminate].
  destruct (on_ImagePull b reference); [|discriminate].
  intros H. inversion H. reflexivity.
Qed.

(** The run of a sidecar whose image cannot be pulled or whose container
    cannot be created. *)
Lemma runAdditionalContainer_not_created sw ac mainID noCleanup s :
  reaches_port_check sw ac mainID = false ->
  exists t e,
    runAdditionalContainer sw ac mainID noCleanup s = (s, t, Return (Some e)) /\
    Forall (fun a => is_port_warning a = false) t /\
    errors_Is e ErrAdditionalContainerFailed = true.
Proof.
  unfold reaches_port_check. intros H.
  unfold runAdditionalContainer.
  erewrite bind_next by apply pullHelper_run.
  destruct (pull_result (sw_backend sw) (ac_Image ac)) as [e|] eqn:Hpull.
  - exists (pull_trace (sw_backend sw) (ac_Image ac) ++ []), e.
    split; [reflexivity|]. split.
    + rewrite app_nil_r. apply pull_trace_quiet.
    + eapply pull_result_wraps. exact Hpull.
  - erewrite bind_next by reflexivity.
    erewrite bind_next by reflexivity.
    destruct (on_ContainerCreate (sw_backend sw) (additionalContainerInput ac mainID))
      as [cont [err|]]; [|discriminate H].
    eexists _, _. split; [reflexivity|]. split; [|reflexivity].
    apply Forall_app. split; [apply pull_trace_quiet|repeat constructor].
Qed.

(** Whatever error a sidecar returns wraps [ErrAdditionalContainerFailed]. *)
Lemma runAdditionalContainer_error sw ac mainID noCleanup s e :
  snd (runAdditionalContainer sw ac mainID noCleanup s) = Return (Some e) ->
  errors_Is e ErrAdditionalContainerFailed = true.
Proof.
  destruct (reaches_port_check sw ac mainID) eqn:Hreach.
  - unfold reaches_port_check in Hreach.
    destruct (pull_result (sw_backend sw) (ac_Image ac)) eqn:Hpull; [discriminate|].
    destruct (on_ContainerCreate (sw_backend sw) (additionalContainerInput ac mainID))
      as [cont [err|]] eqn:Hcreate; [discriminate|].
    destruct (runAdditionalContainer_created sw ac mainID noCleanup s cont Hpull Hcreate)
      as (t & r & E & _ & [->|[->|[msg ->]]] & _); rewrite E; simpl;
      intros H; inversion H. reflexivity.
  - destruct (runAdditionalContainer_not_created sw ac mainID noCleanup s Hreach)
      as (t & e' & E & _ & He).
    rewrite E. simpl. intros H. inversion H; subst. exact He.
Qed.

(** A sidecar warns about host ports once if it gets as far as looking at
    its port mappings and one of them has a host port, and never
    otherwise. *)
Lemma runAdditionalContainer_port_warnings sw ac mainID noCleanup s :
  port_warnings (snd (fst (runAdditionalContainer sw ac mainID noCleanup s)))
  = if reaches_port_check sw ac mainID && has_host_port ac then 1%nat else 0%nat.
Proof.
  destruct (reaches_port_check sw ac mainID) eqn:Hreach.
  - unfold reaches_port_check in Hreach.
    destruct (pull_result (sw_backend sw) (ac_Image ac)) eqn:Hpull; [discriminate|].
    destruct (on_ContainerCreate (sw_backend sw) (additionalContainerInput ac mainID))
      as [cont [err|]] eqn:Hcreate; [discriminate|].
    destruct (runAdditionalContainer_created sw ac mainID noCleanup s cont Hpull Hcreate)
      as (t & r & E & Ht & _). rewrite E. cbn [fst snd andb].
    rewrite !port_warnings_app, port_warning_trace_count.
    rewrite (port_warnings_quiet _ (pull_trace_quiet _ _)), (port_warnings_quiet _ Ht).
    destruct (has_host_port ac); reflexivity.
  - destruct (runAdditionalContainer_not_created sw ac mainID noCleanup s Hreach)
      as (t & e' & E & Ht & _).
    rewrite E. simpl. now apply port_warnings_quiet.
Qed.

Lemma has_host_port_without ac : has_host_port (without_host_ports ac) = false.
Proof.
  unfold has_host_port, without_host_ports. cbn [ac_Ports].
  induction (ac_Ports ac) as [|pm ports IH]; [reflexivity|exact IH].
Qed.

(** The warning changes nothing else: the run of a sidecar is the run that
    the same container has without host ports, with the warning put in
    where the port mappings are looked at. *)
Lemma runAdditionalContainer_warning sw ac mainID noCleanup s :
  exists pre post r,
    runAdditionalContainer sw ac mainID noCleanup s
    = (s,
       pre ++
       (if reaches_port_check sw ac mainID then port_warning_trace ac else []) ++
       post,
       r) /\
    runAdditionalContainer sw (without_host_ports ac) mainID noCleanup s
    = (s, pre ++ post, r) /\
    Forall (fun a => is_port_warning a = false) pre /\
    Forall (fun a => is_port_warning a = false) post.
Proof.
  unfold reaches_port_check, runAdditionalContainer.
  change (ac_Image (without_host_ports ac)) with (ac_Image ac).
  change (additionalContainerInput (without_host_ports ac) mainID)
    with (additionalContainerInput ac mainID).
  do 2 erewrite bind_next by apply pullHelper_run.
  destruct (pull_result (sw_backend sw) (ac_Image ac)) as [e|].
  { exists (pull_trace (sw_backend sw) (ac_Image ac)), [], (Return (Some e)).
    cbn [returns app]. rewrite !app_nil_r.
    split; [reflexivity|]. split; [reflexivity|].
    split; [apply pull_trace_quiet|constructor]. }
  do 2 (erewrite bind_next by reflexivity; erewrite bind_next by reflexivity).
  destruct (on_ContainerCreate (sw_backend sw) (additionalContainerInput ac mainID))
    as [cont [err|]].
  { eexists (pull_trace (sw_backend sw) (ac_Image ac) ++
             [Log Debug "creating additional container";
              CallContainerCreate (additionalContainerInput ac mainID)]), [], _.
    cbn [returns app]. rewrite !app_nil_r.
    split; [reflexivity|]. split; [reflexivity|].
    split; [|constructor].
    apply Forall_app. split; [apply pull_trace_quiet|repeat constructor]. }
  unfold defer.
  rewrite (bind_next _ _ _ _ _ _
             (warnAboutPorts_run (ac_Name ac) (ac_Ports ac) s)).
  rewrite (bind_next _ _ _ _ _ _
             (warnAboutPorts_run (ac_Name (without_host_ports ac))
                (ac_Ports (without_host_ports ac)) s)).
  fold (has_host_port ac). fold (port_warning_trace ac).
  fold (has_host_port (without_host_ports ac)).
  rewrite has_host_port_without.
  unfold ContainerStart, ContainerDelete, bind, emit, ret, returns, block.
  destruct (on_ContainerStart (sw_backend sw) (ID cont)) as [err|];
    [|destruct (sw_recv sw) as [[res|err]|]];
    destruct noCleanup; try destruct (on_ContainerDelete (sw_backend sw) (ID cont));
    cbn;
    eexists (pull_trace (sw_backend sw) (ac_Image ac) ++
             [Log Debug "creating additional container";
              CallContainerCreate (additionalContainerInput ac mainID)]), _, _;
    (split; [rewrite <- ?app_assoc; reflexivity|]);
    (split; [rewrite <- ?app_assoc; reflexivity|]);
    (split; [apply Forall_app; split; [apply pull_trace_quiet|repeat constructor]
            |repeat constructor]).
Qed.

(** ** What the orchestrator's own goroutine never does *)

Section Quiet.

Variable P : action -> Prop.
Hypothesis P_plain : forall a,
  is_port_warning a = false -> is_teardown a = false -> is_create a = false -> P a.
Hypothesis P_create : forall input, P (CallContainerCreate input).

Lemma sat_put s' : sat any_state P (put s').
Proof. intros s. simpl. split; [exact I|constructor]. Qed.

Lemma sat_clampResources info : sat any_state P (clampResources info).
Proof.
  unfold clampResources, setParams, store.
  repeat (first [ apply sat_put | apply sat_get | apply sat_load
                | apply sat_bind | apply sat_forEach | intro ];
          try (intros; exact I)).
Qed.

Lemma sat_createMainContainer agentPath agentDir network dirOf goos ip w config :
  sat any_state P (createMainContainer agentPath agentDir network dirOf goos ip w config).
Proof.
  unfold createMainContainer.
  apply sat_bind; try (intros; exact I).
  { unfold SystemInfoOf. apply sat_bind; try (intros; exact I).
    - apply sat_emit; try (intros; exact I). now apply P_plain.
    - intros _. apply sat_ret. intros; exact I. }
  intros [info [err|]]; [apply sat_returns; intros; exact I|].
  apply sat_bind; try (intros; exact I); [apply sat_clampResources|]. intros _.
  apply (sat_create_after_clamp any_state P); auto; intros; exact I.
Qed.

End Quiet.

Section Silence.

Variable ContainerAgentPath : ContainerPlatform -> string.
Variable ContainerAgentVolumeDir : ContainerPlatform -> string.
Variable CloudBuildNetworkName : string.
Variable filepath_Dir : string -> string.
Variable GOOS : string.
Variable CloudBuildIP : string.

(** Up to the creation of the main container nothing is removed. *)
Lemma createMainContainer_no_teardown w config s :
  Forall (fun a => is_teardown a = false)
    (snd (fst (createMainContainer ContainerAgentPath ContainerAgentVolumeDir
                 CloudBuildNetworkName filepath_Dir GOOS CloudBuildIP w config s))).
Proof.
  apply (sat_createMainContainer (fun a => is_teardown a = false)); auto.
Qed.

(** The orchestrator's own goroutine never warns about host ports. *)
Lemma RunContainerizedAgent_quiet w config s :
  Forall (fun a => is_port_warning a = false)
    (snd (fst (RunContainerizedAgent ContainerAgentPath ContainerAgentVolumeDir
                 CloudBuildNetworkName filepath_Dir GOOS CloudBuildIP w config s))).
Proof.
  assert (H : sat any_state (fun a => is_port_warning a = false)
                (RunContainerizedAgent ContainerAgentPath ContainerAgentVolumeDir
                   CloudBuildNetworkName filepath_Dir GOOS CloudBuildIP w config)).
  { unfold RunContainerizedAgent. apply sat_bind; try (intros; exact I).
    - apply sat_createMainContainer; auto.
    - intros cont. apply sat_supervise; auto; intros; exact I. }
  apply H.
Qed.

End Silence.

(** ** The errors on the sidecars' channel *)

Lemma arrivals_sidecar_error w noCleanup mainID s t e :
  In (t, FromAdditionalContainersErrChan e) (arrivals w noCleanup mainID s) ->
  errors_Is e ErrAdditionalContainerFailed = true.
Proof.
  unfold arrivals. intros H. apply in_app_or in H as [H|H].
  - apply in_map_iff in H as ([t' r] & Heq & _). simpl in Heq.
    destruct r; inversion Heq.
  - unfold sidecarArrivals in H.
    apply list_elem_of_In, list_elem_of_omap in H as ([i [tr r]] & Hin & Hsome).
    apply list_elem_of_In in Hin. unfold sidecarRuns in Hin.
    apply in_map_iff in Hin as ([j ac] & Heq & _). simpl in *.
    destruct r as [|[err|]| |]; try discriminate.
    inversion Hsome; subst.
    apply (runAdditionalContainer_error (sidecar w j) ac mainID noCleanup s).
    destruct (runAdditionalContainer (sidecar w j) ac mainID noCleanup s) as [[s' t'] r'].
    inversion Heq. reflexivity.
Qed.

Lemma startup_trace_no_teardown cont n :
  Forall (fun a => is_teardown a = false) (startup_trace cont n).
Proof.
  unfold startup_trace. apply Forall_app. split; [|repeat constructor].
  apply Forall_forall. intros a Ha.
  apply list_elem_of_In, in_map_iff in Ha as (i & <- & _). reflexivity.
Qed.

Lemma received_trace_no_teardown ev :
  Forall (fun a => is_teardown a = false) (received_trace ev).
Proof. destruct ev; repeat constructor. Qed.

Lemma warnings_count w mainID noCleanup s (l : list (nat * AdditionalContainer)) :
  list_sum
    (List.map (fun x => port_warnings (fst (snd x)))
       (List.map (fun x =>
                    let '(_, t, r) :=
                      runAdditionalContainer (sidecar w (fst x)) (snd x) mainID noCleanup s in
                    (fst x, (t, r))) l))
  = length (List.filter (warns w mainID) l).
Proof.
  assert (Hcons : forall (x : nat) (xs : list nat), list_sum (x :: xs) = (x + list_sum xs)%nat)
    by reflexivity.
  induction l as [|[i ac] l IH]; [reflexivity|].
  rewrite !map_cons, Hcons, IH.
  cbn [List.filter]. unfold warns at 2. cbn [fst snd].
  pose proof (runAdditionalContainer_port_warnings (sidecar w i) ac mainID noCleanup s) as H.
  destruct (runAdditionalContainer (sidecar w i) ac mainID noCleanup s) as [[s' t] r].
  cbn [fst snd] in *. rewrite H.
  destruct (reaches_port_check (sidecar w i) ac mainID && has_host_port ac); reflexivity.
Qed.

Lemma filter_all {A} (f : A -> bool) (l : list A) :
  (forall x, In x l -> f x = true) -> List.filter f l = l.
Proof.
  induction l as [|x l IH]; intros H; [reflexivity|].
  simpl. rewrite (H x (or_introl eq_refl)). f_equal. apply IH. intros y Hy. apply H. now right.
Qed.

(** ** The claims about a whole run *)

Section Claims.

Variable ContainerAgentPath : ContainerPlatform -> string.
Variable ContainerAgentVolumeDir : ContainerPlatform -> string.
Variable CloudBuildNetworkName : string.
Variable filepath_Dir : string -> string.
Variable GOOS : string.
Variable CloudBuildIP : string.

(** A run in which the main container is created and started, its logs are
    followed, the [select] receives a value and the sidecars come to an
    end: its trace and what it returns. *)
Lemma RunContainerizedAgent_run w config s s1 t1 cont ev :
  createMainContainer ContainerAgentPath ContainerAgentVolumeDir
    CloudBuildNetworkName filepath_Dir GOOS CloudBuildIP w config s
  = (s1, t1, Next cont) ->
  on_ContainerStart (backend w) (ID cont) = None ->
  on_ContainerLogs (backend w) (ID cont) = None ->
  select (selectEntry w) (pick w) (arrivals w (NoCleanup config) (ID cont) s1) = Some ev ->
  sidecars_end w (NoCleanup config) (ID cont) s1 = true ->
  RunContainerizedAgent ContainerAgentPath ContainerAgentVolumeDir
    CloudBuildNetworkName filepath_Dir GOOS CloudBuildIP w config s
  = ({| params := params s1; heap := heap s1;
        logReaderWg := logReaderWg s1 + 1; logReaderStarted := true |},
     (t1 ++ startup_trace cont (length (p_AdditionalContainers (params s1))) ++
      received_trace ev) ++ teardown_trace w config cont,
     Return (outcome_of ev)).
Proof.
  intros Hcreate Hstart Hlogs Hsel Hend.
  unfold RunContainerizedAgent.
  rewrite (bind_next _ _ _ _ _ _ Hcreate).
  rewrite (supervise_run w config cont s1 ev Hstart Hlogs Hsel Hend).
  now rewrite <- !app_assoc.
Qed.

(** C1, as the code has it.  When the [select] of the orchestrator
    receives the wait result of the main container the run returns nil,
    whatever the exit code; it returns an error only when the backend's
    error channel delivers one or a sidecar has sent one, and a sidecar's
    error always wraps [ErrAdditionalContainerFailed].  A sidecar whose
    [select] receives its wait result returns nil, whatever the exit code.
    What the run returns is decided by the one value that the [select]
    receives; that is the first of the three events to occur if no other
    one has occurred by the time it has occurred and the [select] is
    reached. *)
Theorem exit_status_is_not_a_failure :
  (forall w config s s1 t1 cont ev,
      createMainContainer ContainerAgentPath ContainerAgentVolumeDir
        CloudBuildNetworkName filepath_Dir GOOS CloudBuildIP w config s
      = (s1, t1, Next cont) ->
      on_ContainerStart (backend w) (ID cont) = None ->
      on_ContainerLogs (backend w) (ID cont) = None ->
      select (selectEntry w) (pick w) (arrivals w (NoCleanup config) (ID cont) s1)
      = Some ev ->
      sidecars_end w (NoCleanup config) (ID cont) s1 = true ->
      snd (RunContainerizedAgent ContainerAgentPath ContainerAgentVolumeDir
             CloudBuildNetworkName filepath_Dir GOOS CloudBuildIP w config s)
      = Return (outcome_of ev) /\
      (forall res, ev = FromWaitChan res ->
         snd (RunContainerizedAgent ContainerAgentPath ContainerAgentVolumeDir
                CloudBuildNetworkName filepath_Dir GOOS CloudBuildIP w config s)
         = Return None) /\
      (forall e,
         snd (RunContainerizedAgent ContainerAgentPath ContainerAgentVolumeDir
                CloudBuildNetworkName filepath_Dir GOOS CloudBuildIP w config s)
         = Return (Some e) ->
         ev = FromErrChan (Some e) \/
         (ev = FromAdditionalContainersErrChan e /\
          errors_Is e ErrAdditionalContainerFailed = true))) /\
  (forall sw ac mainID noCleanup s cont res,
      pull_result (sw_backend sw) (ac_Image ac) = None ->
      on_ContainerCreate (sw_backend sw) (additionalContainerInput ac mainID)
      = (cont, None) ->
      on_ContainerStart (sw_backend sw) (ID cont) = None ->
      sw_recv sw = Some (WaitResult res) ->
      snd (runAdditionalContainer sw ac mainID noCleanup s) = Return None) /\
  (forall sw ac mainID noCleanup s e,
      snd (runAdditionalContainer sw ac mainID noCleanup s) = Return (Some e) ->
      errors_Is e ErrAdditionalContainerFailed = true) /\
  (forall w config s s1 t1 cont t ev,
      createMainContainer ContainerAgentPath ContainerAgentVolumeDir
        CloudBuildNetworkName filepath_Dir GOOS CloudBuildIP w config s
      = (s1, t1, Next cont) ->
      on_ContainerStart (backend w) (ID cont) = None ->
      on_ContainerLogs (backend w) (ID cont) = None ->
      sidecars_end w (NoCleanup config) (ID cont) s1 = true ->
      In (t, ev) (arrivals w (NoCleanup config) (ID cont) s1) ->
      (forall a, In a (arrivals w (NoCleanup config) (ID cont) s1) ->
                 a = (t, ev) \/ (Nat.max (selectEntry w) t < fst a)%nat) ->
      snd (RunContainerizedAgent ContainerAgentPath ContainerAgentVolumeDir
             CloudBuildNetworkName filepath_Dir GOOS CloudBuildIP w config s)
      = Return (outcome_of ev)).
Proof.
  split; [|split; [|split]].
  - intros w config s s1 t1 cont ev Hcreate Hstart Hlogs Hsel Hend.
    rewrite (RunContainerizedAgent_run w config s s1 t1 cont ev
               Hcreate Hstart Hlogs Hsel Hend).
    cbn [snd]. split; [reflexivity|]. split.
    + intros res ->. reflexivity.
    + intros e He. destruct ev as [res|err|acErr]; simpl in He; inversion He; subst.
      * now left.
      * right. split; [reflexivity|].
        apply select_In in Hsel as [t Ht].
        eapply arrivals_sidecar_error. exact Ht.
  - intros sw ac mainID noCleanup s cont res Hpull Hcreate Hstart Hrecv.
    destruct (runAdditionalContainer_created sw ac mainID noCleanup s cont Hpull Hcreate)
      as (t & r & E & _ & _ & Hr).
    rewrite E. cbn [snd]. eapply Hr; eassumption.
  - intros sw ac mainID noCleanup s e. apply runAdditionalContainer_error.
  - intros w config s s1 t1 cont t ev Hcreate Hstart Hlogs Hend Hin Hfirst.
    rewrite (RunContainerizedAgent_run w config s s1 t1 cont ev
               Hcreate Hstart Hlogs
               (select_first _ (pick w) _ t ev Hin Hfirst) Hend).
    reflexivity.
Qed.

(** C6, as the code has it.  Every sidecar goroutine that gets as far as
    looking at its port mappings, and finds a host port among them, logs
    the warning once, however many of its mappings have a host port; the
    orchestrator's own goroutine never logs it.  A whole orchestration
    therefore logs as many warnings as it has such sidecars: N of them when
    all N additional containers have a host port.  The warning of a
    sidecar carries the name of its additional container, and the sidecar
    goes on as it would without host ports: apart from the warning it does
    the same steps and comes to the same end. *)
Theorem port_warning_per_sidecar w config s s1 t1 cont :
  createMainContainer ContainerAgentPath ContainerAgentVolumeDir
    CloudBuildNetworkName filepath_Dir GOOS CloudBuildIP w config s
  = (s1, t1, Next cont) ->
  port_warnings
    (snd (fst (RunContainerizedAgent ContainerAgentPath ContainerAgentVolumeDir
                 CloudBuildNetworkName filepath_Dir GOOS CloudBuildIP w config s)))
  = 0%nat /\
  List.map (fun x => port_warnings (fst (snd x)))
           (sidecarRuns w (NoCleanup config) (ID cont) s1)
  = List.map (fun x => if warns w (ID cont) x then 1%nat else 0%nat) (launched s1) /\
  orchestration_port_warnings
    (RunContainerizedAgent ContainerAgentPath ContainerAgentVolumeDir
       CloudBuildNetworkName filepath_Dir GOOS CloudBuildIP w config s)
    (sidecarRuns w (NoCleanup config) (ID cont) s1)
  = length (List.filter (warns w (ID cont)) (launched s1)) /\
  ((forall x, In x (launched s1) -> warns w (ID cont) x = true) ->
   orchestration_port_warnings
     (RunContainerizedAgent ContainerAgentPath ContainerAgentVolumeDir
        CloudBuildNetworkName filepath_Dir GOOS CloudBuildIP w config s)
     (sidecarRuns w (NoCleanup config) (ID cont) s1)
   = length (launched s1)) /\
  (forall i ac,
      In (i, ac) (launched s1) ->
      let run := runAdditionalContainer (sidecar w i) ac (ID cont)
                   (NoCleanup config) s1 in
      let bare := runAdditionalContainer (sidecar w i) (without_host_ports ac)
                    (ID cont) (NoCleanup config) s1 in
      In (i, (snd (fst run), snd run))
         (sidecarRuns w (NoCleanup config) (ID cont) s1) /\
      exists pre post,
        snd (fst run)
        = pre ++
          (if warns w (ID cont) (i, ac)
           then [Log Warn
                   ("port mappings are unsupported by the Cirrus CLI, " ++
                    "please tell the application running in the additional " ++
                    "container '" ++ ac_Name ac ++ "' to use a different port")]
           else []) ++
          post /\
        Forall (fun a => is_port_warning a = false) pre /\
        Forall (fun a => is_port_warning a = false) post /\
        snd (fst bare) = pre ++ post /\
        snd bare = snd run).
Proof.
  intros _.
  assert (Hmain : port_warnings
            (snd (fst (RunContainerizedAgent ContainerAgentPath ContainerAgentVolumeDir
                         CloudBuildNetworkName filepath_Dir GOOS CloudBuildIP w config s)))
          = 0%nat).
  { apply port_warnings_quiet, RunContainerizedAgent_quiet. }
  assert (Hsum : orchestration_port_warnings
            (RunContainerizedAgent ContainerAgentPath ContainerAgentVolumeDir
               CloudBuildNetworkName filepath_Dir GOOS CloudBuildIP w config s)
            (sidecarRuns w (NoCleanup config) (ID cont) s1)
          = length (List.filter (warns w (ID cont)) (launched s1))).
  { unfold orchestration_port_warnings. rewrite Hmain. unfold sidecarRuns.
    apply warnings_count. }
  split; [exact Hmain|]. split; [|split; [exact Hsum|split]].
  - unfold sidecarRuns. rewrite map_map. apply map_ext. intros [i ac].
    unfold warns. cbn [fst snd].
    pose proof (runAdditionalContainer_port_warnings (sidecar w i) ac (ID cont)
                  (NoCleanup config) s1) as H.
    destruct (runAdditionalContainer (sidecar w i) ac (ID cont) (NoCleanup config) s1)
      as [[s' t] r]. exact H.
  - intros Hall. rewrite Hsum. now rewrite filter_all.
  - intros i ac Hin run bare. split.
    + unfold sidecarRuns. apply in_map_iff. exists (i, ac). split; [|exact Hin].
      cbn [fst snd]. unfold run.
      now destruct (runAdditionalContainer (sidecar w i) ac (ID cont)
                      (NoCleanup config) s1) as [[s' t] r].
    + destruct (runAdditionalContainer_warning (sidecar w i) ac (ID cont)
                  (NoCleanup config) s1) as (pre & post & r & Erun & Ebare & Hpre & Hpost).
      exists pre, post. unfold run, bare. rewrite Erun, Ebare. cbn [fst snd].
      split; [|auto].
      unfold warns, port_warning_trace. cbn [fst snd].
      destruct (reaches_port_check (sidecar w i) ac (ID cont));
        destruct (has_host_port ac); reflexivity.
Qed.

End Claims.

(** ** The claims, tried *)

Lemma example_created_ok (w : World) :
  snd (example_created w) = Next example_container ->
  example_created w
  = (fst (fst (example_created w)), snd (fst (example_created w)), Next example_container).
Proof. intros H. rewrite <- H. now destruct (example_created w) as [[s t] r]. Qed.

(** The main container exits with status 1 and the run returns nil. *)
Lemma exit_status_is_not_a_failure_witness :
  snd (example_run example_world) = Return None.
Proof.
  destruct (exit_status_is_not_a_failure
              (fun _ => "/tmp/cirrus-ci-agent/cirrus-ci-agent")
              (fun _ => "/tmp/cirrus-ci-agent") "cloudbuild" (fun path => path)
              "linux" "") as (Hmain & _).
  destruct (Hmain example_world example_config example_state
              (fst (fst (example_created example_world)))
              (snd (fst (example_created example_world)))
              example_container
              (FromWaitChan {| StatusCode := 1; ProcessError := "" |})
              (example_created_ok example_world eq_refl)
              eq_refl eq_refl eq_refl eq_refl) as (_ & Hnil & _).
  exact (Hnil _ eq_refl).
Defined.

(** C1, as it is worded, fails where it says that the first event
    decides.  Both sidecars fail at time 1, the main container exits at
    time 2, the orchestrator reaches its [select] at time 3: the sidecars'
    error has occurred first, yet the run returns nil when the scheduler
    takes the wait result, and the error when it takes the other case. *)
Lemma first_event_does_not_decide :
  In (1%nat, FromAdditionalContainersErrChan pull_failure)
     (arrivals (late_world 0) false "id-alpine" (example_waiting (late_world 0))) /\
  (forall a,
      In a (arrivals (late_world 0) false "id-alpine" (example_waiting (late_world 0))) ->
      a = (1%nat, FromAdditionalContainersErrChan pull_failure) \/ (1 < fst a)%nat) /\
  snd (example_run (late_world 0)) = Return None /\
  snd (example_run (late_world 0))
  <> Return (outcome_of (FromAdditionalContainersErrChan pull_failure)) /\
  snd (example_run (late_world 1)) = Return (Some pull_failure).
Proof.
  split; [vm_compute; tauto|].
  split.
  { intros a Ha. vm_compute in Ha.
    destruct Ha as [<-|[<-|[<-|[]]]]; [right; simpl; lia|now left|now left]. }
  split; [reflexivity|].
  split; [|reflexivity].
  vm_compute. discriminate.
Qed.

(** Both sidecars of the example warn, and the first one names [web]. *)
Lemma port_warning_per_sidecar_witness :
  orchestration_port_warnings (example_run example_world)
    (sidecarRuns example_world false "id-alpine"
       (fst (fst (example_created example_world))))
  = length (launched (fst (fst (example_created example_world)))) /\
  exists ac pre post,
    In (0%nat, ac) (launched (fst (fst (example_created example_world)))) /\
    snd (fst (runAdditionalContainer running_sidecar ac "id-alpine" false
                (fst (fst (example_created example_world)))))
    = pre ++
      [Log Warn
         ("port mappings are unsupported by the Cirrus CLI, please tell the " ++
          "application running in the additional container 'web' to use a " ++
          "different port")] ++
      post.
Proof.
  destruct (port_warning_per_sidecar
              (fun _ => "/tmp/cirrus-ci-agent/cirrus-ci-agent")
              (fun _ => "/tmp/cirrus-ci-agent") "cloudbuild" (fun path => path)
              "linux" ""
              example_world example_config example_state
              (fst (fst (example_created example_world)))
              (snd (fst (example_created example_world)))
              example_container
              (example_created_ok example_world eq_refl)) as (_ & _ & _ & Hall & Hname).
  split.
  - apply Hall. intros x Hx. vm_compute in Hx.
    destruct Hx as [<-|[<-|[]]]; reflexivity.
  - assert (Hin : exists ac, In (0%nat, ac)
                               (launched (fst (fst (example_created example_world)))) /\
                             ac_Name ac = "web" /\
                             warns example_world "id-alpine" (0%nat, ac) = true).
    { eexists. split; [vm_compute; left; reflexivity|split; reflexivity]. }
    destruct Hin as (ac & Hin & Hweb & Hwarns).
    destruct (Hname 0%nat ac Hin) as (_ & pre & post & E & _).
    exists ac, pre, post. split; [exact Hin|].
    change (ID example_container) with "id-alpine" in E.
    rewrite Hwarns, Hweb in E. exact E.
Defined.

(** C6, as it is worded, fails: two additional containers, each with a
    host port, make two warnings. *)
Lemma two_sidecars_two_warnings :
  List.map (fun x => has_host_port (snd x)) (launched (example_waiting example_world))
  = [true; true] /\
  orchestration_port_warnings (example_run example_world)
    (sidecarRuns example_world false "id-alpine" (example_waiting example_world))
  = 2%nat /\
  orchestration_port_warnings (example_run example_world)
    (sidecarRuns example_world false "id-alpine" (example_waiting example_world))
  <> 1%nat.
Proof.
  split; [reflexivity|]. split; [reflexivity|].
  vm_compute. discriminate.
Qed.

End OrchestratorFacts.

(* ===================================================================== *)
(** * Further properties of the container orchestrator *)
(* ===================================================================== *)

Module OrchestratorExtraFacts.

Import Dispatch Orchestrator OrchestratorSpec OrchestratorExtraSpec OrchestratorFacts.
Local Open Scope go_scope.

#[local] Hint Resolve same_data_refl same_data_trans : sat.
#[local] Hint Extern 1 True => exact I : sat.
#[local] Hint Extern 1 (_ = false) => reflexivity : sat.

(** ** Lists of actions *)

Lemma deletions_app t1 t2 : deletions (t1 ++ t2) = (deletions t1 + deletions t2)%nat.
Proof. unfold deletions. now rewrite List.filter_app, length_app. Qed.

Lemma deletions_none t :
  Forall (fun a => is_delete a = false) t -> deletions t = 0%nat.
Proof.
  unfold deletions. induction 1 as [|a t Ha _ IH]; [reflexivity|].
  simpl. now rewrite Ha.
Qed.

Lemma Forall_weaken {A} (P Q : A -> Prop) (l : list A) :
  (forall a, P a -> Q a) -> Forall P l -> Forall Q l.
Proof. intros H. induction 1; constructor; auto. Qed.

(** An element that is not in the first part of a list is in the rest. *)
Lemma split_after {A} (l1 l2 pre post : list A) (x : A) :
  l1 ++ l2 = pre ++ x :: post -> ~ In x l1 ->
  exists pre', pre = l1 ++ pre' /\ l2 = pre' ++ x :: post.
Proof.
  revert pre. induction l1 as [|a l1 IH]; intros pre E Hx.
  - exists pre. now split.
  - destruct pre as [|b pre]; simpl in E; inversion E; subst.
    + exfalso. apply Hx. now left.
    + destruct (IH pre H1) as (pre' & -> & ->).
      * intros Hin. apply Hx. now right.
      * exists pre'. now split.
Qed.

(** ** Every path through the creation of the main container *)

Section Paths.

Variable ContainerAgentPath : ContainerPlatform -> string.
Variable ContainerAgentVolumeDir : ContainerPlatform -> string.
Variable CloudBuildNetworkName : string.
Variable filepath_Dir : string -> string.
Variable GOOS : string.
Variable CloudBuildIP : string.

Lemma sat_createInput_any (P : action -> Prop) config :
  sat any_state P
    (createInput ContainerAgentPath ContainerAgentVolumeDir CloudBuildNetworkName
       filepath_Dir GOOS CloudBuildIP config).
Proof.
  assert (Hports : forall ls, sat any_state P (collectPorts ls)).
  { induction ls as [|l ls IH]; simpl; sat_tac. exact IH. }
  unfold createInput. apply sat_bind; [sat_side|apply sat_get; sat_side|].
  intros s. destruct (_ <? _)%nat.
  - apply sat_bind; [sat_side|apply Hports|]. intros ports. sat_tac.
  - sat_tac.
Qed.

(** Up to the creation of the main container, the orchestrator queries the
    capacity, logs, pulls and creates; it does nothing else. *)
Lemma createMainContainer_actions w config s :
  Forall (fun a => creation_action a = true)
    (snd (fst (createMainContainer ContainerAgentPath ContainerAgentVolumeDir
                 CloudBuildNetworkName filepath_Dir GOOS CloudBuildIP w config s))).
Proof.
  assert (H : sat any_state (fun a => creation_action a = true)
                (createMainContainer ContainerAgentPath ContainerAgentVolumeDir
                   CloudBuildNetworkName filepath_Dir GOOS CloudBuildIP w config)).
  { unfold createMainContainer, SystemInfoOf.
    apply sat_bind; [sat_side|sat_tac|].
    intros [info [err|]]; [sat_tac|].
    apply sat_bind; [sat_side|apply sat_clampResources|]. intros _.
    apply sat_bind; [sat_side|apply sat_get; sat_side|]. intros s0.
    apply sat_bind; [sat_side|unfold pullHelper, ImagePull; sat_tac|].
    intros [err|]; [sat_tac|].
    apply sat_bind; [sat_side|sat_tac|]. intros _.
    apply sat_bind; [sat_side|apply sat_createInput_any|]. intros input.
    unfold ContainerCreate. sat_tac. }
  apply H.
Qed.

(** The creation goes on only after a call of [ContainerCreate] that the
    backend has answered with a container, and that call is its last
    step. *)
Lemma createMainContainer_next w config s s1 t1 cont :
  createMainContainer ContainerAgentPath ContainerAgentVolumeDir
    CloudBuildNetworkName filepath_Dir GOOS CloudBuildIP w config s
  = (s1, t1, Next cont) ->
  exists input t0,
    t1 = t0 ++ [CallContainerCreate input] /\
    on_ContainerCreate (backend w) input = (cont, None).
Proof.
  unfold createMainContainer.
  erewrite bind_next by apply SystemInfoOf_run.
  destruct (on_SystemInfo (backend w)) as [info [err|]]; [discriminate|].
  unfold bind at 1.
  destruct (clampResources info s) as [[sc tc] [[]| | |]]; try discriminate.
  erewrite bind_next by reflexivity.
  erewrite bind_next by apply pullHelper_run.
  destruct (pull_result (backend w) (p_Image (params sc))); [discriminate|].
  erewrite bind_next by reflexivity.
  unfold bind at 1.
  destruct (createInput _ _ _ _ _ _ config sc) as [[si ti] [input| | |]];
    try discriminate.
  unfold ContainerCreate.
  erewrite bind_next by reflexivity.
  destruct (on_ContainerCreate (backend w) input) as [c [e|]] eqn:Hc;
    cbn; intros H; inversion H; subst.
  exists input,
    (CallSystemInfo :: tc ++ pull_trace (backend w) (p_Image (params sc)) ++
     Log Debug ("creating container using working volume " ++
                p_WorkingVolumeName (params sc)) :: ti).
  split; [|exact Hc].
  cbn [app]. rewrite <- !app_assoc. reflexivity.
Qed.

End Paths.

(** ** Every path through the supervision *)

Section Shapes.

Variable ContainerAgentPath : ContainerPlatform -> string.
Variable ContainerAgentVolumeDir : ContainerPlatform -> string.
Variable CloudBuildNetworkName : string.
Variable filepath_Dir : string -> string.
Variable GOOS : string.
Variable CloudBuildIP : string.

(** The removal, whether or not it goes through: it stays at the wait for
    the sidecars when one of them never ends, and at the wait for the log
    reader when that was counted and never started. *)
Lemma teardown_cases w config cont s :
  teardown w config cont s =
  (s,
   if sidecars_end w (NoCleanup config) (ID cont) s
   then teardown_trace w config cont else teardown_stuck,
   if sidecars_end w (NoCleanup config) (ID cont) s &&
      ((logReaderWg s =? 0)%nat || logReaderStarted s)
   then Next tt else Blocked).
Proof.
  unfold teardown, additionalContainersWG_Wait, logReaderWg_Wait, ContainerDelete,
    teardown_trace, teardown_stuck, bind, emit, get, ret, block.
  unfold sidecars_end. simpl.
  destruct (forallb _ (sidecarRuns w (NoCleanup config) (ID cont) s)); [|reflexivity].
  destruct (NoCleanup config); simpl.
  - destruct ((logReaderWg s =? 0)%nat || logReaderStarted s); reflexivity.
  - destruct (on_ContainerDelete (backend w) (ID cont)); simpl;
      destruct ((logReaderWg s =? 0)%nat || logReaderStarted s); reflexivity.
Qed.

(** The supervision on every path: the sidecar goroutines are started,
    then come steps that remove nothing and start no sidecar, then the
    removal, as far as it gets. *)
Lemma supervise_paths w config cont s :
  exists s' body td r,
    supervise w config cont s
    = (s',
       (List.map GoAdditionalContainer
          (seq 0 (length (p_AdditionalContainers (params s)))) ++ body) ++ td,
       r) /\
    Forall (fun a => is_teardown a || is_go a = false) body /\
    (td = [] /\ r = Blocked \/
     td = teardown_stuck /\ r = Blocked /\
     sidecars_end w (NoCleanup config) (ID cont) s = false \/
     td = teardown_trace w config cont /\
     sidecars_end w (NoCleanup config) (ID cont) s = true) /\
    params s' = params s /\ heap s' = heap s.
Proof.
  unfold supervise.
  erewrite bind_next by reflexivity.
  unfold defer.
  erewrite bind_next by reflexivity.
  erewrite bind_next by apply forEach_emit.
  set (st := {| params := params s; heap := heap s;
                logReaderWg := logReaderWg s + 1;
                logReaderStarted := logReaderStarted s |}).
  match goal with
  | |- context [ bind ?m ?f st ] => set (k := bind m f)
  end.
  assert (Hk : sat same_data (fun a => is_teardown a || is_go a = false) k).
  { unfold k, ContainerStart, ContainerLogs, goLogReader, waitPhase.
    apply sat_bind; [sat_side|sat_tac|]. intros _.
    apply sat_bind; [sat_side|sat_tac|]. intros [err|]; [sat_tac|].
    apply sat_bind; [sat_side|sat_tac|]. intros [err|]; [sat_tac|].
    apply sat_bind; [sat_side| |].
    { intros s0. simpl. split; [now split|]. repeat constructor. }
    intros _. sat_tac. }
  destruct (Hk st) as [[Hp Hh] Hbody].
  destruct (k st) as [[sb tb] rb].
  clear Hk. unfold st in *. clear k st.
  cbn [fst snd params heap] in *.
  rewrite teardown_cases.
  rewrite (sidecars_end_same_data w (NoCleanup config) (ID cont) s sb (conj Hp Hh)).
  destruct rb as [[]|e| |];
    [ destruct (sidecars_end w (NoCleanup config) (ID cont) s) eqn:Hend;
      [destruct ((logReaderWg sb =? 0)%nat || logReaderStarted sb)|];
      cbn [andb app];
      match goal with
      | |- exists _ _ _ _, (_, (_ ++ ?td), ?r) = _ /\ _ => exists sb, tb, td, r
      end; (split; [reflexivity|]); (split; [assumption|]);
      (split; [auto|]); split; assumption .. | ].
  exists sb, tb, [], Blocked. cbn [app]. rewrite !app_nil_r.
  split; [reflexivity|]. split; [assumption|]. split; [auto|]. split; assumption.
Qed.

Lemma supervise_cases w config cont s :
  exists s' body td r,
    supervise w config cont s
    = (s',
       (List.map GoAdditionalContainer
          (seq 0 (length (p_AdditionalContainers (params s)))) ++ body) ++ td,
       r) /\
    Forall (fun a => is_teardown a || is_go a = false) body /\
    (td = [] /\ r = Blocked \/
     td = teardown_stuck /\ r = Blocked \/
     td = teardown_trace w config cont) /\
    params s' = params s /\ heap s' = heap s.
Proof.
  destruct (supervise_paths w config cont s)
    as (s' & body & td & r & E & Hb & Htd & Hp & Hh).
  exists s', body, td, r. repeat split; try assumption.
  destruct Htd as [H|[[H1 [H2 _]]|[H _]]]; auto.
Qed.

End Shapes.

(** ** Nil pointers among the additional containers *)

(** The clamping loop stops at the first nil pointer; what it has written
    through the pointers before stays written. *)
Lemma clamp_loop_panics info ls s :
  (exists l, l ∈ ls /\ heap s !! l = None) ->
  exists s',
    forEach ls
      (fun l =>
         additionalContainer <- load l ;;
         store l (with_ac_Cpu (clampCPU (ac_Cpu additionalContainer) (availableCPU info))
                              additionalContainer) ;;
         additionalContainer <- load l ;;
         store l (with_ac_Memory
                    (clampMemory (ac_Memory additionalContainer) (availableMemory info))
                    additionalContainer)) s
    = (s', [], Panic) /\
    params s' = params s.
Proof.
  match goal with
  | |- context [ forEach ls ?b ] => set (body := b)
  end.
  assert (Hstep : forall l ac s0, heap s0 !! l = Some ac ->
            body l s0
            = ({| params := params s0; heap := <[l := clampAC info ac]> (heap s0);
                  logReaderWg := logReaderWg s0;
                  logReaderStarted := logReaderStarted s0 |}, [], Next tt)).
  { intros l ac s0 Hac.
    pose proof (clamp_loop_run info [l] s0) as E. fold body in E.
    cbn [forEach] in E. unfold bind at 1 in E.
    destruct (body l s0) as [[s1 t1] [[]| | |]];
      try (specialize (E ltac:(intros l' Hl'; apply list_elem_of_singleton in Hl';
                               subst; eauto)); discriminate E).
    specialize (E ltac:(intros l' Hl'; apply list_elem_of_singleton in Hl';
                        subst; eauto)).
    cbn in E. rewrite app_nil_r in E. unfold clampHeap in E. cbn in E.
    rewrite Hac in E. inversion E. reflexivity. }
  assert (Hnil : forall l s0, heap s0 !! l = None -> body l s0 = (s0, [], Panic)).
  { intros l s0 Hnone. unfold body, load, bind, get. rewrite Hnone. reflexivity. }
  clearbody body.
  revert s. induction ls as [|l0 ls IH]; intros s (l & Hin & Hnone).
  - inversion Hin.
  - cbn [forEach].
    destruct (heap s !! l0) as [ac|] eqn:Hac.
    + assert (Hne : l <> l0) by congruence.
      apply elem_of_cons in Hin as [->|Hin]; [congruence|].
      erewrite bind_next by (apply Hstep; exact Hac).
      match goal with
      | |- context [ forEach ls body ?st ] =>
          destruct (IH st) as (s' & E & Hp)
      end.
      { exists l. split; [exact Hin|]. cbn.
        rewrite lookup_insert_ne by congruence. exact Hnone. }
      rewrite E. exists s'. split; [reflexivity|exact Hp].
    + exists s. split; [|reflexivity].
      unfold bind. rewrite (Hnil _ _ Hac). reflexivity.
Qed.

Lemma clampResources_panics info s :
  (exists l, l ∈ p_AdditionalContainers (params s) /\ heap s !! l = None) ->
  exists s',
    clampResources info s = (s', [], Panic) /\
    params s' = clampParams info (params s).
Proof.
  intros Hnil.
  destruct (clamp_loop_panics info (p_AdditionalContainers (params s))
              {| params := clampParams info (params s); heap := heap s;
                 logReaderWg := logReaderWg s; logReaderStarted := logReaderStarted s |}
              Hnil) as (s' & E & Hp).
  unfold clampResources.
  do 5 (erewrite bind_next by reflexivity).
  unfold clampParams, availableCPU, availableMemory in *.
  simpl in *. rewrite E. exists s'. split; [reflexivity|exact Hp].
Qed.

(** Either every listed pointer refers to an additional container, or one
    of them is nil. *)
Lemma pointers_valid_or_nil (ls : list loc) (h : gmap loc AdditionalContainer) :
  (forall l, l ∈ ls -> is_Some (h !! l)) \/ (exists l, l ∈ ls /\ h !! l = None).
Proof.
  induction ls as [|l0 ls [IH|(l & Hin & Hnone)]].
  - left. intros l Hl. inversion Hl.
  - destruct (h !! l0) as [ac|] eqn:E.
    + left. intros l Hl. apply elem_of_cons in Hl as [->|Hl]; [eauto|auto].
    + right. exists l0. split; [apply list_elem_of_here|exact E].
  - right. exists l. split; [now apply list_elem_of_further|exact Hnone].
Qed.

(** ** The creation of the main container, case by case *)

Lemma same_log_reader_refl s : same_log_reader s s.
Proof. now split. Qed.

Lemma same_log_reader_trans s1 s2 s3 :
  same_log_reader s1 s2 -> same_log_reader s2 s3 -> same_log_reader s1 s3.
Proof. intros [? ?] [? ?]. split; congruence. Qed.

#[local] Hint Resolve same_log_reader_refl same_log_reader_trans : sat.

Section Outcomes.

Variable ContainerAgentPath : ContainerPlatform -> string.
Variable ContainerAgentVolumeDir : ContainerPlatform -> string.
Variable CloudBuildNetworkName : string.
Variable filepath_Dir : string -> string.
Variable GOOS : string.
Variable CloudBuildIP : string.

(** Up to the creation of the main container the log reader is not
    touched. *)
Lemma createMainContainer_log_reader w config s :
  same_log_reader s
    (fst (fst (createMainContainer ContainerAgentPath ContainerAgentVolumeDir
                 CloudBuildNetworkName filepath_Dir GOOS CloudBuildIP w config s))).
Proof.
  assert (Hput : forall p h,
            sat same_log_reader (fun _ => True)
              (s0 <- get ;;
               put {| params := p s0; heap := h s0; logReaderWg := logReaderWg s0;
                      logReaderStarted := logReaderStarted s0 |})).
  { intros p h s0. simpl. split; [now split|constructor]. }
  assert (Hports : forall ls, sat same_log_reader (fun _ => True) (collectPorts ls)).
  { induction ls as [|l ls IH]; simpl; sat_tac. exact IH. }
  assert (H : sat same_log_reader (fun _ => True)
                (createMainContainer ContainerAgentPath ContainerAgentVolumeDir
                   CloudBuildNetworkName filepath_Dir GOOS CloudBuildIP w config)).
  { unfold createMainContainer, SystemInfoOf.
    apply sat_bind; [sat_side|sat_tac|].
    intros [info [err|]]; [sat_tac|].
    apply sat_bind; [sat_side| |].
    { unfold clampResources, setParams, store.
      apply sat_bind; [sat_side|sat_tac|]. intros s0.
      apply sat_bind; [sat_side|apply (Hput (fun _ => _) (fun s1 => heap s1))|].
      intros _.
      apply sat_bind; [sat_side|sat_tac|]. intros s1.
      apply sat_bind; [sat_side|apply (Hput (fun _ => _) (fun s2 => heap s2))|].
      intros _.
      apply sat_bind; [sat_side|sat_tac|]. intros s2.
      apply sat_forEach; [sat_side|sat_side|]. intros l.
      apply sat_bind; [sat_side|sat_tac|]. intros ac.
      apply sat_bind;
        [sat_side
        |apply (Hput (fun s3 => params s3) (fun s3 => <[l := _]> (heap s3)))|].
      intros _.
      apply sat_bind; [sat_side|sat_tac|]. intros ac'.
      apply (Hput (fun s3 => params s3) (fun s3 => <[l := _]> (heap s3))). }
    intros _.
    apply sat_bind; [sat_side|sat_tac|]. intros s0.
    apply sat_bind; [sat_side|unfold pullHelper, ImagePull; sat_tac|].
    intros [err|]; [sat_tac|].
    apply sat_bind; [sat_side|sat_tac|]. intros _.
    apply sat_bind; [sat_side| |].
    { unfold createInput.
      apply sat_bind; [sat_side|sat_tac|]. intros s1.
      destruct (_ <? _)%nat.
      - apply sat_bind; [sat_side|apply Hports|]. intros ports. sat_tac.
      - sat_tac. }
    intros input. unfold ContainerCreate. sat_tac. }
  apply H.
Qed.

(** The creation when the image of the main container cannot be pulled. *)
Lemma createMainContainer_pull_fails w config s info e :
  on_SystemInfo (backend w) = (info, None) ->
  (forall l, l ∈ p_AdditionalContainers (params s) -> is_Some (heap s !! l)) ->
  pull_result (backend w) (p_Image (params s)) = Some e ->
  createMainContainer ContainerAgentPath ContainerAgentVolumeDir
    CloudBuildNetworkName filepath_Dir GOOS CloudBuildIP w config s
  = ({| params := clampParams info (params s);
        heap := clampHeap info (p_AdditionalContainers (params s)) (heap s);
        logReaderWg := logReaderWg s; logReaderStarted := logReaderStarted s |},
     CallSystemInfo :: pull_trace (backend w) (p_Image (params s)),
     Return (Some e)).
Proof.
  intros Hinfo Hall Hpull.
  unfold createMainContainer.
  erewrite bind_next by apply SystemInfoOf_run.
  rewrite Hinfo.
  erewrite bind_next by (apply clampResources_run; exact Hall).
  erewrite bind_next by reflexivity.
  erewrite bind_next by apply pullHelper_run.
  cbn [params clampParams with_Memory with_CPU p_Image].
  rewrite Hpull. cbn. rewrite app_nil_r. reflexivity.
Qed.

(** The creation when one of the pointers is nil. *)
Lemma createMainContainer_panics w config s info :
  on_SystemInfo (backend w) = (info, None) ->
  (exists l, l ∈ p_AdditionalContainers (params s) /\ heap s !! l = None) ->
  exists s',
    createMainContainer ContainerAgentPath ContainerAgentVolumeDir
      CloudBuildNetworkName filepath_Dir GOOS CloudBuildIP w config s
    = (s', [CallSystemInfo], Panic) /\
    params s' = clampParams info (params s).
Proof.
  intros Hinfo Hnil.
  destruct (clampResources_panics info s Hnil) as (s' & E & Hp).
  exists s'. split; [|exact Hp].
  unfold createMainContainer.
  erewrite bind_next by apply SystemInfoOf_run.
  rewrite Hinfo. unfold bind. rewrite E. reflexivity.
Qed.

(** The creation when the capacity query fails. *)
Lemma createMainContainer_no_info w config s info err :
  on_SystemInfo (backend w) = (info, Some err) ->
  createMainContainer ContainerAgentPath ContainerAgentVolumeDir
    CloudBuildNetworkName filepath_Dir GOOS CloudBuildIP w config s
  = (s, [CallSystemInfo], Return (Some err)).
Proof.
  intros Hinfo. unfold createMainContainer.
  erewrite bind_next by apply SystemInfoOf_run.
  rewrite Hinfo. reflexivity.
Qed.

(** The creation ends in one of three ways: with the container, with an
    error, or in a panic. *)
Lemma createMainContainer_flow w config s :
  let r := snd (createMainContainer ContainerAgentPath ContainerAgentVolumeDir
                  CloudBuildNetworkName filepath_Dir GOOS CloudBuildIP w config s) in
  (exists cont, r = Next cont) \/ r = Panic \/ (exists e, r = Return (Some e)).
Proof.
  destruct (on_SystemInfo (backend w)) as [info [err|]] eqn:Hinfo.
  { rewrite (createMainContainer_no_info w config s info err Hinfo). eauto. }
  destruct (pointers_valid_or_nil (p_AdditionalContainers (params s)) (heap s))
    as [Hall|Hnil].
  - destruct (pull_result (backend w) (p_Image (params s))) as [e|] eqn:Hpull.
    + rewrite (createMainContainer_pull_fails w config s info e Hinfo Hall Hpull). eauto.
    + destruct (createMainContainer_run ContainerAgentPath ContainerAgentVolumeDir
                  CloudBuildNetworkName filepath_Dir GOOS CloudBuildIP
                  w config s info Hinfo Hall Hpull) as (input & s1 & E & _).
      rewrite E. cbn [snd].
      destruct (on_ContainerCreate (backend w) input) as [cont [err|]]; eauto.
  - destruct (createMainContainer_panics w config s info Hinfo Hnil) as (s' & E & _).
    rewrite E. auto.
Qed.

(** The creation never changes the list of additional containers. *)
Lemma createMainContainer_list w config s :
  p_AdditionalContainers
    (params (fst (fst (createMainContainer ContainerAgentPath ContainerAgentVolumeDir
                         CloudBuildNetworkName filepath_Dir GOOS CloudBuildIP
                         w config s))))
  = p_AdditionalContainers (params s).
Proof.
  destruct (on_SystemInfo (backend w)) as [info [err|]] eqn:Hinfo.
  { now rewrite (createMainContainer_no_info w config s info err Hinfo). }
  destruct (pointers_valid_or_nil (p_AdditionalContainers (params s)) (heap s))
    as [Hall|Hnil].
  - destruct (createMainContainer_clamped ContainerAgentPath ContainerAgentVolumeDir
                CloudBuildNetworkName filepath_Dir GOOS CloudBuildIP
                w config s info Hinfo Hall) as (s1 & t1 & r1 & E & Hp & _).
    rewrite E. cbn [fst]. now rewrite Hp.
  - destruct (createMainContainer_panics w config s info Hinfo Hnil) as (s' & E & Hp).
    rewrite E. cbn [fst]. now rewrite Hp.
Qed.

End Outcomes.

(** ** Whole runs *)

Lemma creation_action_plain t :
  Forall (fun a => creation_action a = true) t ->
  Forall (fun a => is_teardown a || is_go a = false) t.
Proof.
  apply Forall_weaken. intros a H. destruct a; try discriminate H; reflexivity.
Qed.

Lemma plain_no_delete t :
  Forall (fun a => is_teardown a || is_go a = false) t ->
  Forall (fun a => is_delete a = false) t.
Proof.
  apply Forall_weaken. intros a H. destruct a; try discriminate H; reflexivity.
Qed.

Lemma plain_no_go t :
  Forall (fun a => is_teardown a || is_go a = false) t ->
  Forall (fun a => is_go a = false) t.
Proof.
  apply Forall_weaken. intros a H. destruct a; try discriminate H; reflexivity.
Qed.

Lemma plain_no_teardown t :
  Forall (fun a => is_teardown a || is_go a = false) t ->
  Forall (fun a => is_teardown a = false) t.
Proof.
  apply Forall_weaken. intros a H. destruct a; try discriminate H; reflexivity.
Qed.

Lemma go_trace_plain n :
  Forall (fun a => is_teardown a = false)
    (List.map GoAdditionalContainer (seq 0 n)).
Proof.
  apply Forall_forall. intros a Ha.
  apply list_elem_of_In, in_map_iff in Ha as (i & <- & _). reflexivity.
Qed.

Lemma filter_go_trace n :
  List.filter is_go (List.map GoAdditionalContainer (seq 0 n))
  = List.map GoAdditionalContainer (seq 0 n).
Proof.
  apply filter_all. intros a Ha. apply in_map_iff in Ha as (i & <- & _). reflexivity.
Qed.

Lemma teardown_trace_no_go w config cont :
  Forall (fun a => is_go a = false) (teardown_trace w config cont).
Proof.
  unfold teardown_trace.
  destruct (NoCleanup config); [repeat constructor|].
  destruct (on_ContainerDelete (backend w) (ID cont)); repeat constructor.
Qed.

Lemma deletions_teardown_trace w config cont :
  deletions (teardown_trace w config cont) = if NoCleanup config then 0%nat else 1%nat.
Proof.
  unfold teardown_trace.
  destruct (NoCleanup config); [reflexivity|].
  destruct (on_ContainerDelete (backend w) (ID cont)); reflexivity.
Qed.

Lemma teardown_trace_deletes w config cont id :
  In (CallContainerDelete id) (teardown_trace w config cont) ->
  NoCleanup config = false /\ id = ID cont.
Proof.
  unfold teardown_trace.
  destruct (NoCleanup config); simpl.
  - intros [H|[H|[H|[H|[H|[H|[]]]]]]]; discriminate H.
  - destruct (on_ContainerDelete (backend w) (ID cont)); simpl; intros H;
      repeat match goal with
      | H : _ \/ _ |- _ => destruct H as [H'|H]; [try discriminate H'|]
      | H : False |- _ => destruct H
      end;
      inversion H'; auto.
Qed.

Lemma Forall_filter_nil {A} (f : A -> bool) (l : list A) :
  Forall (fun a => f a = false) l -> List.filter f l = [].
Proof.
  intros H. apply filter_none. intros x Hx.
  rewrite Forall_forall in H. apply H. now apply list_elem_of_In.
Qed.

Section WholeRuns.

Variable ContainerAgentPath : ContainerPlatform -> string.
Variable ContainerAgentVolumeDir : ContainerPlatform -> string.
Variable CloudBuildNetworkName : string.
Variable filepath_Dir : string -> string.
Variable GOOS : string.
Variable CloudBuildIP : string.

(** A run in which the main container is created, on every path. *)
Lemma RunContainerizedAgent_created w config s s1 t1 cont :
  createMainContainer ContainerAgentPath ContainerAgentVolumeDir
    CloudBuildNetworkName filepath_Dir GOOS CloudBuildIP w config s
  = (s1, t1, Next cont) ->
  exists s' body td r,
    RunContainerizedAgent ContainerAgentPath ContainerAgentVolumeDir
      CloudBuildNetworkName filepath_Dir GOOS CloudBuildIP w config s
    = (s',
       (t1 ++ List.map GoAdditionalContainer
                (seq 0 (length (p_AdditionalContainers (params s)))) ++ body) ++ td,
       r) /\
    Forall (fun a => is_teardown a || is_go a = false) t1 /\
    Forall (fun a => is_teardown a || is_go a = false) body /\
    (td = [] /\ r = Blocked \/
     td = teardown_stuck /\ r = Blocked \/
     td = teardown_trace w config cont).
Proof.
  intros E.
  pose proof (createMainContainer_actions ContainerAgentPath ContainerAgentVolumeDir
                CloudBuildNetworkName filepath_Dir GOOS CloudBuildIP w config s) as Ht1.
  pose proof (createMainContainer_list ContainerAgentPath ContainerAgentVolumeDir
                CloudBuildNetworkName filepath_Dir GOOS CloudBuildIP w config s) as Hl.
  rewrite E in Ht1, Hl. cbn [fst snd] in Ht1, Hl.
  destruct (supervise_cases w config cont s1) as (s' & body & td & r & Es & Hb & Htd & _).
  unfold RunContainerizedAgent.
  rewrite (bind_next _ _ _ _ _ _ E), Es, Hl.
  exists s', body, td, r.
  split; [now rewrite <- !app_assoc|].
  split; [now apply creation_action_plain|].
  split; assumption.
Qed.

(** A run in which the main container is not created ends where the
    creation ends. *)
Lemma RunContainerizedAgent_not_created w config s :
  (forall cont,
      snd (createMainContainer ContainerAgentPath ContainerAgentVolumeDir
             CloudBuildNetworkName filepath_Dir GOOS CloudBuildIP w config s)
      <> Next cont) ->
  let run := RunContainerizedAgent ContainerAgentPath ContainerAgentVolumeDir
               CloudBuildNetworkName filepath_Dir GOOS CloudBuildIP w config s in
  Forall (fun a => creation_action a = true) (snd (fst run)) /\
  (snd run = Panic \/ exists e, snd run = Return (Some e)).
Proof.
  intros Hno.
  pose proof (createMainContainer_actions ContainerAgentPath ContainerAgentVolumeDir
                CloudBuildNetworkName filepath_Dir GOOS CloudBuildIP w config s) as Ht1.
  pose proof (createMainContainer_flow ContainerAgentPath ContainerAgentVolumeDir
                CloudBuildNetworkName filepath_Dir GOOS CloudBuildIP w config s) as Hr.
  unfold RunContainerizedAgent, bind.
  destruct (createMainContainer _ _ _ _ _ _ w config s) as [[s1 t1] r1].
  cbn [fst snd] in *.
  destruct Hr as [[cont ->]|[->|[e ->]]].
  - now destruct (Hno cont).
  - split; [exact Ht1|now left].
  - split; [exact Ht1|right; now exists e].
Qed.

End WholeRuns.

(** ** The supervision without a log reader *)

(** When the main container cannot be started, or its logs cannot be
    followed, the supervision goes to the removal, which never gets past
    its last wait, or past the wait for a sidecar that never ends. *)
Lemma supervise_no_log_reader w config cont s err :
  on_ContainerStart (backend w) (ID cont) = Some err \/
  on_ContainerLogs (backend w) (ID cont) = Some err ->
  logReaderStarted s = false ->
  exists s' body,
    supervise w config cont s
    = (s',
       body ++ (if sidecars_end w (NoCleanup config) (ID cont) s
                then teardown_trace w config cont else teardown_stuck),
       Blocked) /\
    Forall (fun a => is_teardown a = false) body.
Proof.
  intros Hfail Hlog.
  set (s' := {| params := params s; heap := heap s;
                logReaderWg := logReaderWg s + 1; logReaderStarted := false |}).
  assert (Hsame : same_data s s') by (split; reflexivity).
  assert (Hwg : (logReaderWg s + 1 =? 0)%nat = false) by (apply Nat.eqb_neq; lia).
  assert (Htd : teardown w config cont s'
                = (s', if sidecars_end w (NoCleanup config) (ID cont) s
                       then teardown_trace w config cont else teardown_stuck,
                   Blocked)).
  { rewrite teardown_cases, (sidecars_end_same_data _ _ _ _ _ Hsame).
    cbn [logReaderWg logReaderStarted s']. rewrite Hwg.
    now destruct (sidecars_end w (NoCleanup config) (ID cont) s). }
  unfold supervise, logReaderWg_Add, defer, bind, get, put. simpl.
  rewrite forEach_emit.
  unfold ContainerStart, ContainerLogs, bind, emit, ret, returns. simpl.
  rewrite Hlog. fold s'.
  destruct (on_ContainerStart (backend w) (ID cont)) as [e1|] eqn:Hstart; simpl.
  - rewrite Htd. eexists _, _. split; [reflexivity|].
    apply Forall_app. split; [apply go_trace_plain|].
    repeat constructor.
  - destruct Hfail as [Hfail|Hfail]; [discriminate Hfail|].
    rewrite Hfail. simpl. rewrite Htd. eexists _, _. split; [reflexivity|].
    apply Forall_app. split; [apply go_trace_plain|].
    repeat constructor.
Qed.

(** ** Properties of whole runs *)

Section Extras.

Variable ContainerAgentPath : ContainerPlatform -> string.
Variable ContainerAgentVolumeDir : ContainerPlatform -> string.
Variable CloudBuildNetworkName : string.
Variable filepath_Dir : string -> string.
Variable GOOS : string.
Variable CloudBuildIP : string.

(** X1.  A run in which no call of [ContainerCreate] gives a container
    ends with an error or in a panic, never with nil and never waiting;
    all it has done is to query the capacity, to log, to pull the image
    and to try the creation: no goroutine and no container is started,
    nothing is deleted and there is no removal. *)
Theorem nothing_starts_without_the_main_container w config s :
  let run := RunContainerizedAgent ContainerAgentPath ContainerAgentVolumeDir
               CloudBuildNetworkName filepath_Dir GOOS CloudBuildIP w config s in
  (forall input, In (CallContainerCreate input) (snd (fst run)) ->
     exists err, snd (on_ContainerCreate (backend w) input) = Some err) ->
  Forall (fun a => creation_action a = true) (snd (fst run)) /\
  (snd run = Panic \/ exists e, snd run = Return (Some e)).
Proof.
  intros run Hno.
  apply RunContainerizedAgent_not_created.
  intros cont Hr.
  destruct (createMainContainer ContainerAgentPath ContainerAgentVolumeDir
              CloudBuildNetworkName filepath_Dir GOOS CloudBuildIP w config s)
    as [[s1 t1] r1] eqn:E.
  cbn [snd] in Hr. subst r1.
  destruct (createMainContainer_next _ _ _ _ _ _ _ _ _ _ _ _ E)
    as (input & t0 & -> & Hc).
  destruct (RunContainerizedAgent_created _ _ _ _ _ _ _ _ _ _ _ _ E)
    as (s' & body & td & r & Er & _).
  destruct (Hno input) as [err Herr].
  - unfold run. rewrite Er. cbn [fst snd].
    rewrite <- !app_assoc. apply in_or_app. right. now left.
  - rewrite Hc in Herr. discriminate Herr.
Qed.

(** X2.  A sidecar goroutine is started only after a call of
    [ContainerCreate] has given the main container; when it has, one
    goroutine is started for each additional container of [params], in
    their order, and otherwise none. *)
Theorem sidecar_goroutines_follow_creation w config s :
  let run := RunContainerizedAgent ContainerAgentPath ContainerAgentVolumeDir
               CloudBuildNetworkName filepath_Dir GOOS CloudBuildIP w config s in
  (forall pre i post,
      snd (fst run) = pre ++ GoAdditionalContainer i :: post ->
      exists input cont,
        In (CallContainerCreate input) pre /\
        on_ContainerCreate (backend w) input = (cont, None)) /\
  List.filter is_go (snd (fst run)) =
    match snd (createMainContainer ContainerAgentPath ContainerAgentVolumeDir
                 CloudBuildNetworkName filepath_Dir GOOS CloudBuildIP w config s) with
    | Next _ => List.map GoAdditionalContainer
                  (seq 0 (length (p_AdditionalContainers (params s))))
    | _ => []
    end.
Proof.
  intros run.
  destruct (createMainContainer ContainerAgentPath ContainerAgentVolumeDir
              CloudBuildNetworkName filepath_Dir GOOS CloudBuildIP w config s)
    as [[s1 t1] r1] eqn:E.
  assert (Hnot : (forall cont, r1 <> Next cont) ->
                 Forall (fun a => is_go a = false) (snd (fst run))).
  { intros Hno.
    destruct (RunContainerizedAgent_not_created ContainerAgentPath
                ContainerAgentVolumeDir CloudBuildNetworkName filepath_Dir GOOS
                CloudBuildIP w config s) as [Hall _].
    { rewrite E. exact Hno. }
    apply plain_no_go, creation_action_plain, Hall. }
  destruct r1 as [cont| | |].
  - destruct (createMainContainer_next _ _ _ _ _ _ _ _ _ _ _ _ E)
      as (input & t0 & Ht1 & Hc).
    destruct (RunContainerizedAgent_created _ _ _ _ _ _ _ _ _ _ _ _ E)
      as (s' & body & td & r & Er & Hp1 & Hpb & Htd).
    unfold run. rewrite Er. cbn [fst snd]. split.
    + intros pre i post Hsplit.
      rewrite <- app_assoc in Hsplit.
      destruct (split_after _ _ _ _ _ Hsplit) as (pre' & -> & _).
      { intros Hin. apply plain_no_go in Hp1.
        rewrite Forall_forall in Hp1.
        specialize (Hp1 _ (proj2 (list_elem_of_In _ _) Hin)). discriminate Hp1. }
      exists input, cont. split; [|exact Hc].
      apply in_or_app. left. rewrite Ht1. apply in_or_app. right. now left.
    + rewrite !List.filter_app, filter_go_trace.
      rewrite (Forall_filter_nil _ _ (plain_no_go _ Hp1)).
      rewrite (Forall_filter_nil _ _ (plain_no_go _ Hpb)).
      assert (Hno : List.filter is_go td = []).
      { destruct Htd as [[-> _]|[[-> _]| ->]]; try reflexivity.
        apply Forall_filter_nil, teardown_trace_no_go. }
      rewrite Hno, !app_nil_r. reflexivity.
  - specialize (Hnot ltac:(discriminate)). split.
    + intros pre i post Hsplit. rewrite Hsplit in Hnot.
      apply Forall_app in Hnot as [_ Hnot]. inversion Hnot; discriminate.
    + cbn [snd]. now apply Forall_filter_nil.
  - specialize (Hnot ltac:(discriminate)). split.
    + intros pre i post Hsplit. rewrite Hsplit in Hnot.
      apply Forall_app in Hnot as [_ Hnot]. inversion Hnot; discriminate.
    + cbn [snd]. now apply Forall_filter_nil.
  - specialize (Hnot ltac:(discriminate)). split.
    + intros pre i post Hsplit. rewrite Hsplit in Hnot.
      apply Forall_app in Hnot as [_ Hnot]. inversion Hnot; discriminate.
    + cbn [snd]. now apply Forall_filter_nil.
Qed.

(** X3.  The errors on the way to the main container.  An error of the
    capacity query is returned as it is, before anything else is done.
    When the image of the main container must be pulled and the pull
    fails, the run logs the failure and returns an error that wraps
    [ErrAdditionalContainerFailed], although no additional container is
    involved; the quotas have been clamped by then.  An error of
    [ContainerCreate] is returned as it is, and the call is the last thing
    the run does: the run makes one call of [ContainerCreate], after the
    capacity query, the pull and a log line, and when the backend answers
    that call with an error, nothing follows it. *)
Theorem errors_before_the_main_container w config s :
  (forall info err,
      on_SystemInfo (backend w) = (info, Some err) ->
      RunContainerizedAgent ContainerAgentPath ContainerAgentVolumeDir
        CloudBuildNetworkName filepath_Dir GOOS CloudBuildIP w config s
      = (s, [CallSystemInfo], Return (Some err))) /\
  (forall info err,
      on_SystemInfo (backend w) = (info, None) ->
      (forall l, l ∈ p_AdditionalContainers (params s) -> is_Some (heap s !! l)) ->
      on_ShouldPullImage (backend w) (p_Image (params s)) = true ->
      on_ImagePull (backend w) (p_Image (params s)) = Some err ->
      exists s',
        RunContainerizedAgent ContainerAgentPath ContainerAgentVolumeDir
          CloudBuildNetworkName filepath_Dir GOOS CloudBuildIP w config s
        = (s', failed_pull_trace (p_Image (params s)) err,
           Return (Some (Wrap ErrAdditionalContainerFailed (Error err)))) /\
        params s' = clampParams info (params s)) /\
  (forall info,
      on_SystemInfo (backend w) = (info, None) ->
      (forall l, l ∈ p_AdditionalContainers (params s) -> is_Some (heap s !! l)) ->
      pull_result (backend w) (p_Image (params s)) = None ->
      exists input pre post,
        snd (fst (RunContainerizedAgent ContainerAgentPath ContainerAgentVolumeDir
                    CloudBuildNetworkName filepath_Dir GOOS CloudBuildIP w config s))
        = pre ++ CallContainerCreate input :: post /\
        pre = CallSystemInfo :: pull_trace (backend w) (p_Image (params s)) ++
              [Log Debug ("creating container using working volume " ++
                          p_WorkingVolumeName (params s))] /\
        Forall (fun a => is_create a = false) pre /\
        Forall (fun a => is_create a = false) post /\
        forall cont err,
          on_ContainerCreate (backend w) input = (cont, Some err) ->
          post = [] /\
          snd (RunContainerizedAgent ContainerAgentPath ContainerAgentVolumeDir
                 CloudBuildNetworkName filepath_Dir GOOS CloudBuildIP w config s)
          = Return (Some err)).
Proof.
  split; [|split].
  - intros info err Hinfo. unfold RunContainerizedAgent, bind.
    now rewrite (createMainContainer_no_info _ _ _ _ _ _ w config s info err Hinfo).
  - intros info err Hinfo Hall Hshould Hpull.
    assert (Hres : pull_result (backend w) (p_Image (params s))
                   = Some (Wrap ErrAdditionalContainerFailed (Error err))).
    { unfold pull_result. now rewrite Hshould, Hpull. }
    eexists. unfold RunContainerizedAgent, bind.
    rewrite (createMainContainer_pull_fails _ _ _ _ _ _ w config s info _
               Hinfo Hall Hres).
    split.
    + unfold pull_trace, failed_pull_trace. rewrite Hshould, Hpull. reflexivity.
    + reflexivity.
  - intros info Hinfo Hall Hpull.
    destruct (createMainContainer_run ContainerAgentPath ContainerAgentVolumeDir
                CloudBuildNetworkName filepath_Dir GOOS CloudBuildIP
                w config s info Hinfo Hall Hpull) as (input & s1 & E & _).
    assert (Hpre : Forall (fun a => is_create a = false)
                     (CallSystemInfo :: pull_trace (backend w) (p_Image (params s)) ++
                      [Log Debug ("creating container using working volume " ++
                                  p_WorkingVolumeName (params s))])).
    { constructor; [reflexivity|]. apply Forall_app. split.
      - apply pull_trace_plain.
      - repeat constructor. }
    unfold RunContainerizedAgent, bind. rewrite E.
    destruct (on_ContainerCreate (backend w) input) as [cont0 [err0|]] eqn:Hc0.
    + match type of Hpre with Forall _ ?l => exists input, l, [] end.
      cbn [fst snd].
      split; [reflexivity|]. split; [reflexivity|]. split; [exact Hpre|].
      split; [constructor|].
      intros cont err Hc. rewrite Hc0 in Hc. inversion Hc; subst.
      split; reflexivity.
    + destruct (sat_supervise (fun _ _ => True) (fun a => is_create a = false)
                  (fun _ => I) (fun _ _ _ _ _ => I) (fun _ _ _ => I)
                  (fun _ _ H => H) w config cont0 s1) as [_ Hpost].
      destruct (supervise w config cont0 s1) as [[s2 t2] r2]. cbn [fst snd] in *.
      match type of Hpre with Forall _ ?l => exists input, l, t2 end.
      split; [now rewrite <- app_assoc|]. split; [reflexivity|]. split; [exact Hpre|].
      split; [exact Hpost|].
      intros cont err Hc. rewrite Hc0 in Hc. discriminate Hc.
Qed.

(** X4.  When the main container has been created and then cannot be
    started, or its logs cannot be followed, the run never returns, so
    that the caller never sees the error: the removal is gone through, but
    its last step waits for a log reader that was counted and never
    started; if a sidecar never ends, it waits for that one. *)
Theorem failed_start_never_returns w config s s1 t1 cont err :
  createMainContainer ContainerAgentPath ContainerAgentVolumeDir
    CloudBuildNetworkName filepath_Dir GOOS CloudBuildIP w config s
  = (s1, t1, Next cont) ->
  on_ContainerStart (backend w) (ID cont) = Some err \/
  on_ContainerLogs (backend w) (ID cont) = Some err ->
  logReaderStarted s = false ->
  let run := RunContainerizedAgent ContainerAgentPath ContainerAgentVolumeDir
               CloudBuildNetworkName filepath_Dir GOOS CloudBuildIP w config s in
  snd run = Blocked /\
  exists body,
    snd (fst run)
    = (t1 ++ body) ++
      (if sidecars_end w (NoCleanup config) (ID cont) s1
       then teardown_trace w config cont else teardown_stuck) /\
    Forall (fun a => is_teardown a = false) (t1 ++ body).
Proof.
  intros E Hfail Hlog run.
  pose proof (createMainContainer_log_reader ContainerAgentPath ContainerAgentVolumeDir
                CloudBuildNetworkName filepath_Dir GOOS CloudBuildIP w config s)
    as [_ Hs1].
  pose proof (createMainContainer_no_teardown ContainerAgentPath ContainerAgentVolumeDir
                CloudBuildNetworkName filepath_Dir GOOS CloudBuildIP w config s) as Ht1.
  rewrite E in Hs1, Ht1. cbn [fst snd] in Hs1, Ht1. rewrite Hlog in Hs1.
  destruct (supervise_no_log_reader w config cont s1 err Hfail Hs1)
    as (s' & body & Es & Hbody).
  unfold run, RunContainerizedAgent.
  rewrite (bind_next _ _ _ _ _ _ E), Es. cbn [fst snd].
  split; [reflexivity|].
  exists body. split; [now rewrite app_assoc|].
  apply Forall_app. now split.
Qed.

(** X5.  The main container is deleted at most once in a run, and only a
    container that a call of [ContainerCreate] of this run has given;
    under the no-cleanup policy nothing is deleted, and without it a run
    that returns after the creation has deleted the main container. *)
Theorem main_container_is_deleted_at_most_once w config s :
  let run := RunContainerizedAgent ContainerAgentPath ContainerAgentVolumeDir
               CloudBuildNetworkName filepath_Dir GOOS CloudBuildIP w config s in
  (deletions (snd (fst run)) <= 1)%nat /\
  (NoCleanup config = true -> deletions (snd (fst run)) = 0%nat) /\
  (forall id,
      In (CallContainerDelete id) (snd (fst run)) ->
      exists input cont,
        In (CallContainerCreate input) (snd (fst run)) /\
        on_ContainerCreate (backend w) input = (cont, None) /\
        id = ID cont) /\
  (forall s1 t1 cont e,
      createMainContainer ContainerAgentPath ContainerAgentVolumeDir
        CloudBuildNetworkName filepath_Dir GOOS CloudBuildIP w config s
      = (s1, t1, Next cont) ->
      snd run = Return e ->
      NoCleanup config = false ->
      deletions (snd (fst run)) = 1%nat).
Proof.
  intros run.
  destruct (createMainContainer ContainerAgentPath ContainerAgentVolumeDir
              CloudBuildNetworkName filepath_Dir GOOS CloudBuildIP w config s)
    as [[s1 t1] r1] eqn:E.
  assert (Hnot : (forall cont, r1 <> Next cont) ->
                 Forall (fun a => is_delete a = false) (snd (fst run))).
  { intros Hno.
    destruct (RunContainerizedAgent_not_created ContainerAgentPath
                ContainerAgentVolumeDir CloudBuildNetworkName filepath_Dir GOOS
                CloudBuildIP w config s) as [Hall _].
    { rewrite E. exact Hno. }
    apply plain_no_delete, creation_action_plain, Hall. }
  assert (Hquiet : Forall (fun a => is_delete a = false) (snd (fst run)) ->
            (deletions (snd (fst run)) <= 1)%nat /\
            (NoCleanup config = true -> deletions (snd (fst run)) = 0%nat) /\
            (forall id,
                In (CallContainerDelete id) (snd (fst run)) ->
                exists input cont,
                  In (CallContainerCreate input) (snd (fst run)) /\
                  on_ContainerCreate (backend w) input = (cont, None) /\
                  id = ID cont)).
  { intros Hall. rewrite (deletions_none _ Hall).
    split; [lia|]. split; [reflexivity|].
    intros id Hin. rewrite Forall_forall in Hall.
    specialize (Hall _ (proj2 (list_elem_of_In _ _) Hin)). discriminate Hall. }
  destruct r1 as [cont| | |];
    try (destruct (Hquiet (Hnot ltac:(discriminate))) as (H1 & H2 & H3);
         repeat split; try assumption; intros; discriminate).
  clear Hnot Hquiet.
  destruct (createMainContainer_next _ _ _ _ _ _ _ _ _ _ _ _ E)
    as (input & t0 & Ht1 & Hc).
  destruct (RunContainerizedAgent_created _ _ _ _ _ _ _ _ _ _ _ _ E)
    as (s' & body & td & r & Er & Hp1 & Hpb & Htd).
  assert (Hcount : deletions (snd (fst run)) = deletions td).
  { unfold run. rewrite Er. cbn [fst snd].
    rewrite !deletions_app.
    rewrite (deletions_none _ (plain_no_delete _ Hp1)).
    rewrite (deletions_none _ (plain_no_delete _ Hpb)).
    rewrite (deletions_none (List.map _ _)); [reflexivity|].
    apply Forall_forall. intros a Ha.
    apply list_elem_of_In, in_map_iff in Ha as (i & <- & _). reflexivity. }
  assert (Hr : snd run = r) by (unfold run; now rewrite Er).
  rewrite Hcount, Hr.
  split; [|split; [|split]].
  - destruct Htd as [[-> _]|[[-> _]| ->]]; try (cbn; lia).
    rewrite deletions_teardown_trace. destruct (NoCleanup config); lia.
  - intros Hnc. destruct Htd as [[-> _]|[[-> _]| ->]]; try reflexivity.
    rewrite deletions_teardown_trace, Hnc. reflexivity.
  - intros id Hin. unfold run in Hin |- *. rewrite Er in Hin |- *.
    cbn [fst snd] in Hin |- *.
    exists input, cont.
    split; [|split; [exact Hc|]].
    + rewrite Ht1, <- !app_assoc. apply in_or_app. right. now left.
    + assert (Hplain : forall t, Forall (fun a => is_delete a = false) t ->
                ~ In (CallContainerDelete id) t).
      { intros t Ht Hi. rewrite Forall_forall in Ht.
        specialize (Ht _ (proj2 (list_elem_of_In _ _) Hi)). discriminate Ht. }
      apply in_app_or in Hin as [Hin|Hin].
      * exfalso.
        apply in_app_or in Hin as [Hin|Hin];
          [now apply (Hplain _ (plain_no_delete _ Hp1))|].
        apply in_app_or in Hin as [Hin|Hin];
          [|now apply (Hplain _ (plain_no_delete _ Hpb))].
        apply in_map_iff in Hin as (i & Hi & _). discriminate Hi.
      * destruct Htd as [[-> _]|[[-> _]| ->]].
        -- destruct Hin.
        -- destruct Hin as [H|[H|[]]]; discriminate H.
        -- now apply teardown_trace_deletes in Hin.
  - intros s1' t1' cont' e _ Hret Hnc.
    destruct Htd as [[_ ->]|[[_ ->]| ->]]; try discriminate Hret.
    rewrite deletions_teardown_trace, Hnc. reflexivity.
Qed.

(** X6.  However a run comes to return once the main container exists, it
    has gone through the whole removal by then, as its last steps and in
    the order of the deferred function, and through none of it before. *)
Theorem a_run_returns_after_the_removal w config s s1 t1 cont e :
  createMainContainer ContainerAgentPath ContainerAgentVolumeDir
    CloudBuildNetworkName filepath_Dir GOOS CloudBuildIP w config s
  = (s1, t1, Next cont) ->
  let run := RunContainerizedAgent ContainerAgentPath ContainerAgentVolumeDir
               CloudBuildNetworkName filepath_Dir GOOS CloudBuildIP w config s in
  snd run = Return e ->
  exists body,
    snd (fst run) = (t1 ++ body) ++ teardown_trace w config cont /\
    Forall (fun a => is_teardown a = false) (t1 ++ body).
Proof.
  intros E run Hret.
  destruct (RunContainerizedAgent_created _ _ _ _ _ _ _ _ _ _ _ _ E)
    as (s' & body & td & r & Er & Hp1 & Hpb & Htd).
  unfold run in *. rewrite Er in *. cbn [fst snd] in *.
  destruct Htd as [[_ ->]|[[_ ->]| ->]]; try discriminate Hret.
  exists (List.map GoAdditionalContainer
            (seq 0 (length (p_AdditionalContainers (params s)))) ++ body).
  split; [reflexivity|].
  apply Forall_app. split; [now apply plain_no_teardown|].
  apply Forall_app. split; [apply go_trace_plain|now apply plain_no_teardown].
Qed.

(** X7.  A nil pointer among the additional containers makes the run
    panic in the clamping loop, right after the capacity query: no image
    is pulled and no container is created.  The quotas of [params] have
    been clamped by then. *)
Theorem nil_additional_container_panics w config s info :
  on_SystemInfo (backend w) = (info, None) ->
  (exists l, l ∈ p_AdditionalContainers (params s) /\ heap s !! l = None) ->
  exists s',
    RunContainerizedAgent ContainerAgentPath ContainerAgentVolumeDir
      CloudBuildNetworkName filepath_Dir GOOS CloudBuildIP w config s
    = (s', [CallSystemInfo], Panic) /\
    params s' = clampParams info (params s).
Proof.
  intros Hinfo Hnil.
  destruct (createMainContainer_panics ContainerAgentPath ContainerAgentVolumeDir
              CloudBuildNetworkName filepath_Dir GOOS CloudBuildIP
              w config s info Hinfo Hnil) as (s' & E & Hp).
  exists s'. split; [|exact Hp].
  unfold RunContainerizedAgent, bind. now rewrite E.
Qed.

End Extras.

(** ** The properties, tried *)

(** The backend cannot create the main container: the run returns its
    error and has started nothing. *)
Lemma nothing_starts_without_the_main_container_witness :
  Forall (fun a => creation_action a = true) (snd (fst (example_run full_world))) /\
  snd (example_run full_world) = Return (Some (Foreign "no space left on device")).
Proof.
  destruct (nothing_starts_without_the_main_container
              (fun _ => "/tmp/cirrus-ci-agent/cirrus-ci-agent")
              (fun _ => "/tmp/cirrus-ci-agent") "cloudbuild" (fun path => path)
              "linux" "" full_world example_config example_state) as [Hall _].
  - intros input _. exists (Foreign "no space left on device"). reflexivity.
  - split; [exact Hall|reflexivity].
Defined.

(** The first sidecar goroutine of the example is the fourth step of the
    run; the creation of the main container is among the three before. *)
Lemma sidecar_goroutines_follow_creation_witness :
  exists input cont,
    In (CallContainerCreate input) (firstn 3 (snd (fst (example_run example_world)))) /\
    on_ContainerCreate example_backend input = (cont, None).
Proof.
  destruct (sidecar_goroutines_follow_creation
              (fun _ => "/tmp/cirrus-ci-agent/cirrus-ci-agent")
              (fun _ => "/tmp/cirrus-ci-agent") "cloudbuild" (fun path => path)
              "linux" "" example_world example_config example_state) as [H _].
  apply (H (firstn 3 (snd (fst (example_run example_world)))) 0%nat
           (skipn 4 (snd (fst (example_run example_world))))).
  reflexivity.
Defined.

Lemma dangling_pointer :
  exists l, l ∈ p_AdditionalContainers (params dangling_state) /\
            heap dangling_state !! l = None.
Proof.
  exists 2%positive. split; [|reflexivity].
  apply list_elem_of_further, list_elem_of_here.
Qed.

(** The daemon cannot be reached; the image of the main container cannot
    be pulled; the main container cannot be created. *)
Lemma errors_before_the_main_container_witness :
  example_run unreachable_world
  = (example_state, [CallSystemInfo],
     Return (Some (Foreign "cannot connect to the daemon"))) /\
  snd (example_run unpullable_world)
  = Return (Some (Wrap ErrAdditionalContainerFailed "manifest unknown")) /\
  snd (example_run full_world) = Return (Some (Foreign "no space left on device")).
Proof.
  split; [|split].
  - destruct (errors_before_the_main_container
                (fun _ => "/tmp/cirrus-ci-agent/cirrus-ci-agent")
                (fun _ => "/tmp/cirrus-ci-agent") "cloudbuild" (fun path => path)
                "linux" "" unreachable_world example_config example_state)
      as (H & _ & _).
    exact (H _ _ eq_refl).
  - destruct (errors_before_the_main_container
                (fun _ => "/tmp/cirrus-ci-agent/cirrus-ci-agent")
                (fun _ => "/tmp/cirrus-ci-agent") "cloudbuild" (fun path => path)
                "linux" "" unpullable_world example_config example_state)
      as (_ & H & _).
    destruct (H _ (Foreign "manifest unknown") eq_refl example_pointers eq_refl eq_refl)
      as (s' & E & _).
    unfold example_run. rewrite E. reflexivity.
  - destruct (errors_before_the_main_container
                (fun _ => "/tmp/cirrus-ci-agent/cirrus-ci-agent")
                (fun _ => "/tmp/cirrus-ci-agent") "cloudbuild" (fun path => path)
                "linux" "" full_world example_config example_state)
      as (_ & _ & H).
    destruct (H _ eq_refl example_pointers eq_refl) as (input & pre & post & _ & _ & _ & _ & Hin).
    exact (proj2 (Hin {| ID := "" |} (Foreign "no space left on device") eq_refl)).
Defined.

(** The main container of the example is created and cannot be started:
    the run waits for ever. *)
Lemma failed_start_never_returns_witness :
  snd (example_run unstartable_world) = Blocked.
Proof.
  destruct (failed_start_never_returns
              (fun _ => "/tmp/cirrus-ci-agent/cirrus-ci-agent")
              (fun _ => "/tmp/cirrus-ci-agent") "cloudbuild" (fun path => path)
              "linux" "" unstartable_world example_config example_state
              (fst (fst (example_created unstartable_world)))
              (snd (fst (example_created unstartable_world)))
              example_container
              (Foreign "OCI runtime create failed")
              (example_created_ok unstartable_world eq_refl)
              (or_introl eq_refl) eq_refl) as [H _].
  exact H.
Defined.

(** The run of the example deletes its main container, once. *)
Lemma main_container_is_deleted_at_most_once_witness :
  deletions (snd (fst (example_run example_world))) = 1%nat /\
  In (CallContainerDelete "id-alpine") (snd (fst (example_run example_world))).
Proof.
  destruct (main_container_is_deleted_at_most_once
              (fun _ => "/tmp/cirrus-ci-agent/cirrus-ci-agent")
              (fun _ => "/tmp/cirrus-ci-agent") "cloudbuild" (fun path => path)
              "linux" "" example_world example_config example_state)
    as (_ & _ & _ & H).
  split.
  - exact (H _ _ _ None (example_created_ok example_world eq_refl) eq_refl eq_refl).
  - vm_compute. tauto.
Defined.

(** The run of the example returns, and ends with the removal. *)
Lemma a_run_returns_after_the_removal_witness :
  exists body,
    snd (fst (example_run example_world))
    = (snd (fst (example_created example_world)) ++ body) ++
      [AdditionalContainersCancel; AdditionalContainersWGWait;
       Log Debug "cleaning up container id-alpine";
       CallContainerDelete "id-alpine";
       Log Debug "waiting for the container log reader to finish";
       CancelLogReaderCtx; LogReaderWgWait].
Proof.
  destruct (a_run_returns_after_the_removal
              (fun _ => "/tmp/cirrus-ci-agent/cirrus-ci-agent")
              (fun _ => "/tmp/cirrus-ci-agent") "cloudbuild" (fun path => path)
              "linux" "" example_world example_config example_state
              (fst (fst (example_created example_world)))
              (snd (fst (example_created example_world)))
              example_container None
              (example_created_ok example_world eq_refl) eq_refl)
    as (body & E & _).
  exists body. exact E.
Defined.

(** The second pointer of the example is nil: the run panics, with the
    memory of [params] cut down to the 2048 MiB of the host. *)
Lemma nil_additional_container_panics_witness :
  exists s',
    RunContainerizedAgent (fun _ => "/tmp/cirrus-ci-agent/cirrus-ci-agent")
      (fun _ => "/tmp/cirrus-ci-agent") "cloudbuild" (fun path => path) "linux" ""
      example_world example_config dangling_state
    = (s', [CallSystemInfo], Panic) /\
    p_Memory (params s') = 2048%N.
Proof.
  destruct (nil_additional_container_panics
              (fun _ => "/tmp/cirrus-ci-agent/cirrus-ci-agent")
              (fun _ => "/tmp/cirrus-ci-agent") "cloudbuild" (fun path => path)
              "linux" "" example_world example_config dangling_state _
              eq_refl dangling_pointer) as (s' & E & Hp).
  exists s'. split; [exact E|]. rewrite Hp. reflexivity.
Defined.

(** ** The removal of a sidecar *)

Lemma pull_trace_no_delete b reference :
  Forall (fun a => is_delete a = false) (pull_trace b reference).
Proof.
  unfold pull_trace.
  destruct (on_ShouldPullImage b reference); [|constructor].
  destruct (on_ImagePull b reference); repeat constructor.
Qed.

Lemma not_deleted t id :
  Forall (fun a => is_delete a = false) t -> ~ In (CallContainerDelete id) t.
Proof.
  intros Ht Hi. rewrite Forall_forall in Ht.
  specialize (Ht _ (proj2 (list_elem_of_In _ _) Hi)). discriminate Ht.
Qed.

(** The deletions of a sidecar goroutine, on every path. *)
Lemma runAdditionalContainer_deletions sw ac mainID noCleanup s :
  let run := runAdditionalContainer sw ac mainID noCleanup s in
  deletions (snd (fst run))
  = (if reaches_port_check sw ac mainID && negb noCleanup && ends (snd run)
     then 1%nat else 0%nat) /\
  (forall id,
      In (CallContainerDelete id) (snd (fst run)) ->
      id = ID (fst (on_ContainerCreate (sw_backend sw)
                      (additionalContainerInput ac mainID)))).
Proof.
  intros run. unfold run, runAdditionalContainer, reaches_port_check.
  erewrite bind_next by apply pullHelper_run.
  pose proof (pull_trace_no_delete (sw_backend sw) (ac_Image ac)) as Hpull.
  destruct (pull_result (sw_backend sw) (ac_Image ac)) as [e|].
  { cbn [returns fst snd]. rewrite app_nil_r, (deletions_none _ Hpull).
    split; [reflexivity|]. intros id Hin. now apply not_deleted in Hin. }
  erewrite bind_next by reflexivity.
  erewrite bind_next by reflexivity.
  destruct (on_ContainerCreate (sw_backend sw) (additionalContainerInput ac mainID))
    as [cont [err|]].
  { cbn [returns fst snd]. rewrite !deletions_app, (deletions_none _ Hpull).
    split; [reflexivity|]. intros id Hin.
    apply in_app_or in Hin as [Hin|Hin]; [now apply not_deleted in Hin|].
    simpl in Hin. destruct Hin as [H|[H|[]]]; discriminate H. }
  unfold defer.
  erewrite bind_next by apply warnAboutPorts_run.
  unfold ContainerStart, ContainerDelete, bind, emit, ret, returns, block.
  destruct (existsb _ (ac_Ports ac));
    (destruct (on_ContainerStart (sw_backend sw) (ID cont)) as [err|];
     [|destruct (sw_recv sw) as [[res|err]|]]);
    destruct noCleanup; try destruct (on_ContainerDelete (sw_backend sw) (ID cont));
    cbn [fst snd app andb negb ends];
    rewrite !deletions_app, (deletions_none _ Hpull);
    (split; [reflexivity|]);
    intros id Hin;
    (apply in_app_or in Hin as [Hin|Hin]; [now apply not_deleted in Hin|]);
    simpl in Hin;
    repeat match goal with
    | H : _ \/ _ |- _ => destruct H as [H'|H]; [try discriminate H'|]
    | H : False |- _ => destruct H
    end;
    inversion H'; reflexivity.
Qed.

(** X8.  A sidecar goroutine deletes its container exactly when it has
    created it, the no-cleanup policy is off and the goroutine comes to an
    end, whether the container was started or not and however the wait
    ended; it then deletes it once, and it never deletes another
    container. *)
Theorem sidecar_is_deleted_when_it_ends sw ac mainID noCleanup s :
  let run := runAdditionalContainer sw ac mainID noCleanup s in
  deletions (snd (fst run))
  = (if reaches_port_check sw ac mainID && negb noCleanup && ends (snd run)
     then 1%nat else 0%nat) /\
  (forall id,
      In (CallContainerDelete id) (snd (fst run)) ->
      id = ID (fst (on_ContainerCreate (sw_backend sw)
                      (additionalContainerInput ac mainID)))).
Proof. exact (runAdditionalContainer_deletions sw ac mainID noCleanup s). Qed.

(** A sidecar that is created and cancelled deletes its container; one
    that waits for ever does not. *)
Lemma sidecar_is_deleted_when_it_ends_witness :
  In (CallContainerDelete "id-nginx")
     (snd (fst (runAdditionalContainer running_sidecar web "id-alpine" false
                  example_state))) /\
  "id-nginx" = ID (fst (on_ContainerCreate example_backend
                          (additionalContainerInput web "id-alpine"))).
Proof.
  assert (Hin : In (CallContainerDelete "id-nginx")
                  (snd (fst (runAdditionalContainer running_sidecar web "id-alpine"
                               false example_state)))).
  { vm_compute. tauto. }
  split; [exact Hin|].
  destruct (sidecar_is_deleted_when_it_ends running_sidecar web "id-alpine" false
              example_state) as [_ H].
  exact (H "id-nginx" Hin).
Defined.

(** ** The creation input of the main container *)

Section Input.

Variable ContainerAgentPath : ContainerPlatform -> string.
Variable ContainerAgentVolumeDir : ContainerPlatform -> string.
Variable CloudBuildNetworkName : string.
Variable filepath_Dir : string -> string.
Variable GOOS : string.
Variable CloudBuildIP : string.

(** The input that [createInput] builds, but for its entry point and its
    environment. *)
Lemma createInput_fields config s :
  (forall l, l ∈ p_AdditionalContainers (params s) -> is_Some (heap s !! l)) ->
  exists input,
    createInput ContainerAgentPath ContainerAgentVolumeDir CloudBuildNetworkName
      filepath_Dir GOOS CloudBuildIP config s = (s, [], Next input) /\
    in_Image input = p_Image (params s) /\
    in_Command input = [] /\
    in_Mounts input
    = expected_mounts ContainerAgentVolumeDir filepath_Dir config (params s) /\
    in_Network input = expected_network GOOS CloudBuildIP CloudBuildNetworkName /\
    in_DisableSELinux input = String.eqb GOOS "linux" /\
    in_Resources input = resources (p_CPU (params s)) (p_Memory (params s)).
Proof.
  intros Hall. unfold createInput, expected_mounts, expected_network.
  erewrite bind_next by reflexivity.
  destruct (0 <? length (p_AdditionalContainers (params s)))%nat.
  - erewrite bind_next by (apply collectPorts_run; exact Hall).
    eexists. split; [reflexivity|].
    destruct (String.eqb GOOS "linux"), (negb (String.eqb CloudBuildIP "")),
      (HasPrefix (ContainerEndpoint config) "unix:"), (DirtyMode config);
      repeat split; reflexivity.
  - eexists. split; [reflexivity|].
    destruct (String.eqb GOOS "linux"), (negb (String.eqb CloudBuildIP "")),
      (HasPrefix (ContainerEndpoint config) "unix:"), (DirtyMode config);
      repeat split; reflexivity.
Qed.

(** The one call of [ContainerCreate] for the main container gets the
    input that [createInput] builds from the clamped parameters. *)
Lemma RunContainerizedAgent_input w config s info :
  on_SystemInfo (backend w) = (info, None) ->
  (forall l, l ∈ p_AdditionalContainers (params s) -> is_Some (heap s !! l)) ->
  pull_result (backend w) (p_Image (params s)) = None ->
  exists input pre post,
    snd (fst (RunContainerizedAgent ContainerAgentPath ContainerAgentVolumeDir
                CloudBuildNetworkName filepath_Dir GOOS CloudBuildIP w config s))
    = pre ++ CallContainerCreate input :: post /\
    Forall (fun a => is_create a = false) pre /\
    Forall (fun a => is_create a = false) post /\
    in_Image input = p_Image (params s) /\
    in_Command input = [] /\
    in_Mounts input
    = expected_mounts ContainerAgentVolumeDir filepath_Dir config (params s) /\
    in_Network input = expected_network GOOS CloudBuildIP CloudBuildNetworkName /\
    in_DisableSELinux input = String.eqb GOOS "linux" /\
    in_Resources input
    = resources (clampCPU (p_CPU (params s)) (availableCPU info))
                (clampMemory (p_Memory (params s)) (availableMemory info)).
Proof.
  intros Hinfo Hall Hpull.
  set (s1 := {| params := clampParams info (params s);
                heap := clampHeap info (p_AdditionalContainers (params s)) (heap s);
                logReaderWg := logReaderWg s;
                logReaderStarted := logReaderStarted s |}).
  destruct (createInput_fields config s1)
    as (input & Hin & Himage & Hcmd & Hmounts & Hnet & Hse & Hres).
  { intros l Hl. apply clampHeap_is_Some, Hall, Hl. }
  assert (E : createMainContainer ContainerAgentPath ContainerAgentVolumeDir
                CloudBuildNetworkName filepath_Dir GOOS CloudBuildIP w config s
              = (s1,
                 (CallSystemInfo :: pull_trace (backend w) (p_Image (params s)) ++
                  [Log Debug ("creating container using working volume " ++
                              p_WorkingVolumeName (params s))]) ++
                 [CallContainerCreate input],
                 match on_ContainerCreate (backend w) input with
                 | (cont, None) => Next cont
                 | (_, Some err) => Return (Some err)
                 end)).
  { unfold createMainContainer.
    erewrite bind_next by apply SystemInfoOf_run.
    rewrite Hinfo.
    erewrite bind_next by (apply clampResources_run; exact Hall).
    fold s1.
    erewrite bind_next by reflexivity.
    erewrite bind_next by apply pullHelper_run.
    change (p_Image (params s1)) with (p_Image (params s)).
    rewrite Hpull.
    erewrite bind_next by reflexivity.
    erewrite bind_next by exact Hin.
    unfold ContainerCreate.
    erewrite bind_next by reflexivity.
    unfold bind, ret, returns. cbn [emit].
    destruct (on_ContainerCreate (backend w) input) as [cont [err|]]; cbn;
      rewrite ?app_nil_r, <- ?app_assoc; reflexivity. }
  assert (Hpre : Forall (fun a => is_create a = false)
                   (CallSystemInfo :: pull_trace (backend w) (p_Image (params s)) ++
                    [Log Debug ("creating container using working volume " ++
                                p_WorkingVolumeName (params s))])).
  { constructor; [reflexivity|]. apply Forall_app. split.
    - apply pull_trace_plain.
    - repeat constructor. }
  assert (Hfields :
            in_Image input = p_Image (params s) /\
            in_Command input = [] /\
            in_Mounts input
            = expected_mounts ContainerAgentVolumeDir filepath_Dir config (params s) /\
            in_Network input = expected_network GOOS CloudBuildIP CloudBuildNetworkName /\
            in_DisableSELinux input = String.eqb GOOS "linux" /\
            in_Resources input
            = resources (clampCPU (p_CPU (params s)) (availableCPU info))
                        (clampMemory (p_Memory (params s)) (availableMemory info))).
  { rewrite Himage, Hcmd, Hmounts, Hnet, Hse, Hres. repeat split. }
  unfold RunContainerizedAgent, bind. rewrite E.
  destruct (on_ContainerCreate (backend w) input) as [cont [err|]].
  - match type of Hpre with Forall _ ?l => exists input, l, [] end.
    cbn [fst snd]. split; [reflexivity|]. split; [exact Hpre|].
    split; [constructor|exact Hfields].
  - destruct (sat_supervise (fun _ _ => True) (fun a => is_create a = false)
                (fun _ => I) (fun _ _ _ _ _ => I) (fun _ _ _ => I)
                (fun _ _ H => H) w config cont s1) as [_ Hpost].
    destruct (supervise w config cont s1) as [[s2 t2] r2]. simpl in Hpost.
    match type of Hpre with Forall _ ?l => exists input, l, t2 end.
    cbn [fst snd]. rewrite <- app_assoc.
    split; [reflexivity|]. split; [exact Hpre|].
    split; [exact Hpost|exact Hfields].
Qed.

End Input.

Section InputExtras.

Variable ContainerAgentPath : ContainerPlatform -> string.
Variable ContainerAgentVolumeDir : ContainerPlatform -> string.
Variable CloudBuildNetworkName : string.
Variable filepath_Dir : string -> string.
Variable GOOS : string.
Variable CloudBuildIP : string.

(** X9.  The mounts of the main container, in their order: first the
    agent's volume on the agent's directory; then, only when the endpoint
    starts with [unix:], the directory of the socket, bound onto itself;
    last the working directory, which is the project directory of the host
    in dirty mode and the working volume otherwise.  There is no other
    mount. *)
Theorem main_container_mounts w config s info :
  on_SystemInfo (backend w) = (info, None) ->
  (forall l, l ∈ p_AdditionalContainers (params s) -> is_Some (heap s !! l)) ->
  pull_result (backend w) (p_Image (params s)) = None ->
  exists input pre post,
    snd (fst (RunContainerizedAgent ContainerAgentPath ContainerAgentVolumeDir
                CloudBuildNetworkName filepath_Dir GOOS CloudBuildIP w config s))
    = pre ++ CallContainerCreate input :: post /\
    Forall (fun a => is_create a = false) pre /\
    Forall (fun a => is_create a = false) post /\
    in_Mounts input
    = expected_mounts ContainerAgentVolumeDir filepath_Dir config (params s) /\
    (2 <= length (in_Mounts input) <= 3)%nat /\
    (forall m, In m (in_Mounts input) -> mnt_Type m = MountTypeBind ->
       HasPrefix (ContainerEndpoint config) "unix:" = true \/ DirtyMode config = true).
Proof.
  intros Hinfo Hall Hpull.
  destruct (RunContainerizedAgent_input ContainerAgentPath ContainerAgentVolumeDir
              CloudBuildNetworkName filepath_Dir GOOS CloudBuildIP
              w config s info Hinfo Hall Hpull)
    as (input & pre & post & E & Hpre & Hpost & _ & _ & Hm & _).
  exists input, pre, post.
  split; [exact E|]. split; [exact Hpre|]. split; [exact Hpost|].
  split; [exact Hm|]. rewrite Hm. unfold expected_mounts.
  destruct (HasPrefix (ContainerEndpoint config) "unix:"), (DirtyMode config);
    cbn; (split; [lia|]); intros m Hin Hty; auto;
    repeat match goal with
    | H : _ \/ _ |- _ => destruct H as [H'|H]; [subst m; discriminate Hty|]
    | H : False |- _ => destruct H
    end.
Qed.

(** X10.  The main container runs the image of [params] with no command
    of its own.  On a Linux host its SELinux confinement is disabled, and
    it joins the Cloud Build network if the CLI finds itself in Cloud
    Build; on any other host neither is done, whatever the Cloud Build
    heuristic says. *)
Theorem main_container_host_settings w config s info :
  on_SystemInfo (backend w) = (info, None) ->
  (forall l, l ∈ p_AdditionalContainers (params s) -> is_Some (heap s !! l)) ->
  pull_result (backend w) (p_Image (params s)) = None ->
  exists input pre post,
    snd (fst (RunContainerizedAgent ContainerAgentPath ContainerAgentVolumeDir
                CloudBuildNetworkName filepath_Dir GOOS CloudBuildIP w config s))
    = pre ++ CallContainerCreate input :: post /\
    Forall (fun a => is_create a = false) pre /\
    Forall (fun a => is_create a = false) post /\
    in_Image input = p_Image (params s) /\
    in_Command input = [] /\
    in_DisableSELinux input = String.eqb GOOS "linux" /\
    (GOOS <> "linux" -> in_Network input = "") /\
    (GOOS = "linux" ->
     in_Network input = if String.eqb CloudBuildIP "" then "" else CloudBuildNetworkName).
Proof.
  intros Hinfo Hall Hpull.
  destruct (RunContainerizedAgent_input ContainerAgentPath ContainerAgentVolumeDir
              CloudBuildNetworkName filepath_Dir GOOS CloudBuildIP
              w config s info Hinfo Hall Hpull)
    as (input & pre & post & E & Hpre & Hpost & Hi & Hc & _ & Hn & Hse & _).
  exists input, pre, post.
  split; [exact E|]. split; [exact Hpre|]. split; [exact Hpost|].
  split; [exact Hi|]. split; [exact Hc|]. split; [exact Hse|].
  rewrite Hn. unfold expected_network. split.
  - intros Hos. apply String.eqb_neq in Hos. now rewrite Hos.
  - intros ->. rewrite String.eqb_refl. now destruct (String.eqb CloudBuildIP "").
Qed.

(** X11.  The memory limit of the main container is the clamped memory
    of [params] in bytes, computed in 32 bits: it is the number of
    mebibytes times 2^20 modulo 2^32.  Below 4096 MiB this is the exact
    number of bytes; at 4096 MiB, which a host with that much memory lets
    through, the limit is 0. *)
Theorem main_container_memory_limit w config s info :
  on_SystemInfo (backend w) = (info, None) ->
  (forall l, l ∈ p_AdditionalContainers (params s) -> is_Some (heap s !! l)) ->
  pull_result (backend w) (p_Image (params s)) = None ->
  exists input pre post,
    snd (fst (RunContainerizedAgent ContainerAgentPath ContainerAgentVolumeDir
                CloudBuildNetworkName filepath_Dir GOOS CloudBuildIP w config s))
    = pre ++ CallContainerCreate input :: post /\
    Forall (fun a => is_create a = false) pre /\
    Forall (fun a => is_create a = false) post /\
    let memory := clampMemory (p_Memory (params s)) (availableMemory info) in
    MemoryLimit (in_Resources input) = ((Z.of_N memory * 1048576) mod 4294967296)%Z /\
    ((memory < 4096)%N ->
     MemoryLimit (in_Resources input) = (Z.of_N memory * 1048576)%Z) /\
    (memory = 4096%N -> MemoryLimit (in_Resources input) = 0%Z).
Proof.
  intros Hinfo Hall Hpull.
  destruct (RunContainerizedAgent_input ContainerAgentPath ContainerAgentVolumeDir
              CloudBuildNetworkName filepath_Dir GOOS CloudBuildIP
              w config s info Hinfo Hall Hpull)
    as (input & pre & post & E & Hpre & Hpost & _ & _ & _ & _ & _ & Hres).
  exists input, pre, post.
  split; [exact E|]. split; [exact Hpre|]. split; [exact Hpost|].
  intros memory. rewrite Hres. fold memory.
  assert (Hlimit : MemoryLimit (resources (clampCPU (p_CPU (params s)) (availableCPU info))
                                          memory)
                   = ((Z.of_N memory * 1048576) mod 4294967296)%Z).
  { unfold resources, wrap32, mebi. cbn [MemoryLimit].
    rewrite N2Z.inj_mod, N2Z.inj_mul. reflexivity. }
  rewrite Hlimit. split; [reflexivity|]. split.
  - intros Hlt. apply Z.mod_small. lia.
  - intros ->. reflexivity.
Qed.

End InputExtras.

(** The run of the example with a Unix socket as its endpoint, in dirty
    mode. *)
Lemma main_container_mounts_witness :
  exists input pre post,
    snd (fst (RunContainerizedAgent (fun _ => "/tmp/cirrus-ci-agent/cirrus-ci-agent")
                (fun _ => "/tmp/cirrus-ci-agent") "cloudbuild" (fun _ => "/run/cirrus")
                "linux" "" example_world dirty_config example_state))
    = pre ++ CallContainerCreate input :: post /\
    in_Mounts input
    = [ {| mnt_Type := MountTypeVolume; mnt_Source := "agent";
           mnt_Target := "/tmp/cirrus-ci-agent" |};
        {| mnt_Type := MountTypeBind; mnt_Source := "/run/cirrus";
           mnt_Target := "/run/cirrus" |};
        {| mnt_Type := MountTypeBind; mnt_Source := "/project";
           mnt_Target := "/tmp/cirrus-ci-build" |} ].
Proof.
  destruct (main_container_mounts
              (fun _ => "/tmp/cirrus-ci-agent/cirrus-ci-agent")
              (fun _ => "/tmp/cirrus-ci-agent") "cloudbuild" (fun _ => "/run/cirrus")
              "linux" "" example_world dirty_config example_state _
              eq_refl example_pointers eq_refl)
    as (input & pre & post & E & _ & _ & Hm & _).
  exists input, pre, post. split; [exact E|]. rewrite Hm. reflexivity.
Defined.

(** The run of the example on Linux, outside Cloud Build. *)
Lemma main_container_host_settings_witness :
  exists input pre post,
    snd (fst (example_run example_world)) = pre ++ CallContainerCreate input :: post /\
    in_Image input = "alpine" /\
    in_DisableSELinux input = true /\
    in_Network input = "".
Proof.
  destruct (main_container_host_settings
              (fun _ => "/tmp/cirrus-ci-agent/cirrus-ci-agent")
              (fun _ => "/tmp/cirrus-ci-agent") "cloudbuild" (fun path => path)
              "linux" "" example_world example_config example_state _
              eq_refl example_pointers eq_refl)
    as (input & pre & post & E & _ & _ & Hi & _ & Hse & _ & Hn).
  exists input, pre, post. split; [exact E|].
  split; [exact Hi|]. split; [exact Hse|]. exact (Hn eq_refl).
Defined.

(** On a host with 8 GiB the 4096 MiB of the example pass the clamp, and
    the main container is created with the memory limit 0. *)
Lemma main_container_memory_limit_witness :
  exists input pre post,
    snd (fst (example_run roomy_world)) = pre ++ CallContainerCreate input :: post /\
    MemoryLimit (in_Resources input) = 0%Z.
Proof.
  destruct (main_container_memory_limit
              (fun _ => "/tmp/cirrus-ci-agent/cirrus-ci-agent")
              (fun _ => "/tmp/cirrus-ci-agent") "cloudbuild" (fun path => path)
              "linux" "" roomy_world example_config example_state _
              eq_refl example_pointers eq_refl)
    as (input & pre & post & E & _ & _ & _ & _ & Hzero).
  exists input, pre, post. split; [exact E|]. exact (Hzero eq_refl).
Defined.

(** ** The sidecars of a run *)

(** The creation of a sidecar's container: there is one input for it. *)
Lemma runAdditionalContainer_creates sw ac mainID noCleanup s input :
  In (CallContainerCreate input)
     (snd (fst (runAdditionalContainer sw ac mainID noCleanup s))) ->
  input = additionalContainerInput ac mainID.
Proof.
  unfold runAdditionalContainer.
  erewrite bind_next by apply pullHelper_run.
  assert (Hpull : ~ In (CallContainerCreate input)
                      (pull_trace (sw_backend sw) (ac_Image ac))).
  { intros Hin. pose proof (pull_trace_plain (sw_backend sw) (ac_Image ac)) as H.
    rewrite Forall_forall in H.
    specialize (H _ (proj2 (list_elem_of_In _ _) Hin)). discriminate H. }
  destruct (pull_result (sw_backend sw) (ac_Image ac)) as [e|].
  { cbn [returns fst snd]. rewrite app_nil_r. intros Hin. now destruct Hpull. }
  erewrite bind_next by reflexivity.
  erewrite bind_next by reflexivity.
  assert (Hclose : forall t,
            Forall (fun a => is_create a = false) t ->
            In (CallContainerCreate input)
               (pull_trace (sw_backend sw) (ac_Image ac) ++
                [Log Debug "creating additional container"] ++
                [CallContainerCreate (additionalContainerInput ac mainID)] ++ t) ->
            input = additionalContainerInput ac mainID).
  { intros t Ht Hin.
    apply in_app_or in Hin as [Hin|Hin]; [now destruct Hpull|].
    destruct Hin as [Hin|[Hin|Hin]]; [discriminate Hin|now inversion Hin|].
    rewrite Forall_forall in Ht.
    specialize (Ht _ (proj2 (list_elem_of_In _ _) Hin)). discriminate Ht. }
  destruct (on_ContainerCreate (sw_backend sw) (additionalContainerInput ac mainID))
    as [cont [err|]].
  { cbn [returns fst snd]. apply Hclose. constructor. }
  unfold defer.
  erewrite bind_next by apply warnAboutPorts_run.
  unfold ContainerStart, ContainerDelete, bind, emit, ret, returns, block.
  destruct (existsb _ (ac_Ports ac));
    (destruct (on_ContainerStart (sw_backend sw) (ID cont)) as [err|];
     [|destruct (sw_recv sw) as [[res|err]|]]);
    destruct noCleanup; try destruct (on_ContainerDelete (sw_backend sw) (ID cont));
    cbn [fst snd app]; rewrite <- ?app_assoc;
    apply Hclose; repeat constructor.
Qed.

(** The additional containers that the goroutines of a run are started
    for are the clamped ones. *)
Lemma launched_clamped info s s1 i ac :
  params s1 = clampParams info (params s) ->
  heap s1 = clampHeap info (p_AdditionalContainers (params s)) (heap s) ->
  In (i, ac) (launched s1) ->
  exists l ac0,
    p_AdditionalContainers (params s) !! i = Some l /\
    heap s !! l = Some ac0 /\
    ac = clampAC info ac0.
Proof.
  intros Hp Hh Hin. unfold launched in Hin. rewrite Hp, Hh in Hin.
  change (p_AdditionalContainers (clampParams info (params s)))
    with (p_AdditionalContainers (params s)) in Hin.
  apply list_elem_of_In, list_elem_of_omap in Hin as (x & Hx & Hid).
  apply elem_of_lookup_imap in Hx as (j & l & -> & Hl).
  rewrite clampHeap_lookup in Hid.
  rewrite (bool_decide_eq_true_2 (l ∈ p_AdditionalContainers (params s))) in Hid
    by (eapply list_elem_of_lookup_2; exact Hl).
  destruct (heap s !! l) as [ac0|] eqn:Hac0; [|discriminate Hid].
  cbn in Hid. inversion Hid; subst.
  exists l, ac0. auto.
Qed.

Lemma sidecarRuns_In w noCleanup mainID s i t r :
  In (i, (t, r)) (sidecarRuns w noCleanup mainID s) ->
  exists ac,
    In (i, ac) (launched s) /\
    t = snd (fst (runAdditionalContainer (sidecar w i) ac mainID noCleanup s)) /\
    r = snd (runAdditionalContainer (sidecar w i) ac mainID noCleanup s).
Proof.
  unfold sidecarRuns. intros Hin.
  apply in_map_iff in Hin as ([j ac] & Heq & Hin). cbn [fst snd] in Heq.
  destruct (runAdditionalContainer (sidecar w j) ac mainID noCleanup s)
    as [[s' t'] r'] eqn:E.
  inversion Heq; subst. exists ac. rewrite E. auto.
Qed.

Section Sidecars.

Variable ContainerAgentPath : ContainerPlatform -> string.
Variable ContainerAgentVolumeDir : ContainerPlatform -> string.
Variable CloudBuildNetworkName : string.
Variable filepath_Dir : string -> string.
Variable GOOS : string.
Variable CloudBuildIP : string.

(** X21.  The sidecars of a run are created from the additional
    containers as the clamping has left them: the container of the i-th
    goroutine gets the image, the command and the environment of the i-th
    additional container of [params] and its clamped quotas, it has no
    mounts, and it joins the network of the main container. *)
Theorem sidecars_get_clamped_quotas w config s info s1 t1 cont :
  on_SystemInfo (backend w) = (info, None) ->
  (forall l, l ∈ p_AdditionalContainers (params s) -> is_Some (heap s !! l)) ->
  createMainContainer ContainerAgentPath ContainerAgentVolumeDir
    CloudBuildNetworkName filepath_Dir GOOS CloudBuildIP w config s
  = (s1, t1, Next cont) ->
  forall i t r,
    In (i, (t, r)) (sidecarRuns w (NoCleanup config) (ID cont) s1) ->
    exists l ac0,
      p_AdditionalContainers (params s) !! i = Some l /\
      heap s !! l = Some ac0 /\
      forall input,
        In (CallContainerCreate input) t ->
        in_Network input = ("container:" ++ ID cont)%string /\
        in_Image input = ac_Image ac0 /\
        in_Command input = ac_Command ac0 /\
        in_Env input = ac_Environment ac0 /\
        in_Mounts input = [] /\
        in_Resources input
        = resources (clampCPU (ac_Cpu ac0) (availableCPU info))
                    (clampMemory (ac_Memory ac0) (availableMemory info)).
Proof.
  intros Hinfo Hall E i t r Hin.
  destruct (createMainContainer_clamped ContainerAgentPath ContainerAgentVolumeDir
              CloudBuildNetworkName filepath_Dir GOOS CloudBuildIP
              w config s info Hinfo Hall) as (s1' & t1' & r1' & E' & Hp & Hh & _).
  rewrite E in E'. inversion E'; subst s1'. clear E'.
  apply sidecarRuns_In in Hin as (ac & Hl & -> & _).
  destruct (launched_clamped info s s1 i ac Hp Hh Hl) as (l & ac0 & Hi & Hac0 & ->).
  exists l, ac0. split; [exact Hi|]. split; [exact Hac0|].
  intros input Hc. apply runAdditionalContainer_creates in Hc. subst input.
  repeat split.
Qed.

(** A run in which the main container is created, on every path, with
    what the removal says about the sidecars. *)
Lemma RunContainerizedAgent_paths w config s s1 t1 cont :
  createMainContainer ContainerAgentPath ContainerAgentVolumeDir
    CloudBuildNetworkName filepath_Dir GOOS CloudBuildIP w config s
  = (s1, t1, Next cont) ->
  exists s' body td r,
    RunContainerizedAgent ContainerAgentPath ContainerAgentVolumeDir
      CloudBuildNetworkName filepath_Dir GOOS CloudBuildIP w config s
    = (s', (t1 ++ body) ++ td, r) /\
    Forall (fun a => is_delete a = false) (t1 ++ body) /\
    (td = [] \/ td = teardown_stuck \/
     td = teardown_trace w config cont /\
     sidecars_end w (NoCleanup config) (ID cont) s1 = true).
Proof.
  intros E.
  pose proof (createMainContainer_actions ContainerAgentPath ContainerAgentVolumeDir
                CloudBuildNetworkName filepath_Dir GOOS CloudBuildIP w config s) as Ht1.
  rewrite E in Ht1. cbn [fst snd] in Ht1.
  destruct (supervise_paths w config cont s1) as (s' & body & td & r & Es & Hb & Htd & _).
  unfold RunContainerizedAgent.
  rewrite (bind_next _ _ _ _ _ _ E), Es.
  exists s',
    (List.map GoAdditionalContainer
       (seq 0 (length (p_AdditionalContainers (params s1)))) ++ body), td, r.
  split; [rewrite !app_assoc; reflexivity|].
  split.
  - apply Forall_app. split; [apply plain_no_delete, creation_action_plain, Ht1|].
    apply Forall_app. split; [|apply plain_no_delete, Hb].
    apply Forall_forall. intros a Ha.
    apply list_elem_of_In, in_map_iff in Ha as (i & <- & _). reflexivity.
  - destruct Htd as [[H _]|[[H _]|H]]; auto.
Qed.

(** X22.  The additional containers are removed first.  When the
    orchestrator deletes a container, it is the main container and the
    no-cleanup policy is off; every sidecar goroutine of the run has come
    to an end by then, and each of them that had created its container has
    deleted it, once. *)
Theorem sidecars_are_removed_first w config s s1 t1 cont id :
  createMainContainer ContainerAgentPath ContainerAgentVolumeDir
    CloudBuildNetworkName filepath_Dir GOOS CloudBuildIP w config s
  = (s1, t1, Next cont) ->
  In (CallContainerDelete id)
     (snd (fst (RunContainerizedAgent ContainerAgentPath ContainerAgentVolumeDir
                  CloudBuildNetworkName filepath_Dir GOOS CloudBuildIP w config s))) ->
  NoCleanup config = false /\ id = ID cont /\
  forall i t r,
    In (i, (t, r)) (sidecarRuns w (NoCleanup config) (ID cont) s1) ->
    ends r = true /\
    exists ac,
      In (i, ac) (launched s1) /\
      deletions t
      = if reaches_port_check (sidecar w i) ac (ID cont) then 1%nat else 0%nat.
Proof.
  intros E Hdel.
  destruct (RunContainerizedAgent_paths w config s s1 t1 cont E)
    as (s' & body & td & r & Er & Hplain & Htd).
  rewrite Er in Hdel. cbn [fst snd] in Hdel.
  apply in_app_or in Hdel as [Hdel|Hdel]; [now apply not_deleted in Hdel|].
  destruct Htd as [->|[->|[-> Hend]]].
  - destruct Hdel.
  - destruct Hdel as [H|[H|[]]]; discriminate H.
  - apply teardown_trace_deletes in Hdel as [Hnc ->].
    split; [exact Hnc|]. split; [reflexivity|].
    intros i t r0 Hin.
    assert (Hr : ends r0 = true).
    { unfold sidecars_end in Hend. rewrite forallb_forall in Hend.
      specialize (Hend _ Hin). cbn [snd] in Hend.
      now destruct r0. }
    split; [exact Hr|].
    apply sidecarRuns_In in Hin as (ac & Hl & -> & ->).
    exists ac. split; [exact Hl|].
    destruct (runAdditionalContainer_deletions (sidecar w i) ac (ID cont)
                (NoCleanup config) s1) as [Hcount _].
    rewrite Hcount, Hr, Hnc.
    now destruct (reaches_port_check (sidecar w i) ac (ID cont)).
Qed.

End Sidecars.

(** The first sidecar of the example is created from [web] with the
    quotas of the host, 4 CPUs and 2048 MiB. *)
Lemma sidecars_get_clamped_quotas_witness :
  exists t r input,
    In (0%nat, (t, r))
       (sidecarRuns example_world false "id-alpine"
          (fst (fst (example_created example_world)))) /\
    In (CallContainerCreate input) t /\
    in_Network input = "container:id-alpine" /\
    in_Image input = "nginx" /\
    in_Resources input = resources (float32_of_Z 4) 2048.
Proof.
  assert (Hin : exists t r input,
             In (0%nat, (t, r))
                (sidecarRuns example_world false "id-alpine"
                   (fst (fst (example_created example_world)))) /\
             In (CallContainerCreate input) t).
  { eexists _, _, _. split.
    - vm_compute. left. reflexivity.
    - cbn. right. left. reflexivity. }
  destruct Hin as (t & r & input & Hin & Hc).
  exists t, r, input. split; [exact Hin|]. split; [exact Hc|].
  destruct (sidecars_get_clamped_quotas
              (fun _ => "/tmp/cirrus-ci-agent/cirrus-ci-agent")
              (fun _ => "/tmp/cirrus-ci-agent") "cloudbuild" (fun path => path)
              "linux" "" example_world example_config example_state _
              (fst (fst (example_created example_world)))
              (snd (fst (example_created example_world)))
              example_container
              eq_refl example_pointers
              (example_created_ok example_world eq_refl)
              0%nat t r Hin) as (l & ac0 & Hl & Hac0 & H).
  cbn in Hl. inversion Hl; subst l.
  vm_compute in Hac0. inversion Hac0; subst ac0.
  destruct (H input Hc) as (Hn & Hi & _ & _ & _ & Hr).
  split; [exact Hn|]. split; [exact Hi|]. rewrite Hr. reflexivity.
Defined.

(** The run of the example deletes its main container after both
    sidecars have come to an end. *)
Lemma sidecars_are_removed_first_witness :
  In (CallContainerDelete "id-alpine")
     (snd (fst (example_run example_world))) /\
  forallb (fun run => ends (snd (snd run)))
    (sidecarRuns example_world false "id-alpine"
       (fst (fst (example_created example_world)))) = true.
Proof.
  assert (Hdel : In (CallContainerDelete "id-alpine")
                    (snd (fst (example_run example_world)))).
  { vm_compute. tauto. }
  split; [exact Hdel|].
  destruct (sidecars_are_removed_first
              (fun _ => "/tmp/cirrus-ci-agent/cirrus-ci-agent")
              (fun _ => "/tmp/cirrus-ci-agent") "cloudbuild" (fun path => path)
              "linux" "" example_world example_config example_state
              (fst (fst (example_created example_world)))
              (snd (fst (example_created example_world)))
              example_container "id-alpine"
              (example_created_ok example_world eq_refl) Hdel) as (_ & _ & H).
  apply forallb_forall. intros [i [t r]] Hin.
  exact (proj1 (H i t r Hin)).
Defined.

End OrchestratorExtraFacts.

(* ===================================================================== *)
(** * The order of the removal *)
(* ===================================================================== *)

Module TeardownFacts.

Import Dispatch Orchestrator OrchestratorSpec OrchestratorExtraSpec.
Import OrchestratorFacts OrchestratorExtraFacts.
Local Open Scope go_scope.

Section Removal.

Variable ContainerAgentPath : ContainerPlatform -> string.
Variable ContainerAgentVolumeDir : ContainerPlatform -> string.
Variable CloudBuildNetworkName : string.
Variable filepath_Dir : string -> string.
Variable GOOS : string.
Variable CloudBuildIP : string.

(** The supervision when the [select] receives a value, whether or not
    the sidecars come to an end. *)
Lemma supervise_leaves w config cont s ev :
  on_ContainerStart (backend w) (ID cont) = None ->
  on_ContainerLogs (backend w) (ID cont) = None ->
  select (selectEntry w) (pick w) (arrivals w (NoCleanup config) (ID cont) s) = Some ev ->
  supervise w config cont s =
    ({| params := params s; heap := heap s;
        logReaderWg := logReaderWg s + 1; logReaderStarted := true |},
     (startup_trace cont (length (p_AdditionalContainers (params s))) ++
      received_trace ev) ++
     (if sidecars_end w (NoCleanup config) (ID cont) s
      then teardown_trace w config cont
      else [AdditionalContainersCancel; AdditionalContainersWGWait]),
     if sidecars_end w (NoCleanup config) (ID cont) s
     then Return (outcome_of ev) else Blocked).
Proof.
  intros Hstart Hlogs Hsel.
  set (s' := {| params := params s; heap := heap s;
                logReaderWg := logReaderWg s + 1; logReaderStarted := true |}).
  assert (Hsame : same_data s s') by (split; reflexivity).
  rewrite <- (arrivals_same_data _ _ _ _ _ Hsame) in Hsel.
  pose proof (teardown_cases w config cont s') as Htd.
  rewrite (sidecars_end_same_data _ _ _ _ _ Hsame) in Htd.
  cbn [logReaderStarted s'] in Htd. rewrite orb_true_r, andb_true_r in Htd.
  unfold supervise, logReaderWg_Add, defer, bind, get, put. simpl.
  rewrite forEach_emit.
  unfold ContainerStart, ContainerLogs, goLogReader, waitPhase, bind, emit, ret,
    get, put, returns, block. simpl.
  rewrite Hstart. simpl. rewrite Hlogs. simpl.
  fold s'. rewrite Hsel.
  unfold startup_trace, teardown_stuck in *.
  destruct ev as [res|err|acErr]; simpl; rewrite Htd;
    destruct (sidecars_end w (NoCleanup config) (ID cont) s); simpl;
    rewrite <- ?app_assoc; reflexivity.
Qed.

(** C2.  Once the main container has been created, whatever way the
    orchestrator leaves its work, the trace of the run is made of steps
    that remove nothing, followed by the removal in this order: the
    sidecars' context is cancelled and their goroutines are awaited; the
    main container is deleted, or only named in the log under the
    no-cleanup policy; the log reader's context is cancelled and its
    goroutine is awaited.  The wait for the sidecars is a real one: when a
    sidecar goroutine never ends the removal stays there, the main
    container is neither deleted nor named, and the run does not return.
    So the main container is deleted only when every sidecar goroutine has
    come to an end.  The wait for the log reader is a real one too: a run
    returns only if the log-reading goroutine had been started.  On the
    three exits of the [select] (the main container is over, the backend
    reports a wait error, a sidecar reports an error) and with sidecars
    that end, the whole removal is gone through and the run returns what
    the [select] has received. *)
Theorem teardown_order w config s s1 t1 cont :
  createMainContainer ContainerAgentPath ContainerAgentVolumeDir
    CloudBuildNetworkName filepath_Dir GOOS CloudBuildIP w config s
  = (s1, t1, Next cont) ->
  let run := RunContainerizedAgent ContainerAgentPath ContainerAgentVolumeDir
               CloudBuildNetworkName filepath_Dir GOOS CloudBuildIP w config s in
  let sidecars_over := sidecars_end w (NoCleanup config) (ID cont) s1 in
  exists before removal,
    snd (fst run) = before ++ removal /\
    Forall (fun a => is_teardown a = false) before /\
    (forall ev,
        on_ContainerStart (backend w) (ID cont) = None ->
        on_ContainerLogs (backend w) (ID cont) = None ->
        select (selectEntry w) (pick w)
               (arrivals w (NoCleanup config) (ID cont) s1) = Some ev ->
        if sidecars_over
        then removal
             = [AdditionalContainersCancel; AdditionalContainersWGWait] ++
               (if NoCleanup config then
                  [Log Info ("not cleaning up container " ++ ID cont ++
                             ", don't forget to remove it with " ++ dquote ++
                             "docker rm -v " ++ ID cont ++ dquote)]
                else
                  [Log Debug ("cleaning up container " ++ ID cont);
                   CallContainerDelete (ID cont)] ++
                  match on_ContainerDelete (backend w) (ID cont) with
                  | Some err =>
                      [Log Warn ("error while removing container: " ++ Error err)]
                  | None => []
                  end) ++
               [Log Debug "waiting for the container log reader to finish";
                CancelLogReaderCtx; LogReaderWgWait] /\
             snd run = Return (outcome_of ev)
        else removal = [AdditionalContainersCancel; AdditionalContainersWGWait] /\
             snd run = Blocked) /\
    (removal = [] /\ snd run = Blocked \/
     removal = [AdditionalContainersCancel; AdditionalContainersWGWait] /\
     snd run = Blocked /\ sidecars_over = false \/
     removal = teardown_trace w config cont /\ sidecars_over = true) /\
    (forall id,
        In (CallContainerDelete id) (snd (fst run)) ->
        id = ID cont /\
        forall i t r,
          In (i, (t, r)) (sidecarRuns w (NoCleanup config) (ID cont) s1) ->
          r <> Blocked) /\
    (logReaderStarted s = false ->
     forall e,
       snd run = Return e ->
       on_ContainerStart (backend w) (ID cont) = None /\
       on_ContainerLogs (backend w) (ID cont) = None).
Proof.
  intros E run sidecars_over.
  pose proof (createMainContainer_no_teardown ContainerAgentPath ContainerAgentVolumeDir
                CloudBuildNetworkName filepath_Dir GOOS CloudBuildIP w config s) as Ht1.
  pose proof (createMainContainer_log_reader ContainerAgentPath ContainerAgentVolumeDir
                CloudBuildNetworkName filepath_Dir GOOS CloudBuildIP w config s)
    as [_ Hlog].
  rewrite E in Ht1, Hlog. cbn [fst snd] in Ht1, Hlog.
  assert (Hover : forall id removal,
            In (CallContainerDelete id) removal ->
            removal = [] \/
            removal = [AdditionalContainersCancel; AdditionalContainersWGWait] \/
            removal = teardown_trace w config cont /\ sidecars_over = true ->
            id = ID cont /\
            forall i t r,
              In (i, (t, r)) (sidecarRuns w (NoCleanup config) (ID cont) s1) ->
              r <> Blocked).
  { intros id removal Hin [->|[->|[-> Hend]]].
    - destruct Hin.
    - destruct Hin as [H|[H|[]]]; discriminate H.
    - apply teardown_trace_deletes in Hin as [_ ->].
      split; [reflexivity|]. intros i t r Hr ->.
      unfold sidecars_over, sidecars_end in Hend. rewrite forallb_forall in Hend.
      specialize (Hend _ Hr). discriminate Hend. }
  assert (Hsplit : forall before removal id,
            Forall (fun a => is_teardown a = false) before ->
            In (CallContainerDelete id) (before ++ removal) ->
            In (CallContainerDelete id) removal).
  { intros before removal id Hb Hin.
    apply in_app_or in Hin as [Hin|Hin]; [|exact Hin].
    rewrite Forall_forall in Hb.
    specialize (Hb _ (proj2 (list_elem_of_In _ _) Hin)). discriminate Hb. }
  unfold run, RunContainerizedAgent.
  rewrite (bind_next _ _ _ _ _ _ E).
  destruct (on_ContainerStart (backend w) (ID cont)) as [serr|] eqn:Hstart;
    [|destruct (on_ContainerLogs (backend w) (ID cont)) as [lerr|] eqn:Hlogs;
      [|destruct (select (selectEntry w) (pick w)
                         (arrivals w (NoCleanup config) (ID cont) s1))
          as [ev|] eqn:Hsel]].
  4: {
    destruct (supervise_paths w config cont s1)
      as (s' & body & td & r & Es & Hb & Htd & _).
    rewrite Es. cbn [fst snd].
    exists (t1 ++ List.map GoAdditionalContainer
                    (seq 0 (length (p_AdditionalContainers (params s1)))) ++ body), td.
    assert (Hbefore : Forall (fun a => is_teardown a = false)
                        (t1 ++ List.map GoAdditionalContainer
                                 (seq 0 (length (p_AdditionalContainers (params s1)))) ++
                         body)).
    { apply Forall_app. split; [exact Ht1|]. apply Forall_app. split.
      - apply Forall_forall. intros a Ha.
        apply list_elem_of_In, in_map_iff in Ha as (i & <- & _). reflexivity.
      - eapply Forall_weaken; [|exact Hb]. intros a Ha.
        now apply orb_false_elim in Ha as [Ha _]. }
    split; [now rewrite <- !app_assoc|]. split; [exact Hbefore|].
    split; [intros ev _ _ Hev; discriminate Hev|].
    split; [|split].
    - destruct Htd as [H|[[H1 [H2 H3]]|H]]; auto.
    - intros id Hin. apply (Hover id td).
      + apply (Hsplit _ _ id Hbefore); rewrite <- ?app_assoc; rewrite <- ?app_assoc in Hin; exact Hin.
      + destruct Htd as [[H _]|[[H _]|H]]; auto.
    - intros _ e _. now split. }
  3: {
    rewrite (supervise_leaves w config cont s1 ev Hstart Hlogs Hsel).
    fold sidecars_over. cbn [fst snd].
    assert (Hbefore : Forall (fun a => is_teardown a = false)
                        (t1 ++ startup_trace cont
                                 (length (p_AdditionalContainers (params s1))) ++
                         received_trace ev)).
    { apply Forall_app. split; [exact Ht1|]. apply Forall_app. split.
      - apply startup_trace_no_teardown.
      - apply received_trace_no_teardown. }
    exists (t1 ++ startup_trace cont (length (p_AdditionalContainers (params s1))) ++
            received_trace ev),
           (if sidecars_over then teardown_trace w config cont
            else [AdditionalContainersCancel; AdditionalContainersWGWait]).
    split; [now rewrite <- !app_assoc|]. split; [exact Hbefore|].
    split; [|split; [|split]].
    - intros ev' _ _ Hev. inversion Hev; subst ev'.
      destruct sidecars_over; split; reflexivity.
    - destruct sidecars_over; auto.
    - intros id Hin. eapply Hover.
      + apply (Hsplit _ _ id Hbefore); rewrite <- ?app_assoc; rewrite <- ?app_assoc in Hin; exact Hin.
      + destruct sidecars_over; auto.
    - intros _ e _. now split. }
  all: destruct (supervise_paths w config cont s1)
         as (s' & body & td & r & Es & Hb & Htd & _);
    rewrite Es; cbn [fst snd];
    exists (t1 ++ List.map GoAdditionalContainer
                    (seq 0 (length (p_AdditionalContainers (params s1)))) ++ body), td;
    assert (Hbefore : Forall (fun a => is_teardown a = false)
                        (t1 ++ List.map GoAdditionalContainer
                                 (seq 0 (length (p_AdditionalContainers (params s1)))) ++
                         body))
      by (apply Forall_app; split; [exact Ht1|]; apply Forall_app; split;
          [ apply Forall_forall; intros a Ha;
            apply list_elem_of_In, in_map_iff in Ha as (i & <- & _); reflexivity
          | eapply Forall_weaken; [|exact Hb]; intros a Ha;
            now apply orb_false_elim in Ha as [Ha _] ]);
    (split; [now rewrite <- !app_assoc|]); (split; [exact Hbefore|]);
    (split; [intros ev H1 H2 _; congruence|]);
    (split; [destruct Htd as [H|[[H1 [H2 H3]]|H]]; auto|]);
    (split;
     [ intros id Hin; apply (Hover id td);
       [ apply (Hsplit _ _ id Hbefore); rewrite <- ?app_assoc; rewrite <- ?app_assoc in Hin; exact Hin
       | destruct Htd as [[H _]|[[H _]|H]]; auto ]
     | intros Hs0 e He; exfalso; rewrite Hs0 in Hlog;
       destruct (supervise_no_log_reader w config cont s1 _
                   ltac:(first [left; eassumption | right; eassumption]) Hlog)
         as (s'' & body' & Es' & _);
       rewrite Es in Es'; congruence ]).
Qed.

End Removal.

(** The removal at the end of the example: sidecars, main container, log
    reader.  With sidecars that never end, the removal stays at its first
    wait and the main container is kept. *)
Lemma teardown_order_witness :
  (exists before,
      snd (fst (example_run example_world))
      = before ++
        [AdditionalContainersCancel; AdditionalContainersWGWait;
         Log Debug "cleaning up container id-alpine";
         CallContainerDelete "id-alpine";
         Log Debug "waiting for the container log reader to finish";
         CancelLogReaderCtx; LogReaderWgWait] /\
      Forall (fun a => is_teardown a = false) before /\
      snd (example_run example_world) = Return None) /\
  (exists before,
      snd (fst (example_run endless_world))
      = before ++ [AdditionalContainersCancel; AdditionalContainersWGWait] /\
      Forall (fun a => is_teardown a = false) before /\
      snd (example_run endless_world) = Blocked).
Proof.
  split.
  - destruct (teardown_order
                (fun _ => "/tmp/cirrus-ci-agent/cirrus-ci-agent")
                (fun _ => "/tmp/cirrus-ci-agent") "cloudbuild" (fun path => path)
                "linux" ""
                example_world example_config example_state
                (fst (fst (example_created example_world)))
                (snd (fst (example_created example_world)))
                example_container
                (example_created_ok example_world eq_refl))
      as (before & removal & E & Hbefore & Hexit & _).
    specialize (Hexit (FromWaitChan {| StatusCode := 1; ProcessError := "" |})
                  eq_refl eq_refl eq_refl).
    change (sidecars_end example_world (NoCleanup example_config)
              (ID example_container) (fst (fst (example_created example_world))))
      with true in Hexit.
    destruct Hexit as [-> Hr].
    exists before. split; [exact E|]. split; [exact Hbefore|exact Hr].
  - destruct (teardown_order
                (fun _ => "/tmp/cirrus-ci-agent/cirrus-ci-agent")
                (fun _ => "/tmp/cirrus-ci-agent") "cloudbuild" (fun path => path)
                "linux" ""
                endless_world example_config example_state
                (fst (fst (example_created endless_world)))
                (snd (fst (example_created endless_world)))
                example_container
                (example_created_ok endless_world eq_refl))
      as (before & removal & E & Hbefore & Hexit & _).
    specialize (Hexit (FromWaitChan {| StatusCode := 1; ProcessError := "" |})
                  eq_refl eq_refl eq_refl).
    change (sidecars_end endless_world (NoCleanup example_config)
              (ID example_container) (fst (fst (example_created endless_world))))
      with false in Hexit.
    destruct Hexit as [-> Hr].
    exists before. split; [exact E|]. split; [exact Hbefore|exact Hr].
Defined.

End TeardownFacts.

(* ===================================================================== *)
(** * Properties of [Parallels.Run] *)
(* ===================================================================== *)

Module ParallelsRunFacts.

Import ParallelsRun ParallelsRunSpec.

(** Running [Run] step by step: the next answer is looked at, and the
    failure is dealt with at once. *)
Ltac run_step closing :=
  match goal with
  | |- context [ on_NewVMClonedFrom ?h ?i ] =>
      destruct (on_NewVMClonedFrom h i) as [?vm [?e|]]; cbn [app fst snd]; [solve [closing]|]
  | |- context [ on_retry ?h ] =>
      destruct (on_retry h) as [?e|]; cbn [app fst snd]; [solve [closing]|]
  | |- context [ on_DialContext ?h ?a ] =>
      destruct (on_DialContext h a) as [?e|]; cbn [app fst snd]; [solve [closing]|]
  | |- context [ on_NewClientConn ?h ?a ] =>
      destruct (on_NewClientConn h a) as [?e|]; cbn [app fst snd]; [solve [closing]|]
  | |- context [ on_uploadAgent ?h ?o ?v ] =>
      destruct (on_uploadAgent h o v) as [?path [?e|]]; cbn [app fst snd]; [solve [closing]|]
  | |- context [ on_NewSession ?h ] =>
      destruct (on_NewSession h) as [?e|]; cbn [app fst snd]; [solve [closing]|]
  | |- context [ on_Shell ?h ] =>
      destruct (on_Shell h) as [?e|]; cbn [app fst snd]; [solve [closing]|]
  | |- context [ on_StdinPipe ?h ] =>
      destruct (on_StdinPipe h); cbn [app fst snd]; [|solve [closing]]
  | |- context [ on_Write ?h 0%nat ] =>
      destruct (on_Write h 0%nat) as [?e|]; cbn [app fst snd]; [solve [closing]|]
  | |- context [ on_Write ?h 1%nat ] =>
      destruct (on_Write h 1%nat) as [?e|]; cbn [app fst snd]; [solve [closing]|]
  | |- context [ on_Wait ?h ] =>
      destruct (on_Wait h) as [?e|]; cbn [app fst snd]; [solve [closing]|]
  end.

Ltac unfold_Run :=
  unfold Run, all_succeed, shell_started, address, retrieveIP, stdinBuf_Write,
    failed, call, returns, panic, defer, bind;
  cbn [fst snd].

Ltac close_flow :=
  repeat split; intros;
  try discriminate;
  try match goal with
      | H : Return (Some _) = Return (Some _) |- _ => inversion H; reflexivity
      | H : _ /\ _ |- _ => destruct H; discriminate
      end.

Section RunFacts.

Variable Quote : string -> string.

(** X12.  [Run] returns nil exactly when every step succeeds: the clone,
    the retrieval of the address, the connection and the handshake, the
    upload, the session, its pipe and shell, the two writes and the wait.
    Every error that it returns wraps [ErrFailed].  It panics exactly
    when the shell is started on a session whose [StdinPipe] gave no
    writer: the error of [StdinPipe] is never looked at. *)
Theorem Run_outcomes h parallels config :
  (snd (Run Quote h parallels config) = Return None <->
   all_succeed h parallels = true) /\
  (forall e, snd (Run Quote h parallels config) = Return (Some e) ->
             errors_Is e ErrFailed = true) /\
  (snd (Run Quote h parallels config) = Panic <->
   shell_started h parallels = true /\ on_StdinPipe h = false).
Proof.
  unfold_Run.
  repeat run_step close_flow.
  close_flow.
Qed.

Lemma count_app f t1 t2 : count f (t1 ++ t2) = (count f t1 + count f t2)%nat.
Proof. unfold count. now rewrite List.filter_app, length_app. Qed.

Lemma count_retrievals {A} f (l : list A) :
  f CallRetrieveIP = false -> count f (List.map (fun _ => CallRetrieveIP) l) = 0%nat.
Proof.
  intros Hf. unfold count. induction l as [|x l IH]; [reflexivity|].
  cbn. now rewrite Hf.
Qed.

(** A trace that is well closed after the retrieval of the address is
    well closed as a whole. *)
Lemma closes_after_retrievals {A} image (ips : list A) l :
  closes_after l = true ->
  closes (CallNewVMClonedFrom image :: List.map (fun _ => CallRetrieveIP) ips ++ l).
Proof.
  unfold closes_after, closes. intros H.
  apply andb_prop in H as [H Hend].
  apply andb_prop in H as [H Hle].
  apply andb_prop in H as [H Heq].
  apply andb_prop in H as [Hclose Hlast].
  apply Nat.eqb_eq in Hclose, Heq. apply Nat.leb_le in Hle.
  assert (Hcount : forall f, f (CallNewVMClonedFrom image) = false ->
            f CallRetrieveIP = false ->
            count f (CallNewVMClonedFrom image ::
                     List.map (fun _ => CallRetrieveIP) ips ++ l) = count f l).
  { intros f H1 H2.
    change (CallNewVMClonedFrom image :: ?t) with ([CallNewVMClonedFrom image] ++ t).
    rewrite !count_app, (count_retrievals f ips H2).
    unfold count at 1. cbn. now rewrite H1. }
  rewrite !Hcount by reflexivity.
  destruct (rev l) as [|x r] eqn:Hrev; [discriminate Hlast|].
  destruct x; try discriminate Hlast.
  assert (Hl : l = rev r ++ [CallVMClose]).
  { apply (f_equal (@rev event)) in Hrev. now rewrite rev_involutive in Hrev. }
  split; [exact Hclose|]. split.
  { rewrite Hl.
    change (CallNewVMClonedFrom image :: ?t) with ([CallNewVMClonedFrom image] ++ t).
    rewrite !app_assoc. apply last_last. }
  split; [exact Heq|]. split; [exact Hle|].
  intros Hin.
  assert (Hmon : existsb is_monitor l = true).
  { destruct Hin as [Hin|Hin]; [discriminate Hin|].
    apply in_app_or in Hin as [Hin|Hin].
    - apply in_map_iff in Hin as (a & Ha & _). discriminate Ha.
    - apply existsb_exists. exists GoMonitor. now split. }
  rewrite Hmon in Hend.
  destruct r as [|y r]; [discriminate Hend|].
  destruct y; try discriminate Hend.
  exists (CallNewVMClonedFrom image :: List.map (fun _ => CallRetrieveIP) ips ++ rev r).
  rewrite Hl. cbn [rev app]. now rewrite <- !app_assoc.
Qed.

Ltac close_trace :=
  rewrite <- ?app_assoc; cbn [app];
  apply closes_after_retrievals; reflexivity.

(** X13.  If the clone fails, [Run] has called nothing else.  If it
    succeeds, the virtual machine is closed once, as the last thing that
    [Run] does, however it ends; and once the monitoring goroutine has
    been started, its context is cancelled once, right before the virtual
    machine is closed, and it is never cancelled otherwise. *)
Theorem Run_cleans_up h parallels config :
  match snd (on_NewVMClonedFrom h (vmImage parallels)) with
  | Some _ =>
      fst (Run Quote h parallels config) = [CallNewVMClonedFrom (vmImage parallels)]
  | None => closes (fst (Run Quote h parallels config))
  end.
Proof.
  unfold_Run.
  destruct (on_NewVMClonedFrom h (vmImage parallels)) as [vm [e|]]; cbn.
  - reflexivity.
  - repeat run_step close_trace.
    close_trace.
Qed.

Lemma written_retrievals {A} image (ips : list A) l :
  written (CallNewVMClonedFrom image :: List.map (fun _ => CallRetrieveIP) ips ++ l)
  = written l.
Proof.
  unfold written. cbn [omap list_omap].
  induction ips as [|x ips IH]; [reflexivity|exact IH].
Qed.

Lemma In_after_retrievals {A} e image (ips : list A) l :
  e <> CallNewVMClonedFrom image -> e <> CallRetrieveIP ->
  In e (CallNewVMClonedFrom image :: List.map (fun _ => CallRetrieveIP) ips ++ l) ->
  In e l.
Proof.
  intros H1 H2 [Hin|Hin]; [congruence|].
  apply in_app_or in Hin as [Hin|Hin]; [|exact Hin].
  apply in_map_iff in Hin as (a & Ha & _). congruence.
Qed.

Ltac close_writes :=
  rewrite <- ?app_assoc; cbn [app fst snd];
  rewrite !written_retrievals;
  repeat match goal with |- _ /\ _ => split end;
  [ cbn; auto
  | cbn; intros Hne; try (exfalso; apply Hne; reflexivity); try (split; reflexivity)
  | intros Hin; apply In_after_retrievals in Hin; [|discriminate|discriminate];
    cbn; try reflexivity; simpl in Hin; intuition discriminate
  | intros Hret; try discriminate Hret ].

(** X14.  What [Run] writes to the standard input of the shell: first
    the command that sets the clock to the current time, then the command
    line of the agent followed by [exit], each at most once and in this
    order.  Nothing is written unless every step up to the start of the
    shell has succeeded, the agent is waited for only after both writes,
    and a run that returns nil has started the shell, written both,
    waited, cancelled the monitor and closed the virtual machine, in this
    order. *)
Theorem Run_writes h parallels config :
  let t := fst (Run Quote h parallels config) in
  let timeSync := TimeSyncCommand (now h) in
  let agent :=
    Run_agent_input (fst (on_uploadAgent h (agentOS parallels) (agentVersion h)))
                    config in
  (written t = [] \/ written t = [timeSync] \/ written t = [timeSync; agent]) /\
  (written t <> [] -> shell_started h parallels = true /\ on_StdinPipe h = true) /\
  (In CallWait t -> written t = [timeSync; agent]) /\
  (snd (Run Quote h parallels config) = Return None ->
   exists before,
     t = before ++ [CallShell; CallWrite timeSync; CallWrite agent; CallWait;
                    MonitorCancel; CallVMClose]).
Proof.
  unfold_Run.
  destruct (on_NewVMClonedFrom h (vmImage parallels)) as [vm [e|]]; cbn [app fst snd].
  { repeat split; intros; try discriminate; auto; simpl in *; intuition discriminate. }
  repeat run_step close_writes.
  close_writes.
  match goal with
  | |- context [ ?x :: List.map ?f ?ips ++ ?l ] =>
      exists (x :: List.map f ips ++ firstn 7 l)
  end.
  cbn [firstn app]. rewrite <- app_assoc. reflexivity.
Qed.

End RunFacts.

(** ** The properties, tried *)

(** A run in which everything succeeds returns nil; one whose agent fails
    returns an error that wraps [ErrFailed]; one whose session gives no
    writer panics. *)
Lemma Run_outcomes_witness :
  snd (Run plain_quote example_host example_parallels direct_config) = Return None /\
  (exists e,
      snd (Run plain_quote failing_agent_host example_parallels direct_config)
      = Return (Some e) /\
      errors_Is e ErrFailed = true) /\
  snd (Run plain_quote no_pipe_host example_parallels direct_config) = Panic.
Proof.
  split; [|split].
  - apply (proj1 (Run_outcomes plain_quote example_host example_parallels direct_config)).
    reflexivity.
  - eexists. split; [reflexivity|].
    apply (proj1 (proj2 (Run_outcomes plain_quote failing_agent_host
                           example_parallels direct_config))).
    reflexivity.
  - apply (proj2 (proj2 (Run_outcomes plain_quote no_pipe_host
                           example_parallels direct_config))).
    split; reflexivity.
Defined.

(** The run that panics still cancels the monitor and closes the virtual
    machine. *)
Lemma Run_cleans_up_witness :
  closes (fst (Run plain_quote no_pipe_host example_parallels direct_config)).
Proof.
  exact (Run_cleans_up plain_quote no_pipe_host example_parallels direct_config).
Defined.

(** The run in which everything succeeds sets the clock and starts the
    agent. *)
Lemma Run_writes_witness :
  written (fst (Run plain_quote example_host example_parallels direct_config))
  = [TimeSyncCommand ParallelsSpec.t_2024_01_02;
     Run_agent_input "/tmp/cirrus-ci-agent" direct_config].
Proof.
  destruct (Run_writes plain_quote example_host example_parallels direct_config)
    as (_ & _ & H & _).
  apply H. vm_compute. tauto.
Defined.

End ParallelsRunFacts.

(* ===================================================================== *)
(** * Further properties of the clamps and of the dispatcher *)
(* ===================================================================== *)

Module ClampExtraFacts.

Import Orchestrator.

(** X15.  Clamping twice against the same capacity is clamping once, for
    the CPUs and for the memory.  A request for CPUs that is not a number
    is not brought down to the capacity: the clamp gives NaN unless the
    capacity is minus infinity, and the nano-CPUs of the container are then
    the conversion of NaN to an integer, which Go leaves open. *)
Theorem clamp_edge_cases :
  (forall requested available : float32,
      clampCPU (clampCPU requested available) available = clampCPU requested available) /\
  (forall requested available : N,
      clampMemory (clampMemory requested available) available
      = clampMemory requested available) /\
  (forall available : float32,
      IsNegInf available = false ->
      clampCPU S754_nan available = S754_nan /\
      forall memory, NanoCPUs (resources (clampCPU S754_nan available) memory) = None) /\
  (forall requested : float32,
      clampCPU requested (S754_infinity true) = S754_infinity true).
Proof.
  split; [exact ClampFacts.clampCPU_idempotent|].
  split; [exact ClampFacts.clampMemory_idempotent|].
  split.
  - intros a Ha.
    assert (E : clampCPU S754_nan a = S754_nan).
    { unfold clampCPU, math_Min. cbn [IsNegInf IsNaN orb]. now rewrite Ha. }
    split; [exact E|]. intros memory. rewrite E. reflexivity.
  - intros r. unfold clampCPU, math_Min. cbn [IsNegInf].
    now rewrite orb_true_r.
Qed.

(** A request that is not a number, on a host with four CPUs. *)
Lemma clamp_edge_cases_witness :
  clampCPU S754_nan (float32_of_Z 4) = S754_nan /\
  NanoCPUs (resources (clampCPU S754_nan (float32_of_Z 4)) 512) = None.
Proof.
  destruct clamp_edge_cases as (_ & _ & H & _).
  destruct (H (float32_of_Z 4) eq_refl) as [E Hn].
  split; [exact E|exact (Hn 512%N)].
Defined.

End ClampExtraFacts.

Module DispatchExtraFacts.

Import Dispatch DispatchSpec.

Section Dispatcher.

Context {Command PipeStage : Type}.
Variable PipeStagesFromCommands : list Command -> list PipeStage * option error.
Variable persistentworker_New :
  option Isolation -> option (Instance PipeStage) * option error.
Variable path_Join : list string -> string.
Variable GOOS : string.


End Dispatcher.


End DispatchExtraFacts.

(* ===================================================================== *)
(** * Properties of the default parser *)
(* ===================================================================== *)

Module ParseableFacts.

Import Parseable ParseableSpec.
Local Open Scope parse_scope.

Section Passes.

Context {Node schema_Schema Target : Type}.
Variable Node_Name : Node -> string.
Variable Node_Children : Node -> list Node.
Variable DeepFindCollectible : Node -> string -> option Node.
Variable ParserError : Node -> string -> error.
Variable Quote : string -> string.

Lemma parse_bind_next {A B} (m : M Node Target A) (f : A -> M Node Target B) s s1 t1 a :
  m s = (s1, t1, Next a) ->
  bind m f s = (let '(s2, t2, r) := f a s1 in (s2, t1 ++ t2, r)).
Proof. intros H. unfold bind. now rewrite H. Qed.

(** ** How the passes end *)

Lemma ends_well_ret {A} (a : A) (s : Target) : ends_well (@ret Node Target A a s).
Proof. constructor. Qed.

Lemma ends_well_bind {A B} (m : M Node Target A) (f : A -> M Node Target B) s :
  ends_well (m s) -> (forall a s1, ends_well (f a s1)) -> ends_well (bind m f s).
Proof.
  intros Hm Hf. unfold bind.
  destruct (m s) as [[s1 t1] [a|[e|]]]; simpl in Hm; [|exact Hm|destruct Hm].
  specialize (Hf a s1).
  destruct (f a s1) as [[s2 t2] [b|[e|]]]; simpl in *.
  - now apply Forall_app.
  - destruct Hf as (t' & ev & -> & Ht' & Hev).
    exists (t1 ++ t'), ev. rewrite app_assoc. split; [reflexivity|].
    split; [now apply Forall_app|exact Hev].
  - exact Hf.
Qed.

Lemma ends_well_forEach {A} (xs : list A) (body : A -> M Node Target unit) s :
  (forall x s1, ends_well (body x s1)) -> ends_well (forEach xs body s).
Proof.
  intros H. revert s. induction xs as [|x xs IH]; intros s.
  - apply ends_well_ret.
  - cbn [forEach]. apply ends_well_bind; [apply H|]. intros _ s1. apply IH.
Qed.

(** A callback whose error is looked at right away. *)
Lemma ends_well_checked {B} (record : option error -> event Node)
    (f : Target -> Target * option error) (k : M Node Target B) s :
  (forall err, event_err (record err) = err) ->
  (forall s1, ends_well (k s1)) ->
  ends_well ((err <- callback record f ;; check err ;; k) s).
Proof.
  intros Hrec Hk. unfold bind, callback, check.
  destruct (f s) as [s1 [e|]]; cbn.
  - exists [], (record (Some e)). split; [reflexivity|].
    split; [constructor|apply Hrec].
  - specialize (Hk s1). destruct (k s1) as [[s2 t2] [b|[e|]]]; simpl in *.
    + constructor; [apply Hrec|exact Hk].
    + destruct Hk as (t' & ev & -> & Ht' & Hev).
      exists (record None :: t'), ev. split; [reflexivity|].
      split; [|exact Hev]. constructor; [apply Hrec|exact Ht'].
    + exact Hk.
Qed.

Lemma ends_well_evaluateCollectible node
    (field : CollectibleField Node schema_Schema Target) s :
  ends_well ((err <- evaluateCollectible DeepFindCollectible node field ;; check err) s).
Proof.
  unfold evaluateCollectible.
  destruct (DeepFindCollectible node (cf_Name field)) as [children|].
  - pose proof (ends_well_checked (OnCollected (cf_Name field) children)
                  (cf_onFound field children) (ret tt) s
                  (fun _ => eq_refl) (ends_well_ret tt)) as H.
    unfold bind, callback, check in *.
    destruct (cf_onFound field children s) as [s1 [e|]]; cbn in *; exact H.
  - constructor.
Qed.

Lemma ends_well_doubleCheck node child
    (cfs : list (CollectibleField Node schema_Schema Target)) s :
  ends_well (doubleCheck Node_Name DeepFindCollectible node child cfs s).
Proof.
  induction cfs as [|cf cfs IH]; cbn [doubleCheck].
  - apply ends_well_ret.
  - destruct (String.eqb _ _); [apply ends_well_evaluateCollectible|exact IH].
Qed.

Lemma ends_well_dispatch child (fs : list (Field Node schema_Schema Target)) seen s :
  ends_well (dispatch Node_Name child fs seen s).
Proof.
  induction fs as [|f fs IH]; cbn [dispatch].
  - apply ends_well_ret.
  - destruct (Matches _ _); [|exact IH].
    apply ends_well_checked; [reflexivity|]. intros s1. apply ends_well_ret.
Qed.

Lemma ends_well_dispatchAll children (fs : list (Field Node schema_Schema Target))
    seen s :
  ends_well (dispatchAll Node_Name children fs seen s).
Proof.
  revert seen s. induction children as [|child children IH]; intros seen s;
    cbn [dispatchAll].
  - apply ends_well_ret.
  - apply ends_well_bind; [apply ends_well_dispatch|]. intros seen1 s1. apply IH.
Qed.

(** ** The fields that are seen *)

Lemma dispatch_seen child (fs : list (Field Node schema_Schema Target)) seen s s1 t1 seen1 :
  dispatch Node_Name child fs seen s = (s1, t1, Next seen1) ->
  seen1 = match first_match Node_Name fs child with
          | Some f => {[ MapKey (name f) ]} ∪ seen
          | None => seen
          end.
Proof.
  unfold first_match.
  induction fs as [|f fs IH]; cbn [dispatch List.find].
  - intros H. inversion H. reflexivity.
  - destruct (Matches (name f) (Node_Name child)); [|exact IH].
    unfold bind, callback, check, ret, returns.
    destruct (onFound f child s) as [s' [e|]]; cbn; intros H; inversion H.
    reflexivity.
Qed.

Lemma seen_keys_cons (fs : list (Field Node schema_Schema Target)) child children :
  seen_keys Node_Name fs (child :: children)
  = match first_match Node_Name fs child with
    | Some f => {[ MapKey (name f) ]} ∪ seen_keys Node_Name fs children
    | None => seen_keys Node_Name fs children
    end.
Proof.
  unfold seen_keys. cbn [omap list_omap].
  destruct (first_match Node_Name fs child); reflexivity.
Qed.

Lemma dispatchAll_seen children (fs : list (Field Node schema_Schema Target))
    seen s s1 t1 seen1 :
  dispatchAll Node_Name children fs seen s = (s1, t1, Next seen1) ->
  seen1 = seen_keys Node_Name fs children ∪ seen.
Proof.
  revert seen s s1 t1.
  induction children as [|child children IH]; intros seen s s1 t1;
    cbn [dispatchAll].
  - intros H. inversion H. unfold seen_keys. cbn. now rewrite union_empty_l_L.
  - unfold bind at 1.
    destruct (dispatch Node_Name child fs seen s) as [[s' t'] [seen'|e]] eqn:E;
      [|discriminate].
    apply dispatch_seen in E.
    destruct (dispatchAll Node_Name children fs seen' s') as [[s2 t2] r2] eqn:E2.
    intros H. inversion H; subst r2. apply IH in E2.
    rewrite E2, seen_keys_cons, E.
    destruct (first_match Node_Name fs child); [|reflexivity].
    rewrite (assoc_L (∪)). f_equal. apply (comm_L (∪)).
Qed.

Lemma checkRequired_run node (fs : list (Field Node schema_Schema Target)) seen s :
  checkRequired ParserError Quote node fs seen s
  = (s, [],
     match missing fs seen with
     | Some f => Return (Some (ParserError node (not_set Quote f)))
     | None => Next tt
     end).
Proof.
  unfold missing.
  induction fs as [|f fs IH]; cbn [checkRequired List.find]; [reflexivity|].
  destruct (required f && negb (bool_decide (MapKey (name f) ∈ seen)));
    [reflexivity|exact IH].
Qed.

(** ** How [Parse] ends *)

Lemma stops_bind {A} (m : M Node Target A) (f : A -> M Node Target unit) node
    (fs : list (Field Node schema_Schema Target)) s :
  ends_well (m s) ->
  (forall a s1, stops_at_first_error Quote ParserError node fs (f a s1)) ->
  stops_at_first_error Quote ParserError node fs (bind m f s).
Proof.
  intros Hm Hf. unfold bind.
  destruct (m s) as [[s1 t1] [a|[e|]]]; simpl in Hm.
  - specialize (Hf a s1).
    destruct (f a s1) as [[s2 t2] r2].
    destruct Hf as (t' & Ht' & [[Ht Hr]|(ev & e & Ht & Hev & Hr)]); cbn [fst snd] in *.
    + exists (t1 ++ t'). split; [now apply Forall_app|]. left. subst t2. auto.
    + exists (t1 ++ t'). split; [now apply Forall_app|]. right.
      exists ev, e. subst t2. rewrite app_assoc. auto.
  - destruct Hm as (t' & ev & -> & Ht' & Hev).
    exists t'. split; [exact Ht'|]. right. exists ev, e. auto.
  - destruct Hm.
Qed.

(** ** The passes when no callback fails *)

Lemma evaluateCollectible_run node (cf : CollectibleField Node schema_Schema Target) s :
  (forall n s0, snd (cf_onFound cf n s0) = None) ->
  exists s1,
    (err <- evaluateCollectible DeepFindCollectible node cf ;; check err) s
    = (s1, option_list (collected DeepFindCollectible node cf), Next tt).
Proof.
  intros Hok. unfold evaluateCollectible, collected, bind, callback, check, ret.
  destruct (DeepFindCollectible node (cf_Name cf)) as [children|]; cbn.
  - specialize (Hok children s).
    destruct (cf_onFound cf children s) as [s1 err]. cbn in Hok. subst err.
    exists s1. reflexivity.
  - exists s. reflexivity.
Qed.

Lemma collect_run node (cfs : list (CollectibleField Node schema_Schema Target)) s :
  (forall cf n s0, In cf cfs -> snd (cf_onFound cf n s0) = None) ->
  exists s1,
    forEach cfs
      (fun field => err <- evaluateCollectible DeepFindCollectible node field ;; check err) s
    = (s1, omap (collected DeepFindCollectible node) cfs, Next tt).
Proof.
  revert s. induction cfs as [|cf cfs IH]; intros s Hok.
  - exists s. reflexivity.
  - destruct (evaluateCollectible_run node cf s) as (s1 & E1).
    { intros n s0. apply Hok. now left. }
    destruct (IH s1) as (s2 & E2).
    { intros cf' n s0 Hin. apply Hok. now right. }
    exists s2. cbn [forEach]. rewrite (parse_bind_next _ _ _ _ _ _ E1), E2.
    cbn [omap list_omap].
    destruct (collected DeepFindCollectible node cf); reflexivity.
Qed.

Lemma doubleCheck_run node child (cfs : list (CollectibleField Node schema_Schema Target)) s :
  (forall cf n s0, In cf cfs -> snd (cf_onFound cf n s0) = None) ->
  exists s1,
    doubleCheck Node_Name DeepFindCollectible node child cfs s
    = (s1,
       option_list (first_named Node_Name cfs child ≫= collected DeepFindCollectible node),
       Next tt).
Proof.
  unfold first_named.
  induction cfs as [|cf cfs IH]; intros Hok; cbn [doubleCheck List.find].
  - exists s. reflexivity.
  - destruct (String.eqb (cf_Name cf) (Node_Name child)).
    + apply evaluateCollectible_run. intros n s0. apply Hok. now left.
    + apply IH. intros cf' n s0 Hin. apply Hok. now right.
Qed.

Lemma doubleCheckAll_run node children
    (cfs : list (CollectibleField Node schema_Schema Target)) s :
  (forall cf n s0, In cf cfs -> snd (cf_onFound cf n s0) = None) ->
  exists s1,
    forEach children
      (fun child => doubleCheck Node_Name DeepFindCollectible node child cfs) s
    = (s1,
       omap (fun child =>
               first_named Node_Name cfs child ≫= collected DeepFindCollectible node)
            children,
       Next tt).
Proof.
  intros Hok. revert s. induction children as [|child children IH]; intros s.
  - exists s. reflexivity.
  - destruct (doubleCheck_run node child cfs s Hok) as (s1 & E1).
    destruct (IH s1) as (s2 & E2).
    exists s2. cbn [forEach]. rewrite (parse_bind_next _ _ _ _ _ _ E1), E2.
    cbn [omap list_omap].
    destruct (first_named Node_Name cfs child ≫= collected DeepFindCollectible node);
      reflexivity.
Qed.

Lemma dispatch_run child (fs : list (Field Node schema_Schema Target)) seen s :
  (forall f n s0, In f fs -> snd (onFound f n s0) = None) ->
  exists s1,
    dispatch Node_Name child fs seen s
    = (s1,
       option_list ((fun f => OnFound (MapKey (name f)) child None)
                      <$> first_match Node_Name fs child),
       Next (match first_match Node_Name fs child with
             | Some f => {[ MapKey (name f) ]} ∪ seen
             | None => seen
             end)).
Proof.
  unfold first_match.
  induction fs as [|f fs IH]; intros Hok; cbn [dispatch List.find].
  - exists s. reflexivity.
  - destruct (Matches (name f) (Node_Name child)).
    + specialize (Hok f child s (or_introl eq_refl)).
      unfold bind, callback, check, ret.
      destruct (onFound f child s) as [s1 err]. cbn in Hok. subst err.
      exists s1. reflexivity.
    + apply IH. intros f' n s0 Hin. apply Hok. now right.
Qed.

Lemma dispatchAll_run children (fs : list (Field Node schema_Schema Target)) seen s :
  (forall f n s0, In f fs -> snd (onFound f n s0) = None) ->
  exists s1,
    dispatchAll Node_Name children fs seen s
    = (s1, found_events Node_Name fs children,
       Next (seen_keys Node_Name fs children ∪ seen)).
Proof.
  intros Hok. revert seen s.
  induction children as [|child children IH]; intros seen s.
  - exists s. cbn. unfold seen_keys. cbn. now rewrite union_empty_l_L.
  - destruct (dispatch_run child fs seen s Hok) as (s1 & E1).
    cbn [dispatchAll]. rewrite (parse_bind_next _ _ _ _ _ _ E1).
    match goal with
    | |- context [ dispatchAll Node_Name children fs ?seen1 s1 ] =>
        destruct (IH seen1 s1) as (s2 & E2)
    end.
    rewrite E2. exists s2.
    unfold found_events. rewrite seen_keys_cons. cbn [omap list_omap].
    destruct (first_match Node_Name fs child); cbn; [|reflexivity].
    rewrite (assoc_L (∪)), (comm_L (∪) (seen_keys Node_Name fs children)).
    reflexivity.
Qed.


(** X18.  When [Parse] returns nil, every required field has been seen:
    for each of them there is a child that was handed to a field with the
    same map key, which is the first field, in the order of their
    declaration, whose name matches the name of that child. *)
Theorem Parse_nil_has_seen_the_required_fields
    (parser : DefaultParser Node schema_Schema Target) node s :
  snd (Parse Node_Name Node_Children DeepFindCollectible ParserError Quote parser node s)
  = Return None ->
  forall f,
    In f (fields parser) -> required f = true ->
    exists child g,
      In child (Node_Children node) /\
      first_match Node_Name (fields parser) child = Some g /\
      MapKey (name g) = MapKey (name f).
Proof.
  unfold Parse. intros Hnil f Hin Hreq.
  set (pass1 := forEach (collectibleFields parser) _) in Hnil.
  assert (H1 : ends_well (pass1 s)).
  { apply ends_well_forEach. intros cf s1. apply ends_well_evaluateCollectible. }
  unfold bind at 1 in Hnil.
  destruct (pass1 s) as [[s1 t1] [[]|[e|]]]; simpl in H1;
    [|discriminate Hnil|destruct H1].
  set (pass2 := forEach (Node_Children node) _) in Hnil.
  assert (H2 : ends_well (pass2 s1)).
  { apply ends_well_forEach. intros child s2. apply ends_well_doubleCheck. }
  unfold bind at 1 in Hnil.
  destruct (pass2 s1) as [[s2 t2] [[]|[e|]]]; simpl in H2;
    [|discriminate Hnil|destruct H2].
  pose proof (ends_well_dispatchAll (Node_Children node) (fields parser) ∅ s2)
    as H3.
  unfold bind at 1 in Hnil.
  destruct (dispatchAll Node_Name (Node_Children node) (fields parser) ∅ s2)
    as [[s3 t3] [seen|[e|]]] eqn:E3; simpl in H3;
    [|discriminate Hnil|destruct H3].
  apply dispatchAll_seen in E3. rewrite union_empty_r_L in E3. subst seen.
  unfold bind in Hnil. rewrite checkRequired_run in Hnil.
  destruct (missing (fields parser)
              (seen_keys Node_Name (fields parser) (Node_Children node))) as [g|] eqn:E;
    [discriminate Hnil|].
  unfold missing in E.
  pose proof (find_none _ _ E f Hin) as Hf. cbn in Hf.
  rewrite Hreq in Hf. cbn in Hf. apply negb_false_iff in Hf.
  apply bool_decide_eq_true_1 in Hf.
  unfold seen_keys in Hf.
  apply elem_of_list_to_set, list_elem_of_omap in Hf as (child & Hchild & Hkey).
  destruct (first_match Node_Name (fields parser) child) as [g|] eqn:Eg;
    [|discriminate Hkey].
  exists child, g. split; [now apply list_elem_of_In|].
  split; [exact Eg|]. cbn in Hkey. congruence.
Qed.

(** X19.  [Parse] stops at the first callback that fails.  Either every
    callback that it has called has succeeded, and it returns nil or the
    error of a required field that was not set; or the callback that it
    has called last has failed, every one before has succeeded, and
    [Parse] returns the error of that callback as it is. *)
Theorem Parse_stops_at_the_first_error
    (parser : DefaultParser Node schema_Schema Target) node s :
  stops_at_first_error Quote ParserError node (fields parser)
    (Parse Node_Name Node_Children DeepFindCollectible ParserError Quote parser node s).
Proof.
  unfold Parse.
  apply stops_bind.
  { apply ends_well_forEach. intros cf s1. apply ends_well_evaluateCollectible. }
  intros _ s1. apply stops_bind.
  { apply ends_well_forEach. intros child s2. apply ends_well_doubleCheck. }
  intros _ s2. apply stops_bind; [apply ends_well_dispatchAll|].
  intros seen s3. unfold bind. rewrite checkRequired_run.
  exists []. split; [constructor|]. left.
  destruct (missing (fields parser) seen) as [f|] eqn:E; cbn.
  - split; [reflexivity|]. right. exists f.
    unfold missing in E. apply find_some in E as [Hin Hreq].
    apply andb_prop in Hreq as [Hreq _]. auto.
  - auto.
Qed.

End Passes.

(** ** [Schema] *)

(** A map filled by a loop holds, under a key, what the last element with
    that key has brought. *)
Lemma foldl_insert_last {A K V} `{Countable K} (key : A -> option K) (val : A -> V)
    (l : list A) (m0 : gmap K V) (n : K) :
  foldl (fun m x => match key x with
                    | Some k => <[k := val x]> m
                    | None => m
                    end) m0 l !! n
  = match last (List.filter (fun x => bool_decide (key x = Some n)) l) with
    | Some x => Some (val x)
    | None => m0 !! n
    end.
Proof.
  revert m0. induction l as [|x l IH]; intros m0; [reflexivity|].
  cbn [foldl List.filter]. rewrite IH.
  destruct (key x) as [k|] eqn:Ek.
  - destruct (decide (k = n)) as [->|Hne].
    + rewrite bool_decide_eq_true_2 by reflexivity.
      rewrite last_cons, lookup_insert_eq.
      now destruct (last (List.filter _ l)).
    + rewrite bool_decide_eq_false_2 by congruence.
      rewrite lookup_insert_ne by exact Hne. reflexivity.
  - rewrite bool_decide_eq_false_2 by discriminate. reflexivity.
Qed.

Section Schemas.

Context {Node schema_Schema Target : Type}.

(** X20.  The schema of a parser.  Its required properties are the
    names of the required fields, in the order of their declaration, and
    there are none when the parser is collectible.  Under a property it
    holds the schema of the last collectible field of that name, whatever
    fields have the name, and otherwise the schema of the last simple field
    of that name; under a pattern, the schema of the last field with that
    regular expression. *)
Theorem Schema_contents (parser : DefaultParser Node schema_Schema Target) :
  Required (Schema parser)
  = (if Collectible parser then []
     else List.map (fun f => Nameable_String (name f))
            (List.filter required (fields parser))) /\
  (forall n, Properties (Schema parser) !! n = property_schema parser n) /\
  (forall r,
      PatternProperties (Schema parser) !! r
      = match last (List.filter (fun f => bool_decide (pattern_of f = Some r))
                                (fields parser)) with
        | Some f => Some (schema f)
        | None => None
        end).
Proof.
  unfold Schema.
  match goal with
  | |- context [ foldl ?stepC (foldl ?stepF ?s0 _) _ ] =>
      set (collect := stepC); set (step := stepF); set (schema0 := s0)
  end.
  assert (HC : forall l s,
            Required (foldl collect s l) = Required s /\
            PatternProperties (foldl collect s l) = PatternProperties s /\
            Properties (foldl collect s l)
            = foldl (fun m cf => match Some (cf_Name cf) with
                                 | Some k => <[k := cf_Schema cf]> m
                                 | None => m
                                 end) (Properties s) l).
  { induction l as [|cf l IH]; intros s; [auto|].
    cbn [foldl]. destruct (IH (collect s cf)) as (-> & -> & ->). auto. }
  assert (HF : forall l s,
            Required (foldl step s l)
            = Required s ++
              (if Collectible parser then []
               else List.map (fun f => Nameable_String (name f))
                      (List.filter required l)) /\
            PatternProperties (foldl step s l)
            = foldl (fun m f => match pattern_of f with
                                | Some k => <[k := schema f]> m
                                | None => m
                                end) (PatternProperties s) l /\
            Properties (foldl step s l)
            = foldl (fun m f => match property_of f with
                                | Some k => <[k := schema f]> m
                                | None => m
                                end) (Properties s) l).
  { induction l as [|f l IH]; intros s.
    - cbn. destruct (Collectible parser); rewrite app_nil_r; auto.
    - cbn [foldl List.filter]. destruct (IH (step s f)) as (-> & -> & ->).
      unfold step, property_of, pattern_of.
      destruct (kind (name f)), (required f), (Collectible parser);
        cbn; rewrite <- ?app_assoc; auto. }
  destruct (HC (collectibleFields parser) (foldl step schema0 (fields parser)))
    as (-> & -> & ->).
  destruct (HF (fields parser) schema0) as (-> & -> & ->).
  split; [reflexivity|]. split.
  - intros n. unfold property_schema.
    rewrite (foldl_insert_last (fun cf => Some (cf_Name cf)) cf_Schema).
    rewrite (List.filter_ext _ (fun cf => String.eqb (cf_Name cf) n)).
    + destruct (last (List.filter _ (collectibleFields parser))); [reflexivity|].
      rewrite (foldl_insert_last property_of schema). cbn.
      now destruct (last (List.filter _ (fields parser))).
    + intros cf. destruct (String.eqb_spec (cf_Name cf) n) as [->|Hne].
      * now apply bool_decide_eq_true_2.
      * apply bool_decide_eq_false_2. congruence.
  - intros r. rewrite (foldl_insert_last pattern_of schema). cbn.
    now destruct (last (List.filter _ (fields parser))).
Qed.

End Schemas.

(** ** The properties, tried *)

Lemma example_parser_never_fails : never_fails example_parser.
Proof.
  split.
  - intros f n s Hin. simpl in Hin.
    destruct Hin as [<-|[<-|[<-|[]]]]; reflexivity.
  - intros cf n s Hin. simpl in Hin.
    destruct Hin as [<-|[]]. reflexivity.
Qed.


(** The node has the required field [name], and the parser returns
    nil. *)
Lemma Parse_nil_has_seen_the_required_fields_witness :
  exists child g,
    In child (tree_children small_node) /\
    first_match tree_name (fields small_parser) child = Some g /\
    MapKey (name g) = "name".
Proof.
  exact (Parse_nil_has_seen_the_required_fields tree_name tree_children find_child
           tree_error plain_quote small_parser small_node [] eq_refl
           name_field (or_introl eq_refl) eq_refl).
Defined.

End ParseableFacts.
